(** * Streaming component extraction and complexity scoring

    A shallow embedding of [scripts/extract-components.js]
    (class [ComponentExtractor]) and of the scoring functions of
    [scripts/analyze-bpmn.js] (class [BPMNAnalyzer]), with the properties of
    the specification stated and settled against them.

    Layout: [Js] holds the JavaScript values and string operations the
    scripts rely on, [Json] is [JSON.stringify(v, null, 2)], [Sax] is the
    contract of the [sax] stream the scripts subscribe to, [ComponentExtractor]
    and [BPMNAnalyzer] follow the two classes. *)

From stdpp Require Import base strings list gmap pretty.
From Stdlib Require Import ZArith Lia Ascii.

Set Warnings "-register-all,-clear-no-such-hyp".
Local Open Scope Z_scope.

(* ===================================================================== *)
(** ** JavaScript values and string operations *)
(* ===================================================================== *)

Module Js.

(** Strings are byte strings (the UTF-8 encoding of the JavaScript string). *)
Definition utf8 (bytes : list N) : string :=
  String.string_of_list_ascii (map ascii_of_N bytes).

(** The white space of [String.prototype.trim] and of [\s], in UTF-8: TAB,
    LF, VT, FF, CR and SPACE, then U+00A0, U+1680, U+2000 to U+200A, U+2028,
    U+2029, U+202F, U+205F, U+3000 and U+FEFF. *)
Definition whiteSpace : list string :=
  map utf8
    [ [9]; [10]; [11]; [12]; [13]; [32];
      [194; 160];
      [225; 154; 128];
      [226; 128; 128]; [226; 128; 129]; [226; 128; 130]; [226; 128; 131];
      [226; 128; 132]; [226; 128; 133]; [226; 128; 134]; [226; 128; 135];
      [226; 128; 136]; [226; 128; 137]; [226; 128; 138];
      [226; 128; 168]; [226; 128; 169];
      [226; 128; 175];
      [226; 129; 159];
      [227; 128; 128];
      [239; 187; 191] ]%N.

Fixpoint isPrefix (pre s : string) : bool :=
  match pre with
  | EmptyString => true
  | String a pre' =>
      match s with
      | String b s' => Ascii.eqb a b && isPrefix pre' s'
      | EmptyString => false
      end
  end.

(** The number of bytes of the white-space character [s] begins with, 0 when
    it begins with none. *)
Definition wsLength (s : string) : nat :=
  match List.find (fun w => isPrefix w s) whiteSpace with
  | Some w => String.length w
  | None => O
  end.

(** [s] without the white space it begins with; [skip] bytes still belong to
    the white-space character being removed. *)
Fixpoint dropSpaces (skip : nat) (s : string) : string :=
  match s with
  | EmptyString => EmptyString
  | String _ r =>
      match skip with
      | S k => dropSpaces k r
      | O =>
          match wsLength s with
          | S k => dropSpaces k r
          | O => s
          end
      end
  end.

Definition trimStart (s : string) : string := dropSpaces O s.

(** [s] is white space from its first byte to its last. *)
Fixpoint onlySpaces (skip : nat) (s : string) : bool :=
  match s with
  | EmptyString => true
  | String _ r =>
      match skip with
      | S k => onlySpaces k r
      | O =>
          match wsLength s with
          | S k => onlySpaces k r
          | O => false
          end
      end
  end.

Fixpoint trimEnd (s : string) : string :=
  match s with
  | String c r => if onlySpaces O s then EmptyString else String c (trimEnd r)
  | EmptyString => EmptyString
  end.

(** [s.trim()]. *)
Definition trim (s : string) : string := trimEnd (trimStart s).

(** [s.replace(/c/g, r)] for a one-character pattern. *)
Fixpoint replaceAll (c : ascii) (r : string) (s : string) : string :=
  match s with
  | String d rest =>
      if Ascii.eqb d c then r +:+ replaceAll c r rest
      else String d (replaceAll c r rest)
  | EmptyString => EmptyString
  end.

(** [s.replace(/\s+/g, ' ')]: every maximal run of white space becomes one
    space. *)
Fixpoint collapseFrom (skip : nat) (inRun : bool) (s : string) : string :=
  match s with
  | EmptyString => EmptyString
  | String c rest =>
      match skip with
      | S k => collapseFrom k inRun rest
      | O =>
          match wsLength s with
          | S k =>
              if inRun then collapseFrom k true rest
              else String " " (collapseFrom k true rest)
          | O => String c (collapseFrom O false rest)
          end
      end
  end.

Definition collapseSpaces (inRun : bool) (s : string) : string :=
  collapseFrom O inRun s.

Fixpoint repeatNat (s : string) (n : nat) : string :=
  match n with
  | O => EmptyString
  | S k => s +:+ repeatNat s k
  end.

(** [s.repeat(n)]. A negative count raises a RangeError in JavaScript; the
    model returns the empty string there. The only caller is
    [reconstructXML], and every buffer the [closetag] listener passes to it
    during a scan keeps the count at 0 or above. *)
Definition repeat (s : string) (n : Z) : string := repeatNat s (Z.to_nat n).

(** [s.toLowerCase()] on the ASCII letters, and on the one non-ASCII
    character whose lower case is an ASCII letter (KELVIN SIGN, U+212A,
    bytes E2 84 AA, which lower-cases to "k"). *)
Definition lowerAscii (c : ascii) : ascii :=
  let n := N_of_ascii c in
  if ((65 <=? n) && (n <=? 90))%N then ascii_of_N (n + 32) else c.

Fixpoint toLowerCase (s : string) : string :=
  match s with
  | String "226" (String "132" (String "170" rest)) =>
      String "k" (toLowerCase rest)
  | String c rest => String (lowerAscii c) (toLowerCase rest)
  | EmptyString => EmptyString
  end.

(** [list.includes(s)] on an array of strings. *)
Definition includes (l : list string) (s : string) : bool :=
  existsb (String.eqb s) l.

(** The attribute object the [sax] parser builds in namespace mode. *)
Record Attr := mkAttr {
  attr_name : string;
  attr_value : string;
  attr_prefix : string;
  attr_local : string;
  attr_uri : string
}.

(** The values that reach the extractor through [node.attributes]. *)
Inductive value :=
| Undefined
| Str (s : string)
| AttrObj (a : Attr).

(** An object as the list of its own properties in insertion order. The
    entry with the key [__proto__], when there is one, is not a property: it
    is the prototype of the object. Assigning an object to [o.__proto__] sets
    the prototype, assigning anything else to it does nothing, and no
    assignment makes an own property of that name. *)
Definition object := list (string * value).

Definition isProtoKey (k : string) : bool := String.eqb k "__proto__".

(** The first entry under [k]. *)
Fixpoint lookup (o : object) (k : string) : option value :=
  match o with
  | [] => None
  | (k', v) :: rest => if String.eqb k' k then Some v else lookup rest k
  end.

(** The property [k] of an attribute object. *)
Definition attrField (a : Attr) (k : string) : value :=
  if String.eqb k "name" then Str (attr_name a)
  else if String.eqb k "value" then Str (attr_value a)
  else if String.eqb k "prefix" then Str (attr_prefix a)
  else if String.eqb k "local" then Str (attr_local a)
  else if String.eqb k "uri" then Str (attr_uri a)
  else Undefined.

(** [o.k]: the own property, else the property of the prototype, else
    [undefined]. The scripts read no property that [Object.prototype]
    has. *)
Definition get (o : object) (k : string) : value :=
  match lookup o k with
  | Some v => v
  | None =>
      match lookup o "__proto__" with
      | Some (AttrObj a) => attrField a k
      | _ => Undefined
      end
  end.

(** [Object.entries(o)], and the properties [{...o}] copies: the own
    properties. *)
Definition entries (o : object) : object :=
  List.filter (fun kv => negb (isProtoKey (fst kv))) o.

(** [o.hasOwnProperty(k)]. *)
Definition has (o : object) (k : string) : bool :=
  match lookup (entries o) k with
  | Some _ => true
  | None => false
  end.

Fixpoint store (o : object) (k : string) (v : value) : object :=
  match o with
  | [] => [(k, v)]
  | (k', v') :: rest =>
      if String.eqb k' k then (k', v) :: rest else (k', v') :: store rest k v
  end.

(** [o[k] = v]: an existing property keeps its position. Under [__proto__]
    only an object is accepted. *)
Definition set (o : object) (k : string) (v : value) : object :=
  if isProtoKey k
  then match v with
       | AttrObj _ => store o k v
       | _ => o
       end
  else store o k v.

Definition truthy (v : value) : bool :=
  match v with
  | Undefined => false
  | Str s => negb (String.eqb s EmptyString)
  | AttrObj _ => true
  end.

(** [a || b]. *)
Definition or (a b : value) : value := if truthy a then a else b.

(** The string a template literal interpolates for a value. *)
Definition toString (v : value) : string :=
  match v with
  | Undefined => "undefined"
  | Str s => s
  | AttrObj _ => "[object Object]"
  end.

(** [v !== s] for a string [s]: an object is never strictly equal to a
    string. *)
Definition strictNeqStr (v : value) (s : string) : bool :=
  match v with
  | Str t => negb (String.eqb t s)
  | _ => true
  end.

Global Instance Attr_eq_dec : EqDecision Attr.
Proof. solve_decision. Defined.
Global Instance value_eq_dec : EqDecision value.
Proof. solve_decision. Defined.

End Js.

(* ===================================================================== *)
(** ** [JSON.stringify(v, null, 2)] *)
(* ===================================================================== *)

Module Json.

Inductive json :=
| JUndefined
| JString (s : string)
| JNumber (n : nat)
| JObject (fields : list (string * json))
| JArray (items : list json).

Definition nl : string := String "010" EmptyString.

Definition hexDigit (n : N) : ascii :=
  if (n <? 10)%N then ascii_of_N (48 + n) else ascii_of_N (87 + n).

(** One character of a quoted JSON string: the quote and the backslash are
    escaped, the control characters below U+0020 use their short escape or
    the [\u00XX] form, and every other byte is kept. *)
Definition quoteChar (c : ascii) : string :=
  let n := N_of_ascii c in
  if Ascii.eqb c "034" then String "092" (String "034" EmptyString)
  else if Ascii.eqb c "092" then String "092" (String "092" EmptyString)
  else if Ascii.eqb c "008" then "\b"
  else if Ascii.eqb c "009" then "\t"
  else if Ascii.eqb c "010" then "\n"
  else if Ascii.eqb c "012" then "\f"
  else if Ascii.eqb c "013" then "\r"
  else if (n <? 32)%N
       then "\u00" +:+ String (hexDigit (n / 16)) (String (hexDigit (n mod 16)) EmptyString)
       else String c EmptyString.

Fixpoint quoteBody (s : string) : string :=
  match s with
  | String c rest => quoteChar c +:+ quoteBody rest
  | EmptyString => EmptyString
  end.

Definition quote (s : string) : string :=
  String "034" (quoteBody s +:+ String "034" EmptyString).

(** [ser ind v] is the text of [v] at the current indentation [ind], or
    [None] when [v] is [undefined]. A property whose value is [undefined] is
    left out of an object; an [undefined] array element is written [null]. *)
Fixpoint ser (ind : string) (v : json) : option string :=
  match v with
  | JUndefined => None
  | JString s => Some (quote s)
  | JNumber n => Some (pretty n)
  | JObject fields =>
      let ind' := ind +:+ "  " in
      let parts :=
        (fix props (fs : list (string * json)) : list string :=
           match fs with
           | [] => []
           | (k, x) :: rest =>
               match ser ind' x with
               | Some t => (quote k +:+ ": " +:+ t) :: props rest
               | None => props rest
               end
           end) fields in
      Some (match parts with
            | [] => "{}"
            | _ => "{" +:+ nl +:+ ind' +:+
                   String.concat ("," +:+ nl +:+ ind') parts +:+
                   nl +:+ ind +:+ "}"
            end)
  | JArray items =>
      let ind' := ind +:+ "  " in
      let parts :=
        (fix elems (xs : list json) : list string :=
           match xs with
           | [] => []
           | x :: rest => default "null" (ser ind' x) :: elems rest
           end) items in
      Some (match parts with
            | [] => "[]"
            | _ => "[" +:+ nl +:+ ind' +:+
                   String.concat ("," +:+ nl +:+ ind') parts +:+
                   nl +:+ ind +:+ "]"
            end)
  end.

(** [JSON.stringify(v, null, 2)] of a value that is not [undefined]. *)
Definition stringify (v : json) : string := default "undefined" (ser EmptyString v).

Definition ofAttr (a : Js.Attr) : json :=
  JObject [("name", JString (Js.attr_name a));
           ("value", JString (Js.attr_value a));
           ("prefix", JString (Js.attr_prefix a));
           ("local", JString (Js.attr_local a));
           ("uri", JString (Js.attr_uri a))].

Definition ofValue (v : Js.value) : json :=
  match v with
  | Js.Undefined => JUndefined
  | Js.Str s => JString s
  | Js.AttrObj a => ofAttr a
  end.

Definition ofObject (o : Js.object) : json :=
  JObject (map (fun kv => (fst kv, ofValue (snd kv))) o).

End Json.

(* ===================================================================== *)
(** ** The [sax] stream (collaborator contract) *)
(* ===================================================================== *)

Module Sax.

(** The [sax] package is an external dependency of the scripts. This module
    states what its strict stream hands to the listeners of a script under
    the options the script passes; the tokenizer itself is not modelled, a
    document is given as the sequence of tokens read from it. *)

(** The options object of [sax.createStream(true, options)]. The stream is
    strict, so [lowercase] has no effect. *)
Record Options := mkOptions {
  trim : bool;
  normalize : bool;
  lowercase : bool;
  xmlns : bool
}.

(** What the tokenizer reads from the document, before the options are
    applied: a start tag with its attributes in document order (each with
    its qualified-name parts and resolved namespace), character data, an end
    tag, a well-formedness error, the end of the stream. A self-closing tag
    is a [TOpen] immediately followed by a [TClose].

    A strict parser does not stop at an error. The stream clears it and the
    parser goes on with the input it was given: after the error of an end
    tag that does not close the innermost element come the end tags of the
    elements that tag closes, and whatever the rest of the input holds. When
    the input ends inside an element the parser flushes the pending text,
    reports the error [Unclosed root tag] and then signals the end. The
    listeners of a script therefore receive events after an error, and a
    document is the list of all the tokens that reach them. *)
Inductive Token :=
| TOpen (name : string) (attrs : list Js.Attr)
| TText (data : string)
| TClose (name : string)
| TError (message : string)
| TEnd.

(** The node handed to an [opentag] listener. *)
Record Tag := mkTag {
  name : string;
  attributes : Js.object
}.

(** The events a listener receives. *)
Inductive Event :=
| OpenTag (node : Tag)
| Text (text : string)
| CloseTag (tagName : string)
| Error (error : string)
| End.

(** The attributes object of a node. In namespace mode ([xmlns: true]) the
    parser stores every attribute as the object
    [{name, value, prefix, local, uri}] ([tag.attributes[name] = a] when the
    tag opens); otherwise the property is the attribute's string value and a
    repeated attribute name is ignored. An attribute named [__proto__] makes
    no property: in namespace mode its object becomes the prototype of the
    attributes object, otherwise the assignment of its string does
    nothing. *)
Fixpoint attributesOf (opts : Options) (acc : Js.object) (attrs : list Js.Attr)
  : Js.object :=
  match attrs with
  | [] => acc
  | a :: rest =>
      if xmlns opts
      then attributesOf opts (Js.set acc (Js.attr_name a) (Js.AttrObj a)) rest
      else if Js.has acc (Js.attr_name a)
           then attributesOf opts acc rest
           else attributesOf opts
                  (Js.set acc (Js.attr_name a) (Js.Str (Js.attr_value a))) rest
  end.

Definition textopts (opts : Options) (text : string) : string :=
  let t := if trim opts then Js.trim text else text in
  if normalize opts then Js.collapseSpaces false t else t.

(** The events one token gives rise to. Character data that is empty after
    [textopts] is not reported. *)
Definition emit (opts : Options) (t : Token) : list Event :=
  match t with
  | TOpen n attrs => [OpenTag (mkTag n (attributesOf opts [] attrs))]
  | TText d =>
      match textopts opts d with
      | EmptyString => []
      | d' => [Text d']
      end
  | TClose n => [CloseTag n]
  | TError m => [Error m]
  | TEnd => [End]
  end.

Definition emitAll (opts : Options) (doc : list Token) : list Event :=
  concat (map (emit opts) doc).

(** An attribute without a namespace prefix, as [qname] splits it. *)
Definition plain (n v : string) : Js.Attr :=
  Js.mkAttr n v EmptyString n EmptyString.

End Sax.

(* ===================================================================== *)
(** ** [class ComponentExtractor] *)
(* ===================================================================== *)

Module ComponentExtractor.

(** A call either returns or throws (a [TypeError]). *)
Inductive Completion (A : Type) :=
| Normal (a : A)
| Throws (error : string).
Arguments Normal {A} a.
Arguments Throws {A} error.

Global Instance Completion_bind : MBind Completion := fun A B k c =>
  match c with
  | Normal a => k a
  | Throws e => Throws e
  end.

(** The arguments of [new ComponentExtractor(outputDir)] and of
    [extract(xmlFilePath, componentType, componentId)]; [componentId] is
    [null] when absent. [outputDir] is a normalized path without a trailing
    separator, as the command line builds it with [path.join]. *)
Record Params := mkParams {
  outputDir : string;
  componentType : string;
  componentId : option string
}.

(** [componentMetadata]: [{type, id, name, attributes}]. *)
Record Metadata := mkMetadata {
  md_type : string;
  md_id : Js.value;
  md_name : Js.value;
  md_attributes : Js.object
}.

(** An entry of [capturedContent]. *)
Inductive Item :=
| ItemOpen (name : string) (attributes : Js.object) (depth : Z)
| ItemText (value : string)
| ItemClose (name : string) (depth : Z).

(** The fields of the extractor that [extract] uses, with the variables its
    listeners close over ([currentDepth], [capturedContent],
    [componentMetadata]). *)
Record State := mkState {
  components : list Metadata;
  captureDepth : Z;
  capturingContent : bool;
  currentDepth : Z;
  capturedContent : list Item;
  componentMetadata : option Metadata
}.

Definition initial : State :=
  {| components := []; captureDepth := 0; capturingContent := false;
     currentDepth := 0; capturedContent := []; componentMetadata := None |}.

(** The value [extract] resolves with. *)
Record Result := mkResult {
  extractedCount : nat;
  res_components : list Metadata;
  res_outputDir : string
}.

(** What the script does to the outside: the file system, the console and
    the promise returned by [extract]. File operations are assumed to
    succeed. *)
Inductive Effect :=
| MkdirIfMissing (dir : string)
| WriteFile (path content : string)
| ConsoleLog (line : string)
| ConsoleError (line : string)
| Resolve (r : Result)
| Reject (error : string).

(** [path.join(a, b)] for a normalized [a] and a plain segment [b]. *)
Definition pathJoin (a b : string) : string := a +:+ "/" +:+ b.

(** The options [extract] creates its stream with. *)
Definition saxOptions : Sax.Options :=
  {| Sax.trim := false; Sax.normalize := false; Sax.lowercase := false;
     Sax.xmlns := true |}.

(** [typeMap[key]]: an own property, a property inherited from
    [Object.prototype], or nothing. *)
Inductive Lookup :=
| Own (tags : list string)
| Inherited
| Missing.

Definition objectPrototypeKeys : list string :=
  ["constructor"; "__proto__"; "hasOwnProperty"; "isPrototypeOf";
   "propertyIsEnumerable"; "toLocaleString"; "toString"; "valueOf";
   "__defineGetter__"; "__defineSetter__"; "__lookupGetter__";
   "__lookupSetter__"].

Definition typeMap (key : string) : Lookup :=
  if String.eqb key "coachview" then Own ["coachView"]
  else if String.eqb key "service" then Own ["humanService"; "service"]
  else if String.eqb key "process" then Own ["process"; "bpdProcess"]
  else if String.eqb key "task" then Own ["serviceTask"; "scriptTask"; "userTask"]
  else if Js.includes objectPrototypeKeys key then Inherited
  else Missing.

Definition allTags : list string :=
  ["coachView"; "humanService"; "service"; "process"; "bpdProcess"; "serviceTask"].

Definition idFilterRejects (p : Params) (attributes : Js.object) : bool :=
  match componentId p with
  | Some cid =>
      negb (String.eqb cid EmptyString) && Js.strictNeqStr (Js.get attributes "id") cid
  | None => false
  end.

(** [shouldCapture(tagName, attributes)]. An inherited [typeMap] entry has no
    [includes] method, so the call throws. *)
Definition shouldCapture (p : Params) (tagName : string) (attributes : Js.object)
  : Completion bool :=
  if idFilterRejects p attributes then Normal false
  else if String.eqb (componentType p) "all" then Normal (Js.includes allTags tagName)
  else match typeMap (Js.toLowerCase (componentType p)) with
       | Own tags => Normal (Js.includes tags tagName)
       | Missing => Normal false
       | Inherited => Throws "TypeError: typeMap[...]?.includes is not a function"
       end.

(** [escapeXML(str)]: a value that is not a string is returned as it is. *)
Definition escapeXML (v : Js.value) : Js.value :=
  match v with
  | Js.Str s =>
      Js.Str (Js.replaceAll "'" "&apos;"
               (Js.replaceAll "034" "&quot;"
                 (Js.replaceAll ">" "&gt;"
                   (Js.replaceAll "<" "&lt;"
                     (Js.replaceAll "&" "&amp;" s)))))
  | _ => v
  end.

Definition indent : string := "  ".

Definition dq : string := String "034" EmptyString.

(** The loop over [Object.entries(item.attributes)], on these entries. *)
Fixpoint attributesXML (entries : Js.object) : string :=
  match entries with
  | [] => EmptyString
  | (key, value) :: rest =>
      " " +:+ key +:+ "=" +:+ dq +:+ Js.toString (escapeXML value) +:+ dq
      +:+ attributesXML rest
  end.

(** The loop of [reconstructXML], from the text built so far and the current
    [indentLevel]. *)
Fixpoint reconstructFrom (xml : string) (indentLevel : Z) (items : list Item)
  : string :=
  match items with
  | [] => xml
  | ItemOpen name attributes _ :: rest =>
      reconstructFrom
        (xml +:+ Js.repeat indent indentLevel +:+ "<" +:+ name
             +:+ attributesXML (Js.entries attributes) +:+ ">" +:+ Json.nl)
        (indentLevel + 1) rest
  | ItemText value :: rest =>
      reconstructFrom
        (xml +:+ Js.repeat indent indentLevel
             +:+ Js.toString (escapeXML (Js.Str (Js.trim value))) +:+ Json.nl)
        indentLevel rest
  | ItemClose name _ :: rest =>
      reconstructFrom
        (xml +:+ Js.repeat indent (indentLevel - 1) +:+ "</" +:+ name +:+ ">" +:+ Json.nl)
        (indentLevel - 1) rest
  end.

Definition prologue : string :=
  "<?xml version=" +:+ dq +:+ "1.0" +:+ dq +:+ " encoding=" +:+ dq +:+ "UTF-8"
  +:+ dq +:+ "?>" +:+ Json.nl.

Definition reconstructXML (capturedContent : list Item) : string :=
  reconstructFrom prologue 0 capturedContent.

Definition metadataJson (m : Metadata) : Json.json :=
  Json.JObject [("type", Json.JString (md_type m));
                ("id", Json.ofValue (md_id m));
                ("name", Json.ofValue (md_name m));
                ("attributes", Json.ofObject (md_attributes m))].

Definition baseName (m : Metadata) : string :=
  Js.toString (Js.or (md_id m) (Js.Str "unnamed")).

Definition xmlPathOf (p : Params) (m : Metadata) : string :=
  pathJoin (pathJoin (outputDir p) (md_type m)) (baseName m +:+ ".xml").

Definition jsonPathOf (p : Params) (m : Metadata) : string :=
  pathJoin (pathJoin (outputDir p) (md_type m)) (baseName m +:+ ".json").

(** [saveComponent(metadata, capturedContent)]. *)
Definition saveComponent (p : Params) (metadata : Metadata)
    (capturedContent : list Item) : list Effect :=
  [ MkdirIfMissing (pathJoin (outputDir p) (md_type metadata));
    WriteFile (xmlPathOf p metadata) (reconstructXML capturedContent);
    WriteFile (jsonPathOf p metadata) (Json.stringify (metadataJson metadata));
    ConsoleLog ("Extracted: " +:+ md_type metadata +:+ "/"
                +:+ Js.toString (Js.or (md_name metadata) (md_id metadata))) ].

Definition withDepth (d : Z) (s : State) : State :=
  {| components := components s; captureDepth := captureDepth s;
     capturingContent := capturingContent s; currentDepth := d;
     capturedContent := capturedContent s;
     componentMetadata := componentMetadata s |}.

(** [capturedContent.push(item)]. *)
Definition push (item : Item) (s : State) : State :=
  {| components := components s; captureDepth := captureDepth s;
     capturingContent := capturingContent s; currentDepth := currentDepth s;
     capturedContent := capturedContent s ++ [item];
     componentMetadata := componentMetadata s |}.

Definition metadataOf (node : Sax.Tag) : Metadata :=
  {| md_type := Sax.name node;
     md_id := Js.get (Sax.attributes node) "id";
     md_name := Js.or (Js.get (Sax.attributes node) "name")
                      (Js.get (Sax.attributes node) "id");
     md_attributes := Js.entries (Sax.attributes node) |}.

(** The body of [if (!this.capturingContent && shouldCapture(...))]. *)
Definition startCapture (node : Sax.Tag) (s : State) : State :=
  {| components := components s; captureDepth := currentDepth s;
     capturingContent := true; currentDepth := currentDepth s;
     capturedContent := [];
     componentMetadata := Some (metadataOf node) |}.

(** The body of [if (currentDepth === this.captureDepth)], after
    [saveComponent]. *)
Definition finishCapture (m : Metadata) (s : State) : State :=
  {| components := components s ++ [m]; captureDepth := captureDepth s;
     capturingContent := false; currentDepth := currentDepth s;
     capturedContent := [];
     componentMetadata := None |}.

(** [saxStream.on('opentag', ...)]. *)
Definition onOpenTag (p : Params) (node : Sax.Tag) (s : State)
  : Completion (State * list Effect) :=
  starts ← (if capturingContent s then Normal false
            else shouldCapture p (Sax.name node) (Sax.attributes node));
  let s1 := if starts : bool then startCapture node s else s in
  let s2 := if capturingContent s1
            then push (ItemOpen (Sax.name node) (Sax.attributes node)
                                (currentDepth s1 - captureDepth s1)) s1
            else s1 in
  Normal (withDepth (currentDepth s2 + 1) s2, []).

(** [saxStream.on('text', ...)]. *)
Definition onText (text : string) (s : State) : Completion (State * list Effect) :=
  if capturingContent s && Js.truthy (Js.Str (Js.trim text))
  then Normal (push (ItemText text) s, [])
  else Normal (s, []).

(** [saxStream.on('closetag', ...)]. [componentMetadata] is an object whenever
    a capture is active; [saveComponent(null, ...)] would throw. *)
Definition onCloseTag (p : Params) (tagName : string) (s : State)
  : Completion (State * list Effect) :=
  let s1 := withDepth (currentDepth s - 1) s in
  if capturingContent s1 then
    let s2 := push (ItemClose tagName (currentDepth s1 - captureDepth s1)) s1 in
    if currentDepth s2 =? captureDepth s2 then
      match componentMetadata s2 with
      | Some m => Normal (finishCapture m s2, saveComponent p m (capturedContent s2))
      | None => Throws "TypeError: Cannot read properties of null (reading 'type')"
      end
    else Normal (s2, [])
  else Normal (s1, []).

(** [saxStream.on('error', ...)]. The console line is the label followed by
    the message of the error. *)
Definition onError (error : string) (s : State) : Completion (State * list Effect) :=
  Normal (s, [ConsoleError ("SAX Parser Error: " +:+ error); Reject error]).

(** [saxStream.on('end', ...)]. *)
Definition onEnd (p : Params) (s : State) : Completion (State * list Effect) :=
  Normal (s, [Resolve {| extractedCount := length (components s);
                         res_components := components s;
                         res_outputDir := outputDir p |}]).

Definition handle (p : Params) (ev : Sax.Event) (s : State)
  : Completion (State * list Effect) :=
  match ev with
  | Sax.OpenTag node => onOpenTag p node s
  | Sax.Text text => onText text s
  | Sax.CloseTag tagName => onCloseTag p tagName s
  | Sax.Error error => onError error s
  | Sax.End => onEnd p s
  end.

(** A scan: the state reached, the effects performed, and the exception that
    stopped it when a listener threw. *)
Record Run := mkRun {
  final : State;
  trace : list Effect;
  uncaught : option string
}.

Fixpoint feed (p : Params) (events : list Sax.Event) (s : State) : Run :=
  match events with
  | [] => {| final := s; trace := []; uncaught := None |}
  | ev :: rest =>
      match handle p ev s with
      | Throws e => {| final := s; trace := []; uncaught := Some e |}
      | Normal (s', out) =>
          let r := feed p rest s' in
          {| final := final r; trace := out ++ trace r; uncaught := uncaught r |}
      end
  end.

(** [extract(xmlFilePath, componentType, componentId)] on the token stream of
    the file at [xmlFilePath], for a fresh extractor. *)
Definition extract (p : Params) (doc : list Sax.Token) : Run :=
  feed p (Sax.emitAll saxOptions doc) initial.

(** The promise of [extract] settles once: the first [resolve] or [reject]
    wins. *)
Fixpoint settled (es : list Effect) : option (Result + string) :=
  match es with
  | [] => None
  | Resolve r :: _ => Some (inl r)
  | Reject e :: _ => Some (inr e)
  | _ :: rest => settled rest
  end.

Definition indexEntry (c : Metadata) : Json.json :=
  Json.JObject [("type", Json.JString (md_type c));
                ("id", Json.ofValue (md_id c));
                ("name", Json.ofValue (md_name c));
                ("path", Json.JString (md_type c +:+ "/" +:+ Js.toString (md_id c) +:+ ".xml"))].

Definition indexJson (now : string) (cs : list Metadata) : Json.json :=
  Json.JObject [("extractedAt", Json.JString now);
                ("totalComponents", Json.JNumber (length cs));
                ("components", Json.JArray (map indexEntry cs))].

Definition indexPath (p : Params) : string := pathJoin (outputDir p) "index.json".

(** [generateIndex()]; [now] is what [new Date().toISOString()] returns. *)
Definition generateIndex (p : Params) (now : string) (s : State) : list Effect :=
  [ WriteFile (indexPath p) (Json.stringify (indexJson now (components s)));
    ConsoleLog (Json.nl +:+ "Index saved to: " +:+ indexPath p) ].

(** What a run of the script leaves behind: its effects in order and the exit
    status of the process. *)
Record Outcome := mkOutcome {
  effects : list Effect;
  exitCode : Z
}.

Definition banner (xmlFilePath : string) (p : Params) : list Effect :=
  [ MkdirIfMissing (outputDir p);
    ConsoleLog ("Extracting components from: " +:+ xmlFilePath);
    ConsoleLog ("Component type: " +:+ componentType p) ]
  ++ match componentId p with
     | Some cid =>
         if String.eqb cid EmptyString then []
         else [ConsoleLog ("Component ID filter: " +:+ cid)]
     | None => []
     end
  ++ [ ConsoleLog ("Output directory: " +:+ outputDir p +:+ Json.nl) ].

(** The [then] callback of the main block. *)
Definition onResolved (p : Params) (now : string) (result : Result) (s : State)
  : list Effect :=
  [ ConsoleLog (Json.nl +:+ "=== EXTRACTION COMPLETE ===");
    ConsoleLog ("Total components extracted: " +:+ pretty (extractedCount result));
    ConsoleLog ("Output directory: " +:+ res_outputDir result) ]
  ++ generateIndex p now s
  ++ [ ConsoleLog (Json.nl +:+ "Next steps:");
       ConsoleLog "1. Review extracted components in the output directory";
       ConsoleLog "2. Use generate-templates.js to create React/Node.js code";
       ConsoleLog "3. Check index.json for component inventory" ].

(** The main block, once the arguments are validated and the source file is
    known to exist: the constructor and the banner, the scan, then the
    [then] or [catch] callback of the promise, which runs after the
    listeners. An exception a listener throws is not caught: the process
    prints it and exits with status 1. [process.exit(1)] is the last thing
    the [catch] callback does. *)
Definition main (xmlFilePath : string) (p : Params) (doc : list Sax.Token)
    (now : string) : Outcome :=
  let r := extract p doc in
  match uncaught r with
  | Some e =>
      {| effects := banner xmlFilePath p ++ trace r ++ [ConsoleError ("Uncaught " +:+ e)];
         exitCode := 1 |}
  | None =>
      match settled (trace r) with
      | Some (inl result) =>
          {| effects := banner xmlFilePath p ++ trace r
                        ++ onResolved p now result (final r);
             exitCode := 0 |}
      | Some (inr error) =>
          {| effects := banner xmlFilePath p ++ trace r
                        ++ [ConsoleError ("Error extracting components: " +:+ error)];
             exitCode := 1 |}
      | None => {| effects := banner xmlFilePath p ++ trace r; exitCode := 0 |}
      end
  end.

(** The file system and the console. *)
Record World := mkWorld {
  files : gmap string string;
  dirs : gset string;
  stdout : list string;
  stderr : list string
}.

Definition perform (w : World) (e : Effect) : World :=
  match e with
  | MkdirIfMissing d =>
      if decide (d ∈ dirs w) then w
      else {| files := files w; dirs := {[d]} ∪ dirs w;
              stdout := stdout w; stderr := stderr w |}
  | WriteFile path content =>
      {| files := <[path := content]> (files w); dirs := dirs w;
         stdout := stdout w; stderr := stderr w |}
  | ConsoleLog l =>
      {| files := files w; dirs := dirs w;
         stdout := stdout w ++ [l]; stderr := stderr w |}
  | ConsoleError l =>
      {| files := files w; dirs := dirs w;
         stdout := stdout w; stderr := stderr w ++ [l] |}
  | Resolve _ | Reject _ => w
  end.

Definition performAll (w : World) (es : list Effect) : World :=
  foldl perform w es.

(** The files an effect list writes, in order. *)
Fixpoint writes (es : list Effect) : list (string * string) :=
  match es with
  | [] => []
  | WriteFile path content :: rest => (path, content) :: writes rest
  | _ :: rest => writes rest
  end.

End ComponentExtractor.

(* ===================================================================== *)
(** ** [class BPMNAnalyzer]: the complexity score *)
(* ===================================================================== *)

Module BPMNAnalyzer.

(** An element recorded in [coachViews], [humanServices], [bpdProcesses] or
    [serviceTasks]; [entry_extra] is the list's own field ([type],
    [isExecutable] or [implementation]). *)
Record Entry := mkEntry {
  entry_id : Js.value;
  entry_name : Js.value;
  entry_extra : Js.value;
  nestingLevel : Z;
  path : list string;
  entry_attributes : Js.object
}.

(** The fields the constructor initialises. *)
Record Analyzer := mkAnalyzer {
  coachViews : list Entry;
  humanServices : list Entry;
  bpdProcesses : list Entry;
  serviceTasks : list Entry;
  dataBindings : gset string;
  nestingDepth : Z;
  maxNestingDepth : Z;
  currentPath : list string;
  elementCounts : gmap string nat
}.

(** [calculateComplexityScore()]. *)
Definition calculateComplexityScore (a : Analyzer) : Z :=
  let componentScore :=
    (Z.of_nat (length (coachViews a)) + Z.of_nat (length (humanServices a))) * 2 in
  let nestingScore := maxNestingDepth a * 5 in
  let bindingScore := Z.of_nat (size (dataBindings a)) * 1 in
  let serviceScore := Z.of_nat (length (serviceTasks a)) * 3 in
  componentScore + nestingScore + bindingScore + serviceScore.

(** The four recommendations, in the order of the thresholds. *)
Inductive Tier := LOW | MEDIUM | HIGH | VERY_HIGH.

Definition tierOf (score : Z) : Tier :=
  if score <? 50 then LOW
  else if score <? 150 then MEDIUM
  else if score <? 300 then HIGH
  else VERY_HIGH.

Definition tierLabel (t : Tier) : string :=
  match t with
  | LOW => "LOW: Can be converted in a single pass"
  | MEDIUM => "MEDIUM: Recommend component-by-component conversion"
  | HIGH => "HIGH: Requires chunked processing and template generation"
  | VERY_HIGH => "VERY HIGH: Requires incremental migration with multiple templates"
  end.

Definition tierRank (t : Tier) : nat :=
  match t with
  | LOW => 0
  | MEDIUM => 1
  | HIGH => 2
  | VERY_HIGH => 3
  end.

(** [getComplexityRecommendation()]. *)
Definition getComplexityRecommendation (a : Analyzer) : string :=
  tierLabel (tierOf (calculateComplexityScore a)).

(** The [factors] object of [calculateComplexity()]. *)
Record Factors := mkFactors {
  componentCount : Z;
  factorNestingDepth : Z;
  dataBindingComplexity : Z;
  serviceTaskCount : Z
}.

Record Complexity := mkComplexity {
  score : Z;
  factors : Factors;
  recommendation : string
}.

(** [calculateComplexity()]. *)
Definition calculateComplexity (a : Analyzer) : Complexity :=
  {| score := calculateComplexityScore a;
     factors :=
       {| componentCount :=
            Z.of_nat (length (coachViews a)) + Z.of_nat (length (humanServices a))
            + Z.of_nat (length (bpdProcesses a));
          factorNestingDepth := maxNestingDepth a;
          dataBindingComplexity := Z.of_nat (size (dataBindings a));
          serviceTaskCount := Z.of_nat (length (serviceTasks a)) |};
     recommendation := getComplexityRecommendation a |}.

End BPMNAnalyzer.

(* ===================================================================== *)
(** ** Vocabulary for the statements *)
(* ===================================================================== *)

Module Scan.

Import ComponentExtractor.

(** Well-formed element content: every end tag closes the innermost open
    element. [nesting stack events] is the stack of open elements left. *)
Fixpoint nesting (stack : list string) (events : list Sax.Event)
  : option (list string) :=
  match events with
  | [] => Some stack
  | Sax.OpenTag node :: rest => nesting (Sax.name node :: stack) rest
  | Sax.Text _ :: rest => nesting stack rest
  | Sax.CloseTag n :: rest =>
      match stack with
      | top :: below => if String.eqb top n then nesting below rest else None
      | [] => None
      end
  | Sax.Error _ :: _ => None
  | Sax.End :: _ => None
  end.

Definition wellNested (events : list Sax.Event) : Prop :=
  nesting [] events = Some [].

(** The depth, relative to the element being captured, after [events] when
    the capture is still running ([None] once an end tag has brought the
    depth back to where the capture began). *)
Fixpoint inside (d : Z) (events : list Sax.Event) : option Z :=
  match events with
  | [] => Some d
  | Sax.OpenTag _ :: rest => inside (d + 1) rest
  | Sax.CloseTag _ :: rest => if d - 1 =? 0 then None else inside (d - 1) rest
  | _ :: rest => inside d rest
  end.

(** The buffer entries recorded for [events] from relative depth [d]. *)
Fixpoint buffered (d : Z) (events : list Sax.Event) : list Item :=
  match events with
  | [] => []
  | Sax.OpenTag node :: rest =>
      ItemOpen (Sax.name node) (Sax.attributes node) d :: buffered (d + 1) rest
  | Sax.Text text :: rest =>
      if Js.truthy (Js.Str (Js.trim text))
      then ItemText text :: buffered d rest
      else buffered d rest
  | Sax.CloseTag n :: rest => ItemClose n (d - 1) :: buffered (d - 1) rest
  | _ :: rest => buffered d rest
  end.

(** What the [error] and [end] listeners do during [events], for an
    extractor whose component list is [cs]. *)
Definition signal (p : Params) (cs : list Metadata) (ev : Sax.Event) : list Effect :=
  match ev with
  | Sax.Error e => [ConsoleError ("SAX Parser Error: " +:+ e); Reject e]
  | Sax.End => [Resolve {| extractedCount := length cs; res_components := cs;
                           res_outputDir := outputDir p |}]
  | _ => []
  end.

Definition signals (p : Params) (cs : list Metadata) (events : list Sax.Event)
  : list Effect :=
  concat (map (signal p cs) events).

(** No capture is running. *)
Definition idle (s : State) : Prop :=
  capturingContent s = false /\ capturedContent s = [] /\ componentMetadata s = None.

(** The files written for one component. *)
Definition componentWrites (p : Params) (saved : Metadata * list Item)
  : list (string * string) :=
  [ (xmlPathOf p (fst saved), reconstructXML (snd saved));
    (jsonPathOf p (fst saved), Json.stringify (metadataJson (fst saved))) ].

(** The last content written to [path]. *)
Fixpoint lastWrite (path : string) (ws : list (string * string)) : option string :=
  match ws with
  | [] => None
  | (q, c) :: rest =>
      match lastWrite path rest with
      | Some c' => Some c'
      | None => if String.eqb q path then Some c else None
      end
  end.

(** A token that is neither the error nor the end of the stream. *)
Definition isContent (t : Sax.Token) : bool :=
  match t with
  | Sax.TError _ | Sax.TEnd => false
  | _ => true
  end.

(** The documents of the scenarios. *)

(** [<svc><coachView id="A"><coachView id="B"/></coachView></svc>] *)
Definition docNested : list Sax.Token :=
  [ Sax.TOpen "svc" [];
    Sax.TOpen "coachView" [Sax.plain "id" "A"];
    Sax.TOpen "coachView" [Sax.plain "id" "B"];
    Sax.TClose "coachView";
    Sax.TClose "coachView";
    Sax.TClose "svc";
    Sax.TEnd ].

(** [<a><b></a>]: the end tag does not close the innermost element. The
    parser reports the error, then closes [b] and [a], and signals the end
    when its input is closed. *)
Definition docMalformed : list Sax.Token :=
  [ Sax.TOpen "a" [];
    Sax.TOpen "b" [];
    Sax.TError "Unexpected close tag";
    Sax.TClose "b";
    Sax.TClose "a";
    Sax.TEnd ].

(** [<r><coachView id="A"/><b></r>]: the error comes after a complete
    matched element. *)
Definition docMalformedAfterMatch : list Sax.Token :=
  [ Sax.TOpen "r" [];
    Sax.TOpen "coachView" [Sax.plain "id" "A"];
    Sax.TClose "coachView";
    Sax.TOpen "b" [];
    Sax.TError "Unexpected close tag";
    Sax.TClose "b";
    Sax.TClose "r";
    Sax.TEnd ].

(** [<r><coachView id="A"><b></coachView></r>]: the error comes inside a
    matched element, whose end tag the parser still delivers. *)
Definition docMalformedInside : list Sax.Token :=
  [ Sax.TOpen "r" [];
    Sax.TOpen "coachView" [Sax.plain "id" "A"];
    Sax.TOpen "b" [];
    Sax.TError "Unexpected close tag";
    Sax.TClose "b";
    Sax.TClose "coachView";
    Sax.TClose "r";
    Sax.TEnd ].



(** [<svc><coachView/><coachView/></svc>]: two elements without an id. *)
Definition docNoId : list Sax.Token :=
  [ Sax.TOpen "svc" [];
    Sax.TOpen "coachView" [Sax.plain "name" "first"];
    Sax.TClose "coachView";
    Sax.TOpen "coachView" [Sax.plain "name" "second"];
    Sax.TClose "coachView";
    Sax.TClose "svc";
    Sax.TEnd ].

(** [<coachView id="A&amp;B">Tom &amp; Jerry</coachView>] and the same
    element with another id. *)
Definition docEscapeA : list Sax.Token :=
  [ Sax.TOpen "coachView" [Sax.plain "id" "A&B"];
    Sax.TText "Tom & Jerry";
    Sax.TClose "coachView";
    Sax.TEnd ].

Definition docEscapeZ : list Sax.Token :=
  [ Sax.TOpen "coachView" [Sax.plain "id" "Z"];
    Sax.TText "Tom & Jerry";
    Sax.TClose "coachView";
    Sax.TEnd ].

(** [<svc><big><x/>text</big><coachView id="A"/></svc>]: a subtree that does
    not match, then a small one that does. *)
Definition docSibling : list Sax.Token :=
  [ Sax.TOpen "svc" [];
    Sax.TOpen "big" [];
    Sax.TOpen "x" [];
    Sax.TClose "x";
    Sax.TText "text";
    Sax.TClose "big";
    Sax.TOpen "coachView" [Sax.plain "id" "A"];
    Sax.TClose "coachView";
    Sax.TClose "svc";
    Sax.TEnd ].

Definition coachviews : Params :=
  {| outputDir := "extracted/doc"; componentType := "coachview"; componentId := None |}.

Definition coachviewB : Params :=
  {| outputDir := "extracted/doc"; componentType := "coachview"; componentId := Some "B" |}.

(** The options of the stream of [analyze-bpmn.js]: no namespace mode. *)
Definition analyzerOptions : Sax.Options :=
  {| Sax.trim := true; Sax.normalize := true; Sax.lowercase := false;
     Sax.xmlns := false |}.

(** The node of [<coachView id="A">] as [extract] receives it, and the
    events of [<coachView id="B"/>]. *)
Definition nodeA : Sax.Tag :=
  Sax.mkTag "coachView" (Sax.attributesOf saxOptions [] [Sax.plain "id" "A"]).

Definition innerB : list Sax.Event :=
  Sax.emitAll saxOptions [Sax.TOpen "coachView" [Sax.plain "id" "B"];
                          Sax.TClose "coachView"].

Definition emptyWorld : World :=
  {| files := ∅; dirs := ∅; stdout := []; stderr := [] |}.

(** Two readings of the clock. *)
Definition clock1 : string := "2026-01-01T00:00:00.000Z".
Definition clock2 : string := "2026-01-01T00:00:01.000Z".

(** The text [id="[object Object]"]. *)
Definition idObjectObject : string :=
  " id=" +:+ dq +:+ "[object Object]" +:+ dq.

(** The state while a capture that began in [s] goes on: [items] have been
    recorded and the depth relative to the captured element is [h]. *)
Definition recording (s : State) (h : Z) (items : list Item) : State :=
  {| components := components s; captureDepth := captureDepth s;
     capturingContent := true; currentDepth := captureDepth s + h;
     capturedContent := capturedContent s ++ items;
     componentMetadata := componentMetadata s |}.

(** The state in which a completed capture of [node] leaves the extractor. *)
Definition afterCapture (s : State) (node : Sax.Tag) : State :=
  {| components := components s ++ [metadataOf node];
     captureDepth := currentDepth s; capturingContent := false;
     currentDepth := currentDepth s; capturedContent := [];
     componentMetadata := None |}.

(** A component is saved only for an element of the stream that the
    predicate accepts. *)
Definition matchedIn (p : Params) (events : list Sax.Event) (m : Metadata) : Prop :=
  exists node, In (Sax.OpenTag node) events
               /\ shouldCapture p (Sax.name node) (Sax.attributes node) = Normal true
               /\ m = metadataOf node.

Fixpoint noSlash (s : string) : bool :=
  match s with
  | String c rest => negb (Ascii.eqb c "/") && noSlash rest
  | EmptyString => true
  end.

(** The tag names some component type selects. *)
Definition knownTags : list string :=
  ["coachView"; "humanService"; "service"; "process"; "bpdProcess";
   "serviceTask"; "scriptTask"; "userTask"].

(** In namespace mode every attribute of a node is an attribute object. *)
Definition xmlnsObject (o : Js.object) : Prop :=
  Forall (fun kv => exists a, snd kv = Js.AttrObj a) o.

(** The promise was resolved and no listener threw: the [then] callback
    runs. *)
Definition resolved (r : Run) : bool :=
  match uncaught r, settled (trace r) with
  | None, Some (inl _) => true
  | _, _ => false
  end.

(** The buffer of a completed capture: the opening event of the element, what
    was recorded for its content, and the end tag that closed it. *)
Definition captureShape (buffer : list Item) : Prop :=
  exists node body n,
    inside 1 body = Some 1
    /\ buffer = buffered 0 (Sax.OpenTag node :: body) ++ [ItemClose n 0].

(** The captures of a scan that begins without one. [Captured p events saved]
    holds when [saved] lists, in the order of the stream, the elements of
    [events] that are met outside a capture, accepted by the predicate and
    closed within [events], each with the buffer of its subtree: the entry
    of its start tag, the entries of the events up to the end tag that
    brings the depth back, and the entry of that end tag. An accepted
    element that is never closed, or a throw of the predicate, ends the
    list. *)
Inductive Captured (p : Params)
  : list Sax.Event -> list (Metadata * list Item) -> Prop :=
| captured_nil : Captured p [] []
| captured_throw (node : Sax.Tag) (rest : list Sax.Event) (e : string) :
    shouldCapture p (Sax.name node) (Sax.attributes node) = Throws e ->
    Captured p (Sax.OpenTag node :: rest) []
| captured_skip (ev : Sax.Event) (rest : list Sax.Event)
    (saved : list (Metadata * list Item)) :
    (forall node, ev = Sax.OpenTag node ->
                  shouldCapture p (Sax.name node) (Sax.attributes node)
                  = Normal false) ->
    Captured p rest saved ->
    Captured p (ev :: rest) saved
| captured_open (node : Sax.Tag) (rest : list Sax.Event) (h : Z) :
    shouldCapture p (Sax.name node) (Sax.attributes node) = Normal true ->
    inside 1 rest = Some h ->
    Captured p (Sax.OpenTag node :: rest) []
| captured_whole (node : Sax.Tag) (body : list Sax.Event) (n : string)
    (rest : list Sax.Event) (saved : list (Metadata * list Item)) :
    shouldCapture p (Sax.name node) (Sax.attributes node) = Normal true ->
    inside 1 body = Some 1 ->
    Captured p rest saved ->
    Captured p (Sax.OpenTag node :: body ++ Sax.CloseTag n :: rest)
      ((metadataOf node,
        ItemOpen (Sax.name node) (Sax.attributes node) 0
        :: buffered 1 body ++ [ItemClose n 0]) :: saved).

(** Every count [reconstructXML] passes to [repeat] is non-negative. *)
Fixpoint indentNonNegative (indentLevel : Z) (items : list Item) : bool :=
  match items with
  | [] => true
  | ItemOpen _ _ _ :: rest =>
      (0 <=? indentLevel) && indentNonNegative (indentLevel + 1) rest
  | ItemText _ :: rest =>
      (0 <=? indentLevel) && indentNonNegative indentLevel rest
  | ItemClose _ _ :: rest =>
      (0 <=? indentLevel - 1) && indentNonNegative (indentLevel - 1) rest
  end.

(** The character [c] occurs in [s]. *)
Fixpoint occurs (c : ascii) (s : string) : bool :=
  match s with
  | String d rest => Ascii.eqb d c || occurs c rest
  | EmptyString => false
  end.

(** An effect that neither settles the promise nor writes to the error
    stream. *)
Definition quiet (e : Effect) : bool :=
  match e with
  | ConsoleError _ | Resolve _ | Reject _ => false
  | _ => true
  end.

Definition isContentEvent (ev : Sax.Event) : bool :=
  match ev with
  | Sax.Error _ | Sax.End => false
  | _ => true
  end.

Definition isConsoleError (e : Effect) : bool :=
  match e with
  | ConsoleError _ => true
  | _ => false
  end.

(** The directories an effect list makes sure exist. *)
Fixpoint mkdirs (es : list Effect) : gset string :=
  match es with
  | [] => ∅
  | MkdirIfMissing d :: rest => {[d]} ∪ mkdirs rest
  | _ :: rest => mkdirs rest
  end.

(** The metadata of [<coachView name="first"/>]. *)
Definition firstUnnamed : Metadata :=
  metadataOf (Sax.mkTag "coachView"
                (Sax.attributesOf saxOptions [] [Sax.plain "name" "first"])).

(** Two analyzers that differ in the maximum nesting depth only. *)
Definition entry0 : BPMNAnalyzer.Entry :=
  {| BPMNAnalyzer.entry_id := Js.Str "e"; BPMNAnalyzer.entry_name := Js.Undefined; BPMNAnalyzer.entry_extra := Js.Undefined;
     BPMNAnalyzer.nestingLevel := 1; BPMNAnalyzer.path := ["e"]; BPMNAnalyzer.entry_attributes := [] |}.

Definition analyzerSmall : BPMNAnalyzer.Analyzer :=
  {| BPMNAnalyzer.coachViews := [entry0]; BPMNAnalyzer.humanServices := []; BPMNAnalyzer.bpdProcesses := [];
     BPMNAnalyzer.serviceTasks := [entry0]; BPMNAnalyzer.dataBindings := {["tw.local.x"]};
     BPMNAnalyzer.nestingDepth := 0; BPMNAnalyzer.maxNestingDepth := 8; BPMNAnalyzer.currentPath := [];
     BPMNAnalyzer.elementCounts := ∅ |}.

Definition analyzerDeep : BPMNAnalyzer.Analyzer :=
  {| BPMNAnalyzer.coachViews := [entry0]; BPMNAnalyzer.humanServices := []; BPMNAnalyzer.bpdProcesses := [];
     BPMNAnalyzer.serviceTasks := [entry0]; BPMNAnalyzer.dataBindings := {["tw.local.x"]};
     BPMNAnalyzer.nestingDepth := 0; BPMNAnalyzer.maxNestingDepth := 9; BPMNAnalyzer.currentPath := [];
     BPMNAnalyzer.elementCounts := ∅ |}.

End Scan.

(* ===================================================================== *)
(** ** [class BPMNAnalyzer]: the scan *)
(* ===================================================================== *)

Module BPMNScan.

Import BPMNAnalyzer.

(** [\w]: an ASCII letter, a digit or the underscore. *)
Definition isWordChar (c : ascii) : bool :=
  let n := N_of_ascii c in
  (((48 <=? n) && (n <=? 57)) || ((65 <=? n) && (n <=? 90))
   || ((97 <=? n) && (n <=? 122)) || (n =? 95))%N.

Definition startsWord (s : string) : bool :=
  match s with
  | String c _ => isWordChar c
  | EmptyString => false
  end.

(** The length of the longest prefix of [s] that continues a run
    [\w+(\.\w+)*]: word characters, and dots that a word character
    follows. *)
Fixpoint wordRun (s : string) : nat :=
  match s with
  | String c r =>
      if isWordChar c then S (wordRun r)
      else if Ascii.eqb c "." && startsWord r then S (wordRun r)
      else O
  | EmptyString => O
  end.

(** What is left of [s] after the literal [pre], when [s] begins with it. *)
Fixpoint dropPrefix (pre s : string) : option string :=
  match pre with
  | EmptyString => Some s
  | String a pre' =>
      match s with
      | String b s' => if Ascii.eqb a b then dropPrefix pre' s' else None
      | EmptyString => None
      end
  end.

Fixpoint takeStr (n : nat) (s : string) : string :=
  match n, s with
  | S k, String c r => String c (takeStr k r)
  | _, _ => EmptyString
  end.

(** One alternative of [(local|system|env)] and the rest of the pattern,
    on what follows [tw.]: the length of the whole match. *)
Definition twScope (scope : string) (s : string) : option nat :=
  match dropPrefix scope s with
  | Some r =>
      match dropPrefix "." r with
      | Some r' =>
          if startsWord r'
          then Some (3 + String.length scope + 1 + wordRun r')%nat
          else None
      | None => None
      end
  | None => None
  end.

(** [/tw\.(local|system|env)\.\w+(\.\w+)*/] at the start of [s]: the length of
    the match. *)
Definition twMatch (s : string) : option nat :=
  match dropPrefix "tw." s with
  | Some r =>
      match twScope "local" r with
      | Some n => Some n
      | None =>
          match twScope "system" r with
          | Some n => Some n
          | None => twScope "env" r
          end
      end
  | None => None
  end.

(** The number of characters before the first closing brace. *)
Fixpoint beforeBrace (s : string) : option nat :=
  match s with
  | String c r => if Ascii.eqb c "}" then Some O else S <$> beforeBrace r
  | EmptyString => None
  end.

(** [/#\{[^}]+\}/] at the start of [s]: the length of the match. *)
Definition exprMatch (s : string) : option nat :=
  match dropPrefix "#{" s with
  | Some r =>
      match beforeBrace r with
      | Some (S n) => Some (2 + S n + 1)%nat
      | _ => None
      end
  | None => None
  end.

(** [value.match(re)] for a global pattern whose matches are never empty:
    the matches from left to right, each search starting where the last
    match ended. [skip] characters still belong to the last match. *)
Fixpoint matchAllFrom (re : string -> option nat) (skip : nat) (s : string)
  : list string :=
  match s with
  | EmptyString => []
  | String c r =>
      match skip with
      | S k => matchAllFrom re k r
      | O =>
          match re s with
          | Some (S n) => takeStr (S n) s :: matchAllFrom re n r
          | _ => matchAllFrom re O r
          end
      end
  end.

Definition matchAll (re : string -> option nat) (s : string) : list string :=
  matchAllFrom re O s.

(** The bindings found in one attribute value, in the order they are added
    to the set. *)
Definition bindingsOf (value : string) : list string :=
  matchAll twMatch value ++ matchAll exprMatch value.

(** [s.includes(needle)]. *)
Fixpoint contains (needle s : string) : bool :=
  match dropPrefix needle s with
  | Some _ => true
  | None =>
      match s with
      | String _ r => contains needle r
      | EmptyString => false
      end
  end.

(** The analyzer and the variables the listeners of [analyze] close over.
    The object [elementCounts] is held in two parts: its numeric properties
    in the field of the analyzer, and in [countTexts] those that became
    strings (see [bump]). *)
Record State := mkState {
  analyzer : Analyzer;
  countTexts : gmap string string;
  currentElement : option string;
  currentAttributes : option Js.object
}.

(** [new BPMNAnalyzer()]. *)
Definition fresh : Analyzer :=
  {| coachViews := []; humanServices := []; bpdProcesses := [];
     serviceTasks := []; dataBindings := ∅; nestingDepth := 0;
     maxNestingDepth := 0; currentPath := []; elementCounts := ∅ |}.

Definition initial : State :=
  {| analyzer := fresh; countTexts := ∅; currentElement := None;
     currentAttributes := None |}.

(** The text of a built-in function. *)
Definition nativeFunction (name : string) : string :=
  "function " +:+ name +:+ "() { [native code] }".

(** What [elementCounts[key]] gives, as a string, when [key] is not a property
    of the object itself but a member of [Object.prototype]. *)
Definition inheritedText (key : string) : option string :=
  if String.eqb key "constructor" then Some (nativeFunction "Object")
  else if String.eqb key "__proto__" then Some "[object Object]"
  else if Js.includes ComponentExtractor.objectPrototypeKeys key
       then Some (nativeFunction key)
       else None.

Definition withCounts (counts : gmap string nat) (a : Analyzer) : Analyzer :=
  {| coachViews := coachViews a; humanServices := humanServices a;
     bpdProcesses := bpdProcesses a; serviceTasks := serviceTasks a;
     dataBindings := dataBindings a; nestingDepth := nestingDepth a;
     maxNestingDepth := maxNestingDepth a; currentPath := currentPath a;
     elementCounts := counts |}.

(** [this.elementCounts[name] = (this.elementCounts[name] || 0) + 1]. A
    number is incremented and a missing property becomes 1. For the name of
    a member of [Object.prototype] the value read is that member, so the sum
    is its text followed by 1, and later that string followed by 1 again;
    assigning such a string to [__proto__] has no effect. *)
Definition bump (name : string) (st : State) : State :=
  match countTexts st !! name with
  | Some text =>
      {| analyzer := analyzer st;
         countTexts := <[name := text +:+ "1"]> (countTexts st);
         currentElement := currentElement st;
         currentAttributes := currentAttributes st |}
  | None =>
      match elementCounts (analyzer st) !! name with
      | Some n =>
          {| analyzer := withCounts (<[name := S n]> (elementCounts (analyzer st)))
                                    (analyzer st);
             countTexts := countTexts st;
             currentElement := currentElement st;
             currentAttributes := currentAttributes st |}
      | None =>
          match inheritedText name with
          | Some text =>
              if String.eqb name "__proto__" then st
              else {| analyzer := analyzer st;
                      countTexts := <[name := text +:+ "1"]> (countTexts st);
                      currentElement := currentElement st;
                      currentAttributes := currentAttributes st |}
          | None =>
              {| analyzer := withCounts (<[name := 1%nat]> (elementCounts (analyzer st)))
                                        (analyzer st);
                 countTexts := countTexts st;
                 currentElement := currentElement st;
                 currentAttributes := currentAttributes st |}
          end
      end
  end.

(** [this.nestingDepth++], the update of [maxNestingDepth] and
    [this.currentPath.push(node.name)]. *)
Definition descend (name : string) (a : Analyzer) : Analyzer :=
  {| coachViews := coachViews a; humanServices := humanServices a;
     bpdProcesses := bpdProcesses a; serviceTasks := serviceTasks a;
     dataBindings := dataBindings a; nestingDepth := nestingDepth a + 1;
     maxNestingDepth := Z.max (maxNestingDepth a) (nestingDepth a + 1);
     currentPath := currentPath a ++ [name];
     elementCounts := elementCounts a |}.

(** The entry pushed for [node]; [extra] is the value of the attribute the
    list records besides [id] and [name]. *)
Definition entryOf (node : Sax.Tag) (extra : Js.value) (a : Analyzer) : Entry :=
  {| entry_id := Js.get (Sax.attributes node) "id";
     entry_name := Js.get (Sax.attributes node) "name";
     entry_extra := extra;
     nestingLevel := nestingDepth a;
     path := currentPath a;
     entry_attributes := Sax.attributes node |}.

(** [node.attributes.type?.includes('coach')]: a value that is neither a
    string nor [undefined] has no [includes] method. *)
Definition typeIncludesCoach (attributes : Js.object)
  : ComponentExtractor.Completion bool :=
  match Js.get attributes "type" with
  | Js.Undefined => ComponentExtractor.Normal false
  | Js.Str s => ComponentExtractor.Normal (contains "coach" s)
  | Js.AttrObj _ =>
      ComponentExtractor.Throws
        "TypeError: node.attributes.type?.includes is not a function"
  end.

Definition isCoachView (node : Sax.Tag) : ComponentExtractor.Completion bool :=
  if String.eqb (Sax.name node) "coachView" then ComponentExtractor.Normal true
  else typeIncludesCoach (Sax.attributes node).

Definition isHumanService (name : string) : bool :=
  String.eqb name "humanService" || String.eqb name "service".

Definition isProcess (name : string) : bool :=
  String.eqb name "process" || String.eqb name "bpdProcess".

Definition isServiceTask (name : string) : bool :=
  String.eqb name "serviceTask" || String.eqb name "scriptTask".

(** The four [if] blocks of the [opentag] listener. *)
Definition record (node : Sax.Tag) (coach : bool) (a : Analyzer) : Analyzer :=
  {| coachViews :=
       if coach
       then coachViews a ++ [entryOf node (Js.get (Sax.attributes node) "type") a]
       else coachViews a;
     humanServices :=
       if isHumanService (Sax.name node)
       then humanServices a ++ [entryOf node Js.Undefined a]
       else humanServices a;
     bpdProcesses :=
       if isProcess (Sax.name node)
       then bpdProcesses a
            ++ [entryOf node (Js.get (Sax.attributes node) "isExecutable") a]
       else bpdProcesses a;
     serviceTasks :=
       if isServiceTask (Sax.name node)
       then serviceTasks a
            ++ [entryOf node (Js.get (Sax.attributes node) "implementation") a]
       else serviceTasks a;
     dataBindings := dataBindings a; nestingDepth := nestingDepth a;
     maxNestingDepth := maxNestingDepth a; currentPath := currentPath a;
     elementCounts := elementCounts a |}.

(** The bindings of all the string values of an attributes object. *)
Fixpoint attributeBindings (entries : Js.object) : list string :=
  match entries with
  | [] => []
  | (_, Js.Str value) :: rest => bindingsOf value ++ attributeBindings rest
  | _ :: rest => attributeBindings rest
  end.

(** The loop over [Object.entries(node.attributes)]. *)
Definition bind (attributes : Js.object) (a : Analyzer) : Analyzer :=
  {| coachViews := coachViews a; humanServices := humanServices a;
     bpdProcesses := bpdProcesses a; serviceTasks := serviceTasks a;
     dataBindings := dataBindings a ∪ list_to_set (attributeBindings attributes);
     nestingDepth := nestingDepth a; maxNestingDepth := maxNestingDepth a;
     currentPath := currentPath a; elementCounts := elementCounts a |}.

Definition withAnalyzer (a : Analyzer) (st : State) : State :=
  {| analyzer := a; countTexts := countTexts st;
     currentElement := currentElement st;
     currentAttributes := currentAttributes st |}.

(** [saxStream.on('opentag', ...)]. *)
Definition onOpenTag (node : Sax.Tag) (st : State)
  : ComponentExtractor.Completion State :=
  let st1 := bump (Sax.name node)
               (withAnalyzer (descend (Sax.name node) (analyzer st)) st) in
  coach ← isCoachView node;
  ComponentExtractor.Normal
    {| analyzer := bind (Sax.attributes node) (record node coach (analyzer st1));
       countTexts := countTexts st1;
       currentElement := Some (Sax.name node);
       currentAttributes := Some (Sax.attributes node) |}.

(** [saxStream.on('closetag', ...)]: [pop] on an empty array does nothing. *)
Definition onCloseTag (st : State) : State :=
  let a := analyzer st in
  withAnalyzer
    {| coachViews := coachViews a; humanServices := humanServices a;
       bpdProcesses := bpdProcesses a; serviceTasks := serviceTasks a;
       dataBindings := dataBindings a; nestingDepth := nestingDepth a - 1;
       maxNestingDepth := maxNestingDepth a;
       currentPath := removelast (currentPath a);
       elementCounts := elementCounts a |} st.

(** The [summary] of the report. *)
Record Summary := mkSummary {
  totalCoachViews : nat;
  totalHumanServices : nat;
  totalBPDProcesses : nat;
  totalServiceTasks : nat;
  uniqueDataBindings : nat;
  summaryMaxNestingDepth : Z;
  elementTypeCounts : gmap string nat * gmap string string
}.

(** The report; the sorted array [dataBindings] is given by the set of its
    elements. *)
Record Report := mkReport {
  summary : Summary;
  reportCoachViews : list Entry;
  reportHumanServices : list Entry;
  reportBpdProcesses : list Entry;
  reportServiceTasks : list Entry;
  reportDataBindings : gset string;
  complexity : Complexity
}.

(** [generateReport()]. *)
Definition generateReport (st : State) : Report :=
  let a := analyzer st in
  {| summary :=
       {| totalCoachViews := length (coachViews a);
          totalHumanServices := length (humanServices a);
          totalBPDProcesses := length (bpdProcesses a);
          totalServiceTasks := length (serviceTasks a);
          uniqueDataBindings := size (dataBindings a);
          summaryMaxNestingDepth := maxNestingDepth a;
          elementTypeCounts := (elementCounts a, countTexts st) |};
     reportCoachViews := coachViews a;
     reportHumanServices := humanServices a;
     reportBpdProcesses := bpdProcesses a;
     reportServiceTasks := serviceTasks a;
     reportDataBindings := dataBindings a;
     complexity := calculateComplexity a |}.

(** What the listeners of [analyze] do to the outside. *)
Inductive Signal :=
| LogError (line : string)
| Resolved (report : Report)
| Rejected (error : string).

(** One event: the new state and the signals, or the exception thrown. Text
    has no listener. *)
Definition handle (ev : Sax.Event) (st : State)
  : ComponentExtractor.Completion (State * list Signal) :=
  match ev with
  | Sax.OpenTag node => st' ← onOpenTag node st; ComponentExtractor.Normal (st', [])
  | Sax.Text _ => ComponentExtractor.Normal (st, [])
  | Sax.CloseTag _ => ComponentExtractor.Normal (onCloseTag st, [])
  | Sax.Error e =>
      ComponentExtractor.Normal (st, [LogError ("SAX Parser Error: " +:+ e); Rejected e])
  | Sax.End => ComponentExtractor.Normal (st, [Resolved (generateReport st)])
  end.

(** A scan: the state it leaves, the signals of its listeners, and the
    exception that stopped it, if any. An uncaught exception ends the
    process; what the listener had changed before it threw is not kept. *)
Record Run := mkRun {
  final : State;
  signals : list Signal;
  uncaught : option string
}.

Fixpoint feed (events : list Sax.Event) (st : State) : Run :=
  match events with
  | [] => {| final := st; signals := []; uncaught := None |}
  | ev :: rest =>
      match handle ev st with
      | ComponentExtractor.Throws e =>
          {| final := st; signals := []; uncaught := Some e |}
      | ComponentExtractor.Normal (st', out) =>
          let r := feed rest st' in
          {| final := final r; signals := out ++ signals r;
             uncaught := uncaught r |}
      end
  end.

(** The stream of [analyze] has no namespace mode: an attribute is its string
    value, and an attribute named [__proto__] sets no property. *)
Definition saxOptions : Sax.Options :=
  {| Sax.trim := true; Sax.normalize := true; Sax.lowercase := false;
     Sax.xmlns := false |}.

Definition ownAttribute (a : Js.Attr) : bool :=
  negb (String.eqb (Js.attr_name a) "__proto__").

Definition deliver (t : Sax.Token) : list Sax.Event :=
  match t with
  | Sax.TOpen n attrs => Sax.emit saxOptions (Sax.TOpen n (List.filter ownAttribute attrs))
  | _ => Sax.emit saxOptions t
  end.

(** [analyze(xmlFilePath)] on the token stream of the file, for a fresh
    analyzer. *)
Definition analyze (doc : list Sax.Token) : Run :=
  feed (concat (map deliver doc)) initial.

(** The letters of a file extension, compared without regard to case. *)
Fixpoint lowerAll (s : string) : string :=
  match s with
  | String c r => String (Js.lowerAscii c) (lowerAll r)
  | EmptyString => EmptyString
  end.

(** [/\.(xml|bpmn)$/i] matches the whole of [s]. *)
Definition isExtension (s : string) : bool :=
  String.eqb (lowerAll s) ".xml" || String.eqb (lowerAll s) ".bpmn".

(** [path.replace(/\.(xml|bpmn)$/i, suffix)]. *)
Fixpoint replaceExtension (suffix : string) (path : string) : string :=
  if isExtension path then suffix
  else match path with
       | String c r => String c (replaceExtension suffix r)
       | EmptyString => EmptyString
       end.

(** The two files the main block writes. *)
Definition jsonReportPath (xmlFilePath : string) : string :=
  replaceExtension "-analysis.json" xmlFilePath.

Definition markdownReportPath (xmlFilePath : string) : string :=
  replaceExtension "-analysis.md" xmlFilePath.

(** The number of opening events whose node satisfies [f]. *)
Fixpoint countOpen (f : Sax.Tag -> bool) (events : list Sax.Event) : nat :=
  match events with
  | [] => O
  | Sax.OpenTag node :: rest =>
      if f node then S (countOpen f rest) else countOpen f rest
  | _ :: rest => countOpen f rest
  end.

(** Whether a node is recorded as a coach view, when the test does not
    throw. *)
Definition coachNode (node : Sax.Tag) : bool :=
  match isCoachView node with
  | ComponentExtractor.Normal b => b
  | ComponentExtractor.Throws _ => false
  end.

(** All the entries an analyzer holds. *)
Definition entries (a : Analyzer) : list Entry :=
  coachViews a ++ humanServices a ++ bpdProcesses a ++ serviceTasks a.

(** The string values of the attributes of the opening events. *)
Fixpoint attributeValues (events : list Sax.Event) : list string :=
  match events with
  | [] => []
  | Sax.OpenTag node :: rest =>
      omap (fun kv => match snd kv with
                      | Js.Str v => Some v
                      | _ => None
                      end) (Sax.attributes node)
      ++ attributeValues rest
  | _ :: rest => attributeValues rest
  end.

(** Two analyzed documents. *)

(** [<process id="p"><service type="my.coach.View" binding="tw.local.a.b #{x}"/>
    <constructor/><scriptTask script="tw.env.k"/></process>] *)
Definition docProcess : list Sax.Token :=
  [ Sax.TOpen "process" [Sax.plain "id" "p"];
    Sax.TOpen "service" [Sax.plain "type" "my.coach.View";
                         Sax.plain "binding" "tw.local.a.b #{x}"];
    Sax.TClose "service";
    Sax.TOpen "constructor" [];
    Sax.TClose "constructor";
    Sax.TOpen "scriptTask" [Sax.plain "script" "tw.env.k"];
    Sax.TClose "scriptTask";
    Sax.TClose "process";
    Sax.TEnd ].

End BPMNScan.
(* ===================================================================== *)
(** ** The main block of [analyze-bpmn.js] *)
(* ===================================================================== *)

Module BPMNScript.

Import ComponentExtractor BPMNAnalyzer BPMNScan.

(** The promise of [analyze] settles once: the first [resolve] or [reject]
    wins. *)
Fixpoint settled (ss : list Signal) : option (Report + string) :=
  match ss with
  | [] => None
  | Resolved report :: _ => Some (inl report)
  | Rejected e :: _ => Some (inr e)
  | _ :: rest => settled rest
  end.

(** What the listeners print. *)
Fixpoint printed (ss : list Signal) : list Effect :=
  match ss with
  | [] => []
  | LogError line :: rest => ConsoleError line :: printed rest
  | _ :: rest => printed rest
  end.

Definition banner (xmlFilePath : string) : list Effect :=
  [ ConsoleLog ("Analyzing BPMN file: " +:+ xmlFilePath);
    ConsoleLog ("This may take a moment for large files..." +:+ Json.nl) ].

(** The [then] callback. [stringify] is [JSON.stringify(report, null, 2)] and
    [markdown] is [generateMarkdownReport]; neither text is modelled. *)
Definition onResolved (stringify : Report -> string)
    (markdown : Report -> string -> string) (xmlFilePath : string)
    (report : Report) : list Effect :=
  [ ConsoleLog ("=== BPMN ANALYSIS REPORT ===" +:+ Json.nl);
    ConsoleLog "SUMMARY:";
    ConsoleLog ("  Coach Views: " +:+ pretty (totalCoachViews (summary report)));
    ConsoleLog ("  Human Services: "
                +:+ pretty (totalHumanServices (summary report)));
    ConsoleLog ("  BPD Processes: " +:+ pretty (totalBPDProcesses (summary report)));
    ConsoleLog ("  Service Tasks: " +:+ pretty (totalServiceTasks (summary report)));
    ConsoleLog ("  Data Bindings: " +:+ pretty (uniqueDataBindings (summary report)));
    ConsoleLog ("  Max Nesting Depth: "
                +:+ pretty (summaryMaxNestingDepth (summary report)));
    ConsoleLog EmptyString;
    ConsoleLog "COMPLEXITY:";
    ConsoleLog ("  Score: " +:+ pretty (score (complexity report)));
    ConsoleLog ("  Recommendation: " +:+ recommendation (complexity report));
    ConsoleLog EmptyString;
    WriteFile (jsonReportPath xmlFilePath) (stringify report);
    ConsoleLog ("Detailed report saved to: " +:+ jsonReportPath xmlFilePath);
    WriteFile (markdownReportPath xmlFilePath) (markdown report xmlFilePath);
    ConsoleLog ("Markdown report saved to: " +:+ markdownReportPath xmlFilePath) ].

(** The main block on the arguments [args] ([process.argv.slice(2)]).
    [fileExists] is [fs.existsSync] and [content] gives the tokens of a file.
    An exception a listener throws is not caught: the process prints it and
    exits with status 1. *)
Definition script (stringify : Report -> string)
    (markdown : Report -> string -> string) (fileExists : string -> bool)
    (content : string -> list Sax.Token) (args : list string) : Outcome :=
  match args with
  | [] =>
      {| effects := [ConsoleError "Usage: node analyze-bpmn.js <path-to-bpmn-file.xml>"];
         exitCode := 1 |}
  | xmlFilePath :: _ =>
      if fileExists xmlFilePath
      then
        let r := analyze (content xmlFilePath) in
        match uncaught r with
        | Some e =>
            {| effects := banner xmlFilePath ++ printed (signals r)
                          ++ [ConsoleError ("Uncaught " +:+ e)];
               exitCode := 1 |}
        | None =>
            match settled (signals r) with
            | Some (inl report) =>
                {| effects := banner xmlFilePath ++ printed (signals r)
                              ++ onResolved stringify markdown xmlFilePath report;
                   exitCode := 0 |}
            | Some (inr error) =>
                {| effects := banner xmlFilePath ++ printed (signals r)
                              ++ [ConsoleError ("Error analyzing BPMN file: "
                                                +:+ error)];
                   exitCode := 1 |}
            | None =>
                {| effects := banner xmlFilePath ++ printed (signals r);
                   exitCode := 0 |}
            end
        end
      else {| effects := [ConsoleError ("Error: File not found: " +:+ xmlFilePath)];
              exitCode := 1 |}
  end.

(** Whether [/\.(xml|bpmn)$/i] finds a match in [path]. *)
Fixpoint endsInExtension (path : string) : bool :=
  isExtension path
  || match path with
     | String _ r => endsInExtension r
     | EmptyString => false
     end.

End BPMNScript.


(* ===================================================================== *)
(** ** The main block of [extract-components.js] *)
(* ===================================================================== *)

Module Script.

Import ComponentExtractor.

(** The lines printed when fewer than two arguments are given. *)
Definition usage : list Effect :=
  [ ConsoleError "Usage: node extract-components.js <bpmn-file.xml> <component-type> [component-id]";
    ConsoleError EmptyString;
    ConsoleError "component-type: coachview | service | process | task | all";
    ConsoleError "component-id: optional specific component to extract";
    ConsoleError EmptyString;
    ConsoleError "Examples:";
    ConsoleError "  node extract-components.js myprocess.xml all";
    ConsoleError "  node extract-components.js myprocess.xml coachview";
    ConsoleError "  node extract-components.js myprocess.xml service ServiceTask_123" ].

(** [args[2] || null]. *)
Definition componentIdOf (rest : list string) : option string :=
  match rest with
  | cid :: _ => if String.eqb cid EmptyString then None else Some cid
  | [] => None
  end.

(** The main block on the arguments [args] ([process.argv.slice(2)]).
    [outputDirOf] is the path
    [path.join(path.dirname(f), 'extracted', path.basename(f, path.extname(f)))],
    [fileExists] is [fs.existsSync] and [content] gives the tokens of a
    file. *)
Definition script (outputDirOf : string -> string) (fileExists : string -> bool)
    (content : string -> list Sax.Token) (now : string) (args : list string)
  : Outcome :=
  match args with
  | xmlFilePath :: componentType :: rest =>
      if fileExists xmlFilePath
      then main xmlFilePath
             {| outputDir := outputDirOf xmlFilePath;
                componentType := componentType;
                componentId := componentIdOf rest |}
             (content xmlFilePath) now
      else {| effects := [ConsoleError ("Error: File not found: " +:+ xmlFilePath)];
              exitCode := 1 |}
  | _ => {| effects := usage; exitCode := 1 |}
  end.

End Script.

(* ===================================================================== *)
(** ** More vocabulary for the statements *)
(* ===================================================================== *)

Module More.

Import ComponentExtractor Scan.

(** By how much an event changes the depth. *)
Definition depthChange (ev : Sax.Event) : Z :=
  match ev with
  | Sax.OpenTag _ => 1
  | Sax.CloseTag _ => -1
  | _ => 0
  end.

(** Character data that is empty once trimmed. *)
Definition isBlankText (ev : Sax.Event) : bool :=
  match ev with
  | Sax.Text text => negb (Js.truthy (Js.Str (Js.trim text)))
  | _ => false
  end.

Definition isOpenToken (t : Sax.Token) : bool :=
  match t with
  | Sax.TOpen _ _ => true
  | _ => false
  end.

(** The string [escapeXML] returns for a string. *)
Definition escapeText (s : string) : string :=
  Js.replaceAll "'" "&apos;"
    (Js.replaceAll "034" "&quot;"
      (Js.replaceAll ">" "&gt;"
        (Js.replaceAll "<" "&lt;"
          (Js.replaceAll "&" "&amp;" s)))).

(** [s] begins with [pre]. *)
Definition startsWith (pre s : string) : bool :=
  match BPMNScan.dropPrefix pre s with
  | Some _ => true
  | None => false
  end.

(** The reading of the five entities; [skip] characters still belong to the
    entity just read. *)
Fixpoint unescapeFrom (skip : nat) (s : string) : string :=
  match s with
  | EmptyString => EmptyString
  | String c r =>
      match skip with
      | S k => unescapeFrom k r
      | O =>
          if startsWith "&amp;" s then String "&" (unescapeFrom 4 r)
          else if startsWith "&lt;" s then String "<" (unescapeFrom 3 r)
          else if startsWith "&gt;" s then String ">" (unescapeFrom 3 r)
          else if startsWith "&quot;" s then String "034" (unescapeFrom 5 r)
          else if startsWith "&apos;" s then String "'" (unescapeFrom 5 r)
          else String c (unescapeFrom O r)
      end
  end.

Definition unescapeXML (s : string) : string := unescapeFrom O s.

(** A path a run may write to: the index, or for a known tag one of two base
    names with one of two extensions. *)
Definition allowedPath (p : Params) (path : string) : Prop :=
  path = indexPath p
  \/ exists ty base ext,
       In ty knownTags
       /\ (base = "unnamed" \/ base = "[object Object]")
       /\ (ext = ".xml" \/ ext = ".json")
       /\ path = pathJoin (pathJoin (outputDir p) ty) (base +:+ ext).

Fixpoint allChars (f : ascii -> bool) (s : string) : bool :=
  match s with
  | String c r => f c && allChars f r
  | EmptyString => true
  end.

(** A binding of the dotted kind: one of the three scopes first, and word
    characters and dots only. *)
Definition dottedShape (b : string) : bool :=
  (startsWith "tw.local." b || startsWith "tw.system." b
   || startsWith "tw.env." b)
  && allChars (fun c => BPMNScan.isWordChar c || Ascii.eqb c ".") b.

(** A binding of the expression kind: it opens with [#{]. *)
Definition expressionShape (b : string) : bool :=
  match BPMNScan.dropPrefix "#{" b with
  | Some _ => true
  | None => false
  end.

(** Every attribute value of every opening event is a string. *)
Definition stringAttributes (events : list Sax.Event) : Prop :=
  Forall (fun ev => match ev with
                    | Sax.OpenTag node =>
                        Forall (fun kv => exists v, snd kv = Js.Str v)
                               (Sax.attributes node)
                    | _ => True
                    end) events.

(** The parameters of some runs. *)
Definition upperAll : Params :=
  {| outputDir := "extracted/doc"; componentType := "ALL"; componentId := None |}.

Definition constructorType : Params :=
  {| outputDir := "extracted/doc"; componentType := "Constructor";
     componentId := None |}.

(** [text] followed by [n] times the digit 1. *)
Fixpoint countText (text : string) (n : nat) : string :=
  match n with
  | O => text
  | S k => countText text k +:+ "1"
  end.

(** What the depth counters and the recorded levels keep. *)
Definition depthInvariant (st : BPMNScan.State) : Prop :=
  let a := BPMNScan.analyzer st in
  BPMNAnalyzer.nestingDepth a <= BPMNAnalyzer.maxNestingDepth a
  /\ 0 <= BPMNAnalyzer.maxNestingDepth a
  /\ Forall (fun e => BPMNAnalyzer.nestingLevel e
                      <= BPMNAnalyzer.maxNestingDepth a)
            (BPMNScan.entries a).

(** The level recorded for an entry is the length of its path. *)
Definition levelIsPathLength (e : BPMNAnalyzer.Entry) : Prop :=
  BPMNAnalyzer.nestingLevel e = Z.of_nat (length (BPMNAnalyzer.path e))
  /\ 1 <= BPMNAnalyzer.nestingLevel e.

(** The analyzer follows the stack of open elements ([stack] has the
    innermost element first, as [Scan.nesting] keeps it). *)
Definition pathInvariant (stack : list string) (st : BPMNScan.State) : Prop :=
  let a := BPMNScan.analyzer st in
  BPMNAnalyzer.currentPath a = rev stack
  /\ BPMNAnalyzer.nestingDepth a = Z.of_nat (length stack)
  /\ Forall levelIsPathLength (BPMNScan.entries a).

End More.

(* ===================================================================== *)
(** * Properties *)
(* ===================================================================== *)

(** ** The complexity score *)

Section Complexity.

Import BPMNAnalyzer Scan.

Lemma tierOf_monotone (x y : Z) :
  x <= y -> (tierRank (tierOf x) <= tierRank (tierOf y))%nat.
Proof.
  intros Hxy. unfold tierOf.
  repeat match goal with
         | |- context [?u <? ?v] => destruct (Z.ltb_spec u v)
         end; simpl; lia.
Qed.

Lemma tierLabel_inj (t u : Tier) : tierLabel t = tierLabel u -> t = u.
Proof. destruct t, u; simpl; intros H; try reflexivity; discriminate H. Qed.

Lemma score_linear (a : Analyzer) :
  calculateComplexityScore a
  = 2 * Z.of_nat (length (coachViews a))
    + 2 * Z.of_nat (length (humanServices a))
    + 5 * maxNestingDepth a
    + 1 * Z.of_nat (size (dataBindings a))
    + 3 * Z.of_nat (length (serviceTasks a)).
Proof. unfold calculateComplexityScore. lia. Qed.

(** The recommendation is chosen by the score and the thresholds 50, 150
    and 300. *)
Lemma recommendation_by_thresholds (x : Analyzer) :
  (calculateComplexityScore x < 50
   /\ getComplexityRecommendation x = "LOW: Can be converted in a single pass")
  \/ (50 <= calculateComplexityScore x < 150
      /\ getComplexityRecommendation x
         = "MEDIUM: Recommend component-by-component conversion")
  \/ (150 <= calculateComplexityScore x < 300
      /\ getComplexityRecommendation x
         = "HIGH: Requires chunked processing and template generation")
  \/ (300 <= calculateComplexityScore x
      /\ getComplexityRecommendation x
         = "VERY HIGH: Requires incremental migration with multiple templates").
Proof.
  unfold getComplexityRecommendation, tierOf.
  destruct (Z.ltb_spec (calculateComplexityScore x) 50); [by left|].
  destruct (Z.ltb_spec (calculateComplexityScore x) 150); [right; left; by split|].
  destruct (Z.ltb_spec (calculateComplexityScore x) 300);
    [right; right; left; by split|].
  right; right; right. by split.
Qed.

(** C7. The score is the linear combination
    2*coachViews + 2*humanServices + 5*maxNestingDepth + 1*dataBindings
    + 3*serviceTasks. The recommendation is chosen by the score alone: the
    text of LOW below 50, of MEDIUM from 50 and below 150, of HIGH from 150
    and below 300, of VERY HIGH from 300. When no input of [a] exceeds the
    corresponding input of [b] (in particular when one input grows and the
    others are fixed) the score of [a] is at most that of [b] and the
    recommendation of [a] is not of a higher tier than that of [b]: it is
    LOW when that of [b] is LOW, LOW or MEDIUM when that of [b] is MEDIUM,
    and not VERY HIGH when that of [b] is HIGH. *)
Theorem complexity_score_monotone (a b : Analyzer) :
  (length (coachViews a) <= length (coachViews b))%nat ->
  (length (humanServices a) <= length (humanServices b))%nat ->
  (length (bpdProcesses a) <= length (bpdProcesses b))%nat ->
  (length (serviceTasks a) <= length (serviceTasks b))%nat ->
  (size (dataBindings a) <= size (dataBindings b))%nat ->
  maxNestingDepth a <= maxNestingDepth b ->
  let low := "LOW: Can be converted in a single pass" in
  let medium := "MEDIUM: Recommend component-by-component conversion" in
  let high := "HIGH: Requires chunked processing and template generation" in
  let veryHigh :=
    "VERY HIGH: Requires incremental migration with multiple templates" in
  let bucketed (x : Analyzer) :=
    (calculateComplexityScore x < 50 /\ getComplexityRecommendation x = low)
    \/ (50 <= calculateComplexityScore x < 150
        /\ getComplexityRecommendation x = medium)
    \/ (150 <= calculateComplexityScore x < 300
        /\ getComplexityRecommendation x = high)
    \/ (300 <= calculateComplexityScore x
        /\ getComplexityRecommendation x = veryHigh) in
  calculateComplexityScore a
  = 2 * Z.of_nat (length (coachViews a))
    + 2 * Z.of_nat (length (humanServices a))
    + 5 * maxNestingDepth a
    + 1 * Z.of_nat (size (dataBindings a))
    + 3 * Z.of_nat (length (serviceTasks a))
  /\ calculateComplexityScore a <= calculateComplexityScore b
  /\ bucketed a
  /\ bucketed b
  /\ (getComplexityRecommendation b = low -> getComplexityRecommendation a = low)
  /\ (getComplexityRecommendation b = medium ->
      getComplexityRecommendation a = low
      \/ getComplexityRecommendation a = medium)
  /\ (getComplexityRecommendation b = high ->
      getComplexityRecommendation a = low
      \/ getComplexityRecommendation a = medium
      \/ getComplexityRecommendation a = high)
  /\ (exists t u : Tier,
        getComplexityRecommendation a = tierLabel t
        /\ getComplexityRecommendation b = tierLabel u
        /\ (tierRank t <= tierRank u)%nat).
Proof.
  intros Hcv Hhs _ Hst Hdb Hdepth low medium high veryHigh bucketed.
  assert (Hle : calculateComplexityScore a <= calculateComplexityScore b)
    by (rewrite !score_linear; lia).
  assert (Ha := recommendation_by_thresholds a).
  assert (Hb := recommendation_by_thresholds b).
  split; [apply score_linear|]. split; [exact Hle|].
  split; [exact Ha|]. split; [exact Hb|].
  fold low medium high veryHigh in Ha, Hb.
  split; [|split; [|split]].
  - intros Hlow.
    destruct Hb as [[Hs _]|[[Hs Hr]|[[Hs Hr]|[Hs Hr]]]];
      try (rewrite Hr in Hlow; discriminate Hlow).
    destruct Ha as [[_ Hr]|[[Hs' _]|[[Hs' _]|[Hs' _]]]]; [exact Hr|lia..].
  - intros Hmed.
    destruct Hb as [[Hs Hr]|[[Hs _]|[[Hs Hr]|[Hs Hr]]]];
      try (rewrite Hr in Hmed; discriminate Hmed).
    destruct Ha as [[_ Hr]|[[_ Hr]|[[Hs' _]|[Hs' _]]]]; [by left|by right|lia..].
  - intros Hhigh.
    destruct Hb as [[Hs Hr]|[[Hs Hr]|[[Hs _]|[Hs Hr]]]];
      try (rewrite Hr in Hhigh; discriminate Hhigh).
    destruct Ha as [[_ Hr]|[[_ Hr]|[[_ Hr]|[Hs' _]]]];
      [by left|right; by left|right; by right|lia].
  - exists (tierOf (calculateComplexityScore a)),
           (tierOf (calculateComplexityScore b)).
    repeat split. by apply tierOf_monotone.
Qed.

(** The theorem at two analyzers that differ in the nesting depth: the
    score goes from 46 to 51 and the recommendation from LOW to MEDIUM. *)
Lemma complexity_score_monotone_witness :
  calculateComplexityScore analyzerSmall = 46
  /\ calculateComplexityScore analyzerDeep = 51
  /\ calculateComplexityScore analyzerSmall <= calculateComplexityScore analyzerDeep
  /\ getComplexityRecommendation analyzerSmall
     = "LOW: Can be converted in a single pass"
  /\ getComplexityRecommendation analyzerDeep
     = "MEDIUM: Recommend component-by-component conversion".
Proof.
  split; [reflexivity|]. split; [reflexivity|].
  destruct (complexity_score_monotone analyzerSmall analyzerDeep)
    as (_ & Hle & _); [simpl; try lia; vm_compute; congruence..|].
  split; [exact Hle|]. split; reflexivity.
Defined.

End Complexity.

(** Split a conjunction into its parts, without unfolding definitions. *)
Ltac splits := repeat match goal with |- _ /\ _ => split end.

(** ** The capture state machine *)

Section Capture.

Import ComponentExtractor Scan.

Variable p : Params.

Lemma recording_nil (s : State) (h : Z) :
  capturingContent s = true -> currentDepth s = captureDepth s + h ->
  recording s h [] = s.
Proof.
  destruct s as [cs cd cap cur buf md]; unfold recording; simpl.
  intros -> ->. by rewrite app_nil_r.
Qed.

Lemma recording_recording (s : State) (h h' : Z) (xs ys : list Item) :
  recording (recording s h xs) h' ys = recording s h' (xs ++ ys).
Proof. unfold recording; simpl. by rewrite app_assoc. Qed.

(** One event inside a capture that it does not end. *)
Lemma handle_inside (ev : Sax.Event) (s : State) (h h' : Z) :
  capturingContent s = true ->
  currentDepth s = captureDepth s + h ->
  inside h [ev] = Some h' ->
  handle p ev s
  = Normal (recording s h' (buffered h [ev]), signal p (components s) ev).
Proof.
  intros Hcap Hdepth Hin.
  destruct s as [cs cd cap cur buf md]; simpl in *; subst cap cur.
  destruct ev as [node|text|n|e|]; simpl in *.
  - injection Hin as <-. unfold onOpenTag; simpl.
    unfold recording, withDepth, push; simpl.
    replace (cd + h - cd) with h by lia.
    replace (cd + h + 1) with (cd + (h + 1)) by lia. reflexivity.
  - injection Hin as <-. unfold onText; simpl.
    destruct (negb _); simpl;
      unfold recording, push; simpl; rewrite ?app_nil_r; reflexivity.
  - unfold onCloseTag; simpl.
    replace (cd + h - 1 =? cd) with (h - 1 =? 0)
      by (destruct (Z.eqb_spec (h - 1) 0), (Z.eqb_spec (cd + h - 1) cd); lia).
    destruct (h - 1 =? 0); [discriminate|]. injection Hin as <-.
    unfold recording, withDepth, push; simpl.
    replace (cd + h - 1 - cd) with (h - 1) by lia.
    replace (cd + h - 1) with (cd + (h - 1)) by lia. reflexivity.
  - injection Hin as <-. unfold onError, recording; simpl.
    by rewrite app_nil_r.
  - injection Hin as <-. unfold onEnd, recording; simpl.
    by rewrite app_nil_r.
Qed.

Lemma inside_cons (ev : Sax.Event) (rest : list Sax.Event) (h h' : Z) :
  inside h (ev :: rest) = Some h' ->
  exists h1, inside h [ev] = Some h1 /\ inside h1 rest = Some h'
             /\ buffered h (ev :: rest) = buffered h [ev] ++ buffered h1 rest.
Proof.
  destruct ev as [node|text|n|e|]; simpl; intros H.
  - exists (h + 1). auto.
  - exists h. repeat split; [done|]. destruct (negb _); by rewrite ?app_nil_r.
  - destruct (h - 1 =? 0); [discriminate|]. exists (h - 1). auto.
  - exists h. auto.
  - exists h. auto.
Qed.

(** Events inside a capture that do not end it are recorded, in order, and
    nothing else happens. *)
Lemma feed_inside (body : list Sax.Event) :
  forall (s : State) (h h' : Z),
    capturingContent s = true ->
    currentDepth s = captureDepth s + h ->
    inside h body = Some h' ->
    feed p body s
    = {| final := recording s h' (buffered h body);
         trace := signals p (components s) body;
         uncaught := None |}.
Proof.
  induction body as [|ev rest IH]; intros s h h' Hcap Hdepth Hin.
  - simpl in Hin. injection Hin as <-. simpl.
    by rewrite recording_nil.
  - destruct (inside_cons _ _ _ _ Hin) as (h1 & H1 & H2 & Hbuf).
    cbn [feed]. rewrite (handle_inside ev s h h1 Hcap Hdepth H1).
    rewrite (IH (recording s h1 (buffered h [ev])) h1 h' eq_refl eq_refl H2).
    cbn [final trace uncaught]. rewrite recording_recording, Hbuf.
    reflexivity.
Qed.

(** The opening event of a capture. *)
Lemma handle_start (s : State) (node : Sax.Tag) :
  capturingContent s = false ->
  shouldCapture p (Sax.name node) (Sax.attributes node) = Normal true ->
  handle p (Sax.OpenTag node) s
  = Normal (recording (startCapture node s) 1
              [ItemOpen (Sax.name node) (Sax.attributes node) 0], []).
Proof.
  intros Hcap Hshould. simpl. unfold onOpenTag. rewrite Hcap, Hshould. simpl.
  unfold recording, withDepth, push, startCapture; simpl.
  by replace (currentDepth s - currentDepth s) with 0 by lia.
Qed.

(** An opening event that starts nothing. *)
Lemma handle_skip (s : State) (node : Sax.Tag) :
  capturingContent s = false ->
  shouldCapture p (Sax.name node) (Sax.attributes node) = Normal false ->
  handle p (Sax.OpenTag node) s = Normal (withDepth (currentDepth s + 1) s, []).
Proof.
  intros Hcap Hshould. simpl. unfold onOpenTag. rewrite Hcap, Hshould. simpl.
  by rewrite Hcap.
Qed.

(** The end tag that brings the depth back to where the capture began. *)
Lemma handle_close (s : State) (n : string) (m : Metadata) :
  capturingContent s = true ->
  currentDepth s = captureDepth s + 1 ->
  componentMetadata s = Some m ->
  handle p (Sax.CloseTag n) s
  = Normal (finishCapture m (recording s 0 [ItemClose n 0]),
            saveComponent p m (capturedContent s ++ [ItemClose n 0])).
Proof.
  destruct s as [cs cd cap cur buf md]; simpl. intros -> -> ->.
  unfold onCloseTag; simpl.
  replace (cd + 1 - 1 =? cd) with true by (symmetry; apply Z.eqb_eq; lia).
  unfold finishCapture, recording, push, withDepth; simpl.
  replace (cd + 1 - 1 - cd) with 0 by lia.
  replace (cd + 1 - 1) with (cd + 0) by lia. reflexivity.
Qed.

Lemma nesting_inside (events : list Sax.Event) :
  forall (stack stack' : list string) (h : Z),
    1 <= h ->
    nesting stack events = Some stack' ->
    inside (h + Z.of_nat (length stack)) events
    = Some (h + Z.of_nat (length stack'))
    /\ signals p [] events = [].
Proof.
  induction events as [|ev rest IH]; intros stack stack' h Hh Hn.
  - simpl in *. by injection Hn as <-.
  - destruct ev as [node|text|n|e|]; simpl in Hn |- *; try discriminate.
    + destruct (IH _ _ h Hh Hn) as [Hi Hs]. split; [|exact Hs].
      rewrite <- Hi. f_equal. simpl length. lia.
    + by apply IH.
    + destruct stack as [|top below]; [discriminate|].
      destruct (String.eqb top n); [|discriminate].
      destruct (IH _ _ h Hh Hn) as [Hi Hs]. split; [|exact Hs].
      simpl length.
      replace (h + Z.of_nat (S (length below)) - 1)
        with (h + Z.of_nat (length below)) by lia.
      destruct (Z.eqb_spec (h + Z.of_nat (length below)) 0); [lia|exact Hi].
Qed.

Lemma signals_no_components (cs : list Metadata) (events : list Sax.Event) :
  signals p [] events = [] -> signals p cs events = [].
Proof.
  induction events as [|ev rest IH]; [done|].
  unfold signals; simpl. destruct ev; simpl; try discriminate; exact IH.
Qed.

Lemma nesting_prefix (pre post : list Sax.Event) :
  forall (stack stack' : list string),
    nesting stack (pre ++ post) = Some stack' ->
    exists mid, nesting stack pre = Some mid.
Proof.
  induction pre as [|ev rest IH]; intros stack stack' Hn.
  - by exists stack.
  - destruct ev as [node|text|n|e|]; simpl in Hn |- *; try discriminate.
    + by apply IH in Hn.
    + by apply IH in Hn.
    + destruct stack as [|top below]; [discriminate|].
      destruct (String.eqb top n); [|discriminate]. by apply IH in Hn.
Qed.

(** One more event after a scan that did not stop. *)
Lemma feed_snoc (es : list Sax.Event) :
  forall (s0 : State) (r0 : Run) (ev : Sax.Event),
    feed p es s0 = r0 -> uncaught r0 = None ->
    feed p (es ++ [ev]) s0
    = match handle p ev (final r0) with
      | Normal (s', out) =>
          {| final := s'; trace := trace r0 ++ out; uncaught := None |}
      | Throws e =>
          {| final := final r0; trace := trace r0; uncaught := Some e |}
      end.
Proof.
  induction es as [|e0 es IH]; intros s0 r0 ev <- Hun.
  - simpl. destruct (handle p ev s0) as [[s' out]|e]; simpl;
      by rewrite ?app_nil_r.
  - cbn [feed app] in Hun |- *.
    destruct (handle p e0 s0) as [[s' out]|e]; [|discriminate].
    cbn [uncaught final trace] in Hun |- *.
    rewrite (IH s' _ ev eq_refl Hun).
    destruct (handle p ev (final (feed p es s'))) as [[s'' out']|e];
      cbn [final trace uncaught]; by rewrite ?app_assoc.
Qed.

(** The scan of a matched element up to a point inside its content. *)
Lemma feed_open_subtree (s : State) (node : Sax.Tag) (pre : list Sax.Event)
    (stack : list string) :
  capturingContent s = false ->
  shouldCapture p (Sax.name node) (Sax.attributes node) = Normal true ->
  nesting [] pre = Some stack ->
  feed p (Sax.OpenTag node :: pre) s
  = {| final := recording (startCapture node s) (1 + Z.of_nat (length stack))
                  (ItemOpen (Sax.name node) (Sax.attributes node) 0
                   :: buffered 1 pre);
       trace := [];
       uncaught := None |}.
Proof.
  intros Hcap Hshould Hn.
  destruct (nesting_inside pre [] stack 1 ltac:(lia) Hn) as [Hin Hsig].
  cbn [feed]. rewrite (handle_start s node Hcap Hshould).
  simpl length in Hin. rewrite Z.add_0_r in Hin.
  rewrite (feed_inside pre
             (recording (startCapture node s) 1
                [ItemOpen (Sax.name node) (Sax.attributes node) 0])
             1 _ eq_refl eq_refl Hin).
  cbn [final trace uncaught]. rewrite recording_recording.
  rewrite (signals_no_components _ _ Hsig). reflexivity.
Qed.

(** C2. A capture that begins at an opening event seen at depth D goes on
    through the whole well-formed content of the element: at every point of
    it nothing is saved, the flag is set, the events seen are in the buffer
    and the depth is above D. The end tag that follows the content brings the
    depth back to D, and there the component is saved, the flag cleared and
    the buffer emptied. *)
Theorem depth_closure (s : State) (node : Sax.Tag) (body : list Sax.Event)
    (n : string) :
  capturingContent s = false ->
  shouldCapture p (Sax.name node) (Sax.attributes node) = Normal true ->
  wellNested body ->
  let D := currentDepth s in
  let opening := ItemOpen (Sax.name node) (Sax.attributes node) 0 in
  (forall pre post : list Sax.Event,
      body = pre ++ post ->
      let r := feed p (Sax.OpenTag node :: pre) s in
      uncaught r = None
      /\ trace r = []
      /\ components (final r) = components s
      /\ capturingContent (final r) = true
      /\ captureDepth (final r) = D
      /\ D < currentDepth (final r)
      /\ capturedContent (final r) = opening :: buffered 1 pre)
  /\ (let r := feed p (Sax.OpenTag node :: body ++ [Sax.CloseTag n]) s in
      uncaught r = None
      /\ trace r = saveComponent p (metadataOf node)
                     (opening :: buffered 1 body ++ [ItemClose n 0])
      /\ components (final r) = components s ++ [metadataOf node]
      /\ capturingContent (final r) = false
      /\ capturedContent (final r) = []
      /\ currentDepth (final r) = D).
Proof.
  intros Hcap Hshould Hwf D opening. split.
  - intros pre post ->.
    destruct (nesting_prefix _ _ _ _ Hwf) as [mid Hmid].
    rewrite (feed_open_subtree s node pre mid Hcap Hshould Hmid).
    cbn [final trace uncaught recording startCapture components
         capturingContent captureDepth currentDepth capturedContent].
    repeat split. subst D. lia.
  - set (s1 := final (feed p (Sax.OpenTag node :: body) s)).
    assert (Hfeed := feed_open_subtree s node body [] Hcap Hshould Hwf).
    change (Sax.OpenTag node :: body ++ [Sax.CloseTag n])
      with ((Sax.OpenTag node :: body) ++ [Sax.CloseTag n]).
    revert Hfeed. generalize (Sax.OpenTag node :: body) as evs.
    intros evs Hfeed. clear s1.
    rewrite (feed_snoc evs s _ (Sax.CloseTag n) Hfeed eq_refl).
    cbn [final trace uncaught].
    rewrite (handle_close
               (recording (startCapture node s) (1 + Z.of_nat (length (@nil string)))
                  (ItemOpen (Sax.name node) (Sax.attributes node) 0
                   :: buffered 1 body))
               n (metadataOf node) eq_refl eq_refl eq_refl).
    cbn [final trace uncaught finishCapture recording startCapture components
         capturingContent captureDepth currentDepth capturedContent app].
    repeat split. subst D. lia.
Qed.

End Capture.

(** ** Whole scans *)

Section Scans.

Import ComponentExtractor Scan.

Variable p : Params.

Lemma feed_app (a b : list Sax.Event) :
  forall s : State,
    feed p (a ++ b) s
    = match uncaught (feed p a s) with
      | Some _ => feed p a s
      | None =>
          let rb := feed p b (final (feed p a s)) in
          {| final := final rb; trace := trace (feed p a s) ++ trace rb;
             uncaught := uncaught rb |}
      end.
Proof.
  induction a as [|ev a IH]; intros s.
  - simpl. by destruct (feed p b s).
  - cbn [app feed]. destruct (handle p ev s) as [[s' out]|e]; [|done].
    rewrite IH. cbn [uncaught final trace].
    destruct (uncaught (feed p a s')) eqn:Hu; [by rewrite Hu|].
    cbn [uncaught final trace]. by rewrite app_assoc.
Qed.

(** From a state without a capture, an event either makes a listener throw,
    or leaves the state without a capture, or is the opening event of a
    matched element. *)
Lemma handle_idle (ev : Sax.Event) (s : State) :
  idle s ->
  (exists e, handle p ev s = Throws e)
  \/ (exists s', handle p ev s = Normal (s', signal p (components s) ev)
                 /\ idle s' /\ components s' = components s)
  \/ (exists node, ev = Sax.OpenTag node
                   /\ shouldCapture p (Sax.name node) (Sax.attributes node)
                      = Normal true).
Proof.
  intros (Hcap & Hbuf & Hmd).
  destruct ev as [node|text|n|e|].
  - destruct (shouldCapture p (Sax.name node) (Sax.attributes node))
      as [[|]|e] eqn:Hshould.
    + right; right. by exists node.
    + right; left. rewrite (handle_skip p s node Hcap Hshould).
      eexists; split; [reflexivity|]. by repeat split.
    + left. exists e. simpl. unfold onOpenTag. by rewrite Hcap, Hshould.
  - right; left. simpl. unfold onText. rewrite Hcap. simpl.
    eexists; split; [reflexivity|]. by repeat split.
  - right; left. simpl. unfold onCloseTag. simpl. rewrite Hcap.
    eexists; split; [reflexivity|]. by repeat split.
  - right; left. simpl. eexists; split; [reflexivity|]. by repeat split.
  - right; left. simpl. eexists; split; [reflexivity|]. by repeat split.
Qed.

(** Inside a capture, the rest of the stream either never closes the
    captured element or splits at the end tag that does. *)
Lemma capture_split (rest : list Sax.Event) :
  forall h : Z,
    1 <= h ->
    (exists h', inside h rest = Some h')
    \/ (exists body n rest',
           rest = body ++ Sax.CloseTag n :: rest' /\ inside h body = Some 1).
Proof.
  induction rest as [|ev rest IH]; intros h Hh.
  - left. by exists h.
  - destruct ev as [node|text|n|e|]; simpl.
    + destruct (IH (h + 1) ltac:(lia)) as [Hopen|(body & n & rest' & -> & Hin)];
        [by left|right].
      by exists (Sax.OpenTag node :: body), n, rest'.
    + destruct (IH h Hh) as [Hopen|(body & n & rest' & -> & Hin)];
        [by left|right].
      by exists (Sax.Text text :: body), n, rest'.
    + destruct (Z.eqb_spec (h - 1) 0) as [Hz|Hz].
      * right. exists [], n, rest. split; [done|]. simpl. f_equal. lia.
      * destruct (IH (h - 1) ltac:(lia)) as [Hopen|(body & n' & rest' & -> & Hin)];
          [by left|right].
        exists (Sax.CloseTag n :: body), n', rest'. split; [done|]. simpl.
        by destruct (Z.eqb_spec (h - 1) 0).
    + destruct (IH h Hh) as [Hopen|(body & n & rest' & -> & Hin)];
        [by left|right].
      by exists (Sax.Error e :: body), n, rest'.
    + destruct (IH h Hh) as [Hopen|(body & n & rest' & -> & Hin)];
        [by left|right].
      by exists (Sax.End :: body), n, rest'.
Qed.

(** The scan of a whole matched element, from its opening event to the end
    tag that closes it, and of what follows. *)
Lemma feed_capture (s : State) (node : Sax.Tag) (body : list Sax.Event)
    (n : string) (rest : list Sax.Event) :
  capturingContent s = false ->
  shouldCapture p (Sax.name node) (Sax.attributes node) = Normal true ->
  inside 1 body = Some 1 ->
  feed p (Sax.OpenTag node :: body ++ Sax.CloseTag n :: rest) s
  = let r := feed p rest (afterCapture s node) in
    {| final := final r;
       trace := signals p (components s) body
                ++ saveComponent p (metadataOf node)
                     (buffered 0 (Sax.OpenTag node :: body) ++ [ItemClose n 0])
                ++ trace r;
       uncaught := uncaught r |}.
Proof.
  intros Hcap Hshould Hin.
  cbn [feed]. rewrite (handle_start p s node Hcap Hshould).
  rewrite feed_app.
  rewrite (feed_inside p body
             (recording (startCapture node s) 1
                [ItemOpen (Sax.name node) (Sax.attributes node) 0])
             1 1 eq_refl eq_refl Hin).
  cbn [final trace uncaught feed]. rewrite recording_recording.
  rewrite (handle_close p
             (recording (startCapture node s) 1
                ([ItemOpen (Sax.name node) (Sax.attributes node) 0]
                 ++ buffered 1 body))
             n (metadataOf node) eq_refl eq_refl eq_refl).
  cbn [final trace uncaught app].
  replace (finishCapture (metadataOf node)
             (recording
                (recording (startCapture node s) 1
                   (ItemOpen (Sax.name node) (Sax.attributes node) 0
                    :: buffered 1 body)) 0 [ItemClose n 0]))
    with (afterCapture s node).
  2:{ unfold afterCapture, finishCapture, recording, startCapture; simpl.
      f_equal; lia. }
  reflexivity.
Qed.

Lemma idle_afterCapture (s : State) (node : Sax.Tag) : idle (afterCapture s node).
Proof. by repeat split. Qed.

(** Induction over a scan that begins without a capture: the stream is empty,
    or its first event makes a listener throw, or leaves the extractor
    without a capture, or opens a capture that the rest of the stream never
    closes, or opens a capture that is closed, after which the scan goes
    on. *)
Lemma scan_ind (P : list Sax.Event -> State -> Prop) :
  (forall s, idle s -> P [] s) ->
  (forall ev rest s e,
      idle s -> handle p ev s = Throws e -> P (ev :: rest) s) ->
  (forall ev rest s s',
      idle s -> handle p ev s = Normal (s', signal p (components s) ev) ->
      idle s' -> components s' = components s ->
      P rest s' -> P (ev :: rest) s) ->
  (forall node rest s h,
      idle s ->
      shouldCapture p (Sax.name node) (Sax.attributes node) = Normal true ->
      inside 1 rest = Some h ->
      P (Sax.OpenTag node :: rest) s) ->
  (forall node body n rest s,
      idle s ->
      shouldCapture p (Sax.name node) (Sax.attributes node) = Normal true ->
      inside 1 body = Some 1 ->
      P rest (afterCapture s node) ->
      P (Sax.OpenTag node :: body ++ Sax.CloseTag n :: rest) s) ->
  forall events s, idle s -> P events s.
Proof.
  intros Hnil Hthrow Hstep Hopen Hwhole events.
  remember (length events) as k eqn:Hk. revert events Hk.
  induction k as [k IH] using lt_wf_ind. intros events Hk s Hidle.
  destruct events as [|ev rest]; [by apply Hnil|].
  destruct (handle_idle ev s Hidle)
    as [[e He]|[(s' & He & Hs' & Hcs)|(node & -> & Hshould)]].
  - by eapply Hthrow.
  - eapply Hstep; eauto. eapply (IH (length rest)); eauto. simpl in Hk. lia.
  - destruct (capture_split rest 1 ltac:(lia))
      as [[h Hin]|(body & n & rest' & -> & Hin)].
    + by eapply Hopen.
    + apply Hwhole; auto. eapply (IH (length rest')); eauto.
      * simpl in Hk. rewrite length_app in Hk. simpl in Hk. lia.
      * apply idle_afterCapture.
Qed.

Lemma writes_app (a b : list Effect) : writes (a ++ b) = writes a ++ writes b.
Proof.
  induction a as [|e a IH]; [done|]. destruct e; simpl; by rewrite ?IH.
Qed.

Lemma writes_signals (cs : list Metadata) (events : list Sax.Event) :
  writes (signals p cs events) = [].
Proof.
  induction events as [|ev rest IH]; [done|].
  unfold signals. simpl. rewrite writes_app. fold (signals p cs rest).
  rewrite IH. by destruct ev.
Qed.

(** The scan of a matched element whose end tag never comes. *)
Lemma feed_open (s : State) (node : Sax.Tag) (rest : list Sax.Event) (h : Z) :
  capturingContent s = false ->
  shouldCapture p (Sax.name node) (Sax.attributes node) = Normal true ->
  inside 1 rest = Some h ->
  feed p (Sax.OpenTag node :: rest) s
  = {| final := recording (startCapture node s) h
                  (buffered 0 (Sax.OpenTag node :: rest));
       trace := signals p (components s) rest;
       uncaught := None |}.
Proof.
  intros Hcap Hshould Hin.
  cbn [feed]. rewrite (handle_start p s node Hcap Hshould).
  rewrite (feed_inside p rest
             (recording (startCapture node s) 1
                [ItemOpen (Sax.name node) (Sax.attributes node) 0])
             1 h eq_refl eq_refl Hin).
  cbn [final trace uncaught]. by rewrite recording_recording.
Qed.

Lemma matchedIn_mono (xs ys : list Sax.Event) (m : Metadata) :
  (forall ev, In ev xs -> In ev ys) -> matchedIn p xs m -> matchedIn p ys m.
Proof. intros Hsub (node & Hin & Hs & ->). exists node. auto. Qed.

(** The components of a scan and the files it writes: one XML file and one
    JSON file per completed capture, in the order of the captures, and
    nothing else. *)
Lemma scan_saved (events : list Sax.Event) (s : State) :
  idle s ->
  exists saved : list (Metadata * list Item),
    components (final (feed p events s)) = components s ++ map fst saved
    /\ writes (trace (feed p events s)) = concat (map (componentWrites p) saved)
    /\ Forall (fun x => matchedIn p events (fst x) /\ captureShape (snd x)) saved.
Proof.
  revert events s. apply scan_ind.
  - intros s _. exists []. simpl. by rewrite app_nil_r.
  - intros ev rest s e _ He. exists []. cbn [feed]. rewrite He. simpl.
    by rewrite app_nil_r.
  - intros ev rest s s' _ He _ Hcs (saved & Hc & Hw & Hm).
    exists saved. cbn [feed]. rewrite He. cbn [final trace].
    rewrite Hc, Hcs, writes_app, Hw. split; [done|]. split.
    + by destruct ev.
    + eapply Forall_impl; [exact Hm|]. intros x [Hx Hshape]. split; [|done].
      revert Hx. apply matchedIn_mono. intros; by right.
  - intros node rest s h (Hcap & _) Hshould Hin. exists [].
    rewrite (feed_open s node rest h Hcap Hshould Hin). cbn [final trace].
    rewrite writes_signals. simpl. by rewrite app_nil_r.
  - intros node body n rest s (Hcap & _) Hshould Hin (saved & Hc & Hw & Hm).
    exists ((metadataOf node,
             buffered 0 (Sax.OpenTag node :: body) ++ [ItemClose n 0]) :: saved).
    rewrite (feed_capture s node body n rest Hcap Hshould Hin).
    cbn [final trace]. rewrite Hc, !writes_app, writes_signals, Hw.
    split; [simpl; by rewrite <- app_assoc|]. split; [done|].
    constructor.
    + split; [exists node; split; [by left|done]|by exists node, body, n].
    + eapply Forall_impl; [exact Hm|]. intros x [Hx Hshape]. split; [|done].
      revert Hx. apply matchedIn_mono.
      intros ev Hev. right. apply in_or_app. right. by right.
Qed.

(** The captures of a scan, each at its place in the stream. *)
Lemma scan_captured (events : list Sax.Event) (s : State) :
  idle s ->
  exists saved : list (Metadata * list Item),
    Captured p events saved
    /\ components (final (feed p events s)) = components s ++ map fst saved
    /\ writes (trace (feed p events s)) = concat (map (componentWrites p) saved).
Proof.
  revert events s. apply scan_ind.
  - intros s _. exists []. simpl. rewrite app_nil_r. splits; [constructor|done|done].
  - intros ev rest s e (Hcap & _) He. exists []. cbn [feed]. rewrite He. simpl.
    rewrite app_nil_r. splits; [|done|done].
    destruct ev as [node|text|n|err|]; simpl in He.
    + unfold onOpenTag in He. rewrite Hcap in He.
      destruct (shouldCapture p (Sax.name node) (Sax.attributes node))
        as [b|err] eqn:Hs; simpl in He; [discriminate|].
      by apply (captured_throw p node rest err).
    + unfold onText in He. by destruct (_ && _).
    + unfold onCloseTag in He. simpl in He. by rewrite Hcap in He.
    + discriminate.
    + discriminate.
  - intros ev rest s s' (Hcap & _) He (Hcap' & _) Hcs IH.
    destruct IH as (saved & Hc & Hcomp & Hw). exists saved. cbn [feed]. rewrite He. cbn [final trace].
    rewrite Hcomp, Hcs, writes_app, Hw. splits; [|done|by destruct ev].
    apply captured_skip; [|done]. intros node ->.
    destruct (shouldCapture p (Sax.name node) (Sax.attributes node))
      as [[|]|err] eqn:Hs; [| done |].
    + rewrite (handle_start p s node Hcap Hs) in He. injection He as <-.
      discriminate Hcap'.
    + simpl in He. unfold onOpenTag in He. rewrite Hcap, Hs in He. discriminate.
  - intros node rest s h (Hcap & _) Hshould Hin. exists [].
    rewrite (feed_open s node rest h Hcap Hshould Hin). cbn [final trace].
    rewrite writes_signals. simpl. rewrite app_nil_r.
    splits; [by apply (captured_open p node rest h)|done|done].
  - intros node body n rest s (Hcap & _) Hshould Hin IH.
    destruct IH as (saved & Hc & Hcomp & Hw).
    exists ((metadataOf node,
             ItemOpen (Sax.name node) (Sax.attributes node) 0
             :: buffered 1 body ++ [ItemClose n 0]) :: saved).
    rewrite (feed_capture s node body n rest Hcap Hshould Hin).
    cbn [final trace]. rewrite Hcomp, !writes_app, writes_signals, Hw.
    splits; [by apply captured_whole|simpl; by rewrite <- app_assoc|done].
Qed.

(** Where a scan stands: without a capture and with an empty buffer, or in
    the capture of a matched element, with exactly the events seen since
    its opening event in the buffer. *)
Lemma scan_buffer (events : list Sax.Event) (s : State) :
  idle s ->
  (capturingContent (final (feed p events s)) = false ->
   idle (final (feed p events s)))
  /\ (capturingContent (final (feed p events s)) = true ->
      uncaught (feed p events s) = None
      /\ exists pre node body h,
          events = pre ++ Sax.OpenTag node :: body
          /\ uncaught (feed p pre s) = None
          /\ idle (final (feed p pre s))
          /\ shouldCapture p (Sax.name node) (Sax.attributes node) = Normal true
          /\ inside 1 body = Some h
          /\ final (feed p events s)
             = recording (startCapture node (final (feed p pre s))) h
                 (buffered 0 (Sax.OpenTag node :: body))).
Proof.
  revert events s. apply scan_ind.
  - intros s Hidle. simpl. split; [done|]. destruct Hidle as [Hcap _]. congruence.
  - intros ev rest s e Hidle He. cbn [feed]. rewrite He. simpl.
    split; [done|]. destruct Hidle as [Hcap _]. congruence.
  - intros ev rest s s' Hidle He Hs' Hcs [IH1 IH2].
    cbn [feed]. rewrite He. cbn [final uncaught]. split; [exact IH1|].
    intros Hcap. destruct (IH2 Hcap)
      as (Hun & pre & node & body & h & -> & Hpre & Hipre & Hshould & Hin & Hfin).
    split; [exact Hun|]. exists (ev :: pre), node, body, h.
    cbn [feed app]. rewrite He. cbn [final uncaught]. splits; done.
  - intros node rest s h Hidle Hshould Hin.
    destruct Hidle as (Hcap & Hbuf & Hmd).
    rewrite (feed_open s node rest h Hcap Hshould Hin). cbn [final uncaught].
    split; [discriminate|]. intros _. split; [done|].
    exists [], node, rest, h. simpl. splits; done.
  - intros node body n rest s Hidle Hshould Hin [IH1 IH2].
    destruct Hidle as (Hcap & Hbuf & Hmd).
    rewrite (feed_capture s node body n rest Hcap Hshould Hin).
    cbn [final uncaught]. split; [exact IH1|].
    intros Hc. destruct (IH2 Hc)
      as (Hun & pre & node' & body' & h & -> & Hpre & Hipre & Hshould' & Hin' & Hfin).
    split; [exact Hun|].
    exists (Sax.OpenTag node :: body ++ Sax.CloseTag n :: pre), node', body', h.
    rewrite (feed_capture s node body n pre Hcap Hshould Hin).
    cbn [final uncaught]. splits; auto.
    simpl. by rewrite <- app_assoc.
Qed.

Lemma buffered_length (events : list Sax.Event) :
  forall d : Z, (length (buffered d events) <= length events)%nat.
Proof.
  induction events as [|ev rest IH]; intros d; [done|].
  destruct ev as [node|text|n|e|]; simpl.
  - specialize (IH (d + 1)). lia.
  - specialize (IH d). destruct (negb _); simpl; lia.
  - specialize (IH (d - 1)). lia.
  - specialize (IH d). lia.
  - specialize (IH d). lia.
Qed.

(** The scan of a stream that ends with the end tag of a matched element:
    the component is saved and the buffer cleared. *)
Lemma feed_capture_last (pre : list Sax.Event) (node : Sax.Tag)
    (body : list Sax.Event) (n : string) (s0 : State) :
  uncaught (feed p pre s0) = None ->
  capturingContent (final (feed p pre s0)) = false ->
  shouldCapture p (Sax.name node) (Sax.attributes node) = Normal true ->
  inside 1 body = Some 1 ->
  let s := final (feed p (pre ++ Sax.OpenTag node :: body ++ [Sax.CloseTag n]) s0) in
  capturingContent s = false
  /\ capturedContent s = []
  /\ components s = components (final (feed p pre s0)) ++ [metadataOf node].
Proof.
  intros Hun Hcap Hshould Hin s. subst s.
  rewrite feed_app, Hun. cbn [final].
  by rewrite (feed_capture (final (feed p pre s0)) node body n [] Hcap Hshould Hin).
Qed.

(** C9. At every point of a scan (after any sequence of events, from a fresh
    extractor) either no capture is running and the buffer is empty, or the
    scan is inside the subtree of a matched element: the events end with
    the start tag of an element that was met without a capture running and
    accepted, followed by events none of which closes that element, and the
    buffer holds exactly the entries recorded for that start tag and these
    events, at most one entry per event, whatever came before in the
    document. When the stream goes on to the end tag that closes a captured
    element, the capture is over and the buffer is empty again. The state
    has no other store of events. *)
Theorem buffer_bounded_by_capture (events : list Sax.Event) :
  let s := final (feed p events initial) in
  ((capturingContent s = false /\ capturedContent s = [])
   \/ (capturingContent s = true
       /\ exists (pre : list Sax.Event) (node : Sax.Tag) (body : list Sax.Event)
                 (h : Z),
           events = pre ++ Sax.OpenTag node :: body
           /\ uncaught (feed p pre initial) = None
           /\ capturingContent (final (feed p pre initial)) = false
           /\ capturedContent (final (feed p pre initial)) = []
           /\ shouldCapture p (Sax.name node) (Sax.attributes node) = Normal true
           /\ inside 1 body = Some h
           /\ currentDepth s = captureDepth s + h
           /\ capturedContent s
              = ItemOpen (Sax.name node) (Sax.attributes node) 0
                :: buffered 1 body
           /\ (length (capturedContent s) <= length (Sax.OpenTag node :: body))%nat))
  /\ (forall (pre : list Sax.Event) (node : Sax.Tag) (body : list Sax.Event)
             (n : string),
         events = pre ++ Sax.OpenTag node :: body ++ [Sax.CloseTag n] ->
         uncaught (feed p pre initial) = None ->
         capturingContent (final (feed p pre initial)) = false ->
         shouldCapture p (Sax.name node) (Sax.attributes node) = Normal true ->
         inside 1 body = Some 1 ->
         capturingContent s = false
         /\ capturedContent s = []
         /\ components s
            = components (final (feed p pre initial)) ++ [metadataOf node]).
Proof.
  intros s. subst s. split.
  - assert (Hidle : idle initial) by (by repeat split).
    destruct (scan_buffer events initial Hidle) as [H1 H2].
    destruct (capturingContent (final (feed p events initial))) eqn:Hcap.
    + right. split; [done|].
      destruct (H2 eq_refl)
        as (_ & pre & node & body & h & Hev & Hun & Hipre & Hshould & Hin & Hfin).
      exists pre, node, body, h. destruct Hipre as (Hc & Hb & _).
      rewrite Hfin.
      cbn [capturedContent currentDepth captureDepth recording startCapture app].
      splits; auto.
      apply (buffered_length (Sax.OpenTag node :: body) 0).
    + left. split; [done|]. by destruct (H1 eq_refl) as (_ & Hb & _).
  - intros pre node body n -> Hun Hcap Hshould Hin.
    by apply feed_capture_last.
Qed.

End Scans.

(** ** Files and paths *)

Section Paths.

Import ComponentExtractor Scan.

Lemma string_app_cons (c : ascii) (a b : string) :
  String c a +:+ b = String c (a +:+ b).
Proof. reflexivity. Qed.

Lemma string_app_nil (b : string) : EmptyString +:+ b = b.
Proof. reflexivity. Qed.

Lemma string_app_assoc (a b c : string) : (a +:+ b) +:+ c = a +:+ (b +:+ c).
Proof.
  induction a as [|x a IH]; [done|]. by rewrite !string_app_cons, IH.
Qed.

(** Two paths of one directory level are equal only when both segments
    are. *)
Lemma segment_inj (a a' b b' : string) :
  noSlash a = true -> noSlash a' = true ->
  a +:+ "/" +:+ b = a' +:+ "/" +:+ b' -> a = a' /\ b = b'.
Proof.
  revert a'. induction a as [|x a IH]; intros [|x' a'] Ha Ha' Heq;
    repeat rewrite ?string_app_nil, ?string_app_cons in Heq.
  - by injection Heq as ->.
  - injection Heq as <- _. discriminate Ha'.
  - injection Heq as -> _. discriminate Ha.
  - injection Heq as -> Heq.
    simpl in Ha, Ha'. apply andb_prop in Ha as [_ Ha].
    apply andb_prop in Ha' as [_ Ha'].
    destruct (IH a' Ha Ha' Heq) as [-> ->]. done.
Qed.

Lemma includes_In (l : list string) (s : string) :
  Js.includes l s = true -> In s l.
Proof.
  unfold Js.includes. intros H. apply existsb_exists in H as (x & Hx & Heq).
  apply String.eqb_eq in Heq. by subst.
Qed.

Lemma shouldCapture_known (p : Params) (n : string) (attributes : Js.object) :
  shouldCapture p n attributes = Normal true -> In n knownTags.
Proof.
  assert (Hinc : forall l, Normal (Js.includes l n) = Normal true -> In n l).
  { intros l H. apply includes_In. congruence. }
  unfold shouldCapture. destruct (idFilterRejects p attributes); [discriminate|].
  destruct (String.eqb (componentType p) "all").
  - intros H%Hinc. unfold allTags, knownTags in *. simpl in *. tauto.
  - unfold typeMap.
    repeat match goal with
           | |- context [if ?b then _ else _] => destruct b
           end; try discriminate;
      intros H%Hinc; unfold knownTags; simpl in *; tauto.
Qed.

Lemma knownTags_noSlash (n : string) : In n knownTags -> noSlash n = true.
Proof.
  unfold knownTags. simpl. intros H.
  repeat (destruct H as [<-|H]; [reflexivity|]). destruct H.
Qed.

Lemma store_xmlnsObject (o : Js.object) (k : string) (a : Js.Attr) :
  xmlnsObject o -> xmlnsObject (Js.store o k (Js.AttrObj a)).
Proof.
  unfold xmlnsObject. induction o as [|[k' v'] o IH]; intros H; simpl.
  - constructor; [by exists a|constructor].
  - inversion H as [|? ? Hv Ho]; subst. destruct (String.eqb k' k).
    + constructor; [by exists a|done].
    + constructor; [done|by apply IH].
Qed.

Lemma set_xmlnsObject (o : Js.object) (k : string) (a : Js.Attr) :
  xmlnsObject o -> xmlnsObject (Js.set o k (Js.AttrObj a)).
Proof.
  intros H. unfold Js.set. destruct (Js.isProtoKey k); by apply store_xmlnsObject.
Qed.

Lemma lookup_xmlnsObject (o : Js.object) (k : string) (v : Js.value) :
  xmlnsObject o -> Js.lookup o k = Some v -> exists a, v = Js.AttrObj a.
Proof.
  unfold xmlnsObject. induction o as [|[k' v'] o IH]; intros H; simpl.
  - discriminate.
  - inversion H as [|? ? Hv Ho]; subst. destruct (String.eqb k' k).
    + intros [= <-]. exact Hv.
    + by apply IH.
Qed.

Lemma attributesOf_xmlnsObject (attrs : list Js.Attr) :
  forall acc, xmlnsObject acc ->
              xmlnsObject (Sax.attributesOf saxOptions acc attrs).
Proof.
  induction attrs as [|a attrs IH]; intros acc Hacc; [done|].
  simpl. apply IH. by apply set_xmlnsObject.
Qed.

(** A property that an attribute object does not have reads, in namespace
    mode, as an attribute object or as [undefined]. *)
Lemma get_xmlnsObject (o : Js.object) (k : string) :
  (forall a, Js.attrField a k = Js.Undefined) ->
  xmlnsObject o -> Js.get o k = Js.Undefined \/ exists a, Js.get o k = Js.AttrObj a.
Proof.
  intros Hk H. unfold Js.get.
  destruct (Js.lookup o k) as [v|] eqn:Hv.
  - right. by apply (lookup_xmlnsObject o k).
  - left. by destruct (Js.lookup o "__proto__") as [[|t|a]|].
Qed.

Lemma emitAll_xmlnsObject (doc : list Sax.Token) (node : Sax.Tag) :
  In (Sax.OpenTag node) (Sax.emitAll saxOptions doc) ->
  xmlnsObject (Sax.attributes node).
Proof.
  unfold Sax.emitAll. induction doc as [|t doc IH]; simpl; [done|].
  intros H. apply in_app_or in H as [H|H]; [|by apply IH].
  destruct t as [n attrs|d|n|m|]; simpl in H.
  - destruct H as [[= <-]|[]]. simpl. apply attributesOf_xmlnsObject. constructor.
  - destruct (Sax.textopts saxOptions d); simpl in H; [done|].
    by destruct H as [|[]].
  - by destruct H as [|[]].
  - by destruct H as [|[]].
  - by destruct H as [|[]].
Qed.

(** The base name of the files of a component in namespace mode. *)
Lemma baseName_xmlns (doc : list Sax.Token) (node : Sax.Tag) :
  In (Sax.OpenTag node) (Sax.emitAll saxOptions doc) ->
  baseName (metadataOf node) = "unnamed"
  \/ baseName (metadataOf node) = "[object Object]".
Proof.
  intros H. apply emitAll_xmlnsObject in H.
  unfold baseName, metadataOf; simpl.
  destruct (get_xmlnsObject _ "id" (fun _ => eq_refl) H) as [->|[a ->]];
    [by left|by right].
Qed.

End Paths.

(** ** The artifacts of a run *)

Section Artifacts.

Import ComponentExtractor Scan.

Variable xmlFilePath : string.
Variable p : Params.

Lemma writes_banner : writes (banner xmlFilePath p) = [].
Proof.
  unfold banner. destruct (componentId p) as [cid|]; [|done].
  by destruct (String.eqb cid EmptyString).
Qed.

(** The files a run writes: those of the completed captures and, when the
    promise was resolved, the index. *)
Lemma main_writes (doc : list Sax.Token) (now : string) :
  writes (effects (main xmlFilePath p doc now))
  = writes (trace (extract p doc))
    ++ (if resolved (extract p doc)
        then [(indexPath p,
               Json.stringify (indexJson now (components (final (extract p doc)))))]
        else []).
Proof.
  unfold main, resolved.
  destruct (uncaught (extract p doc)) as [e|]; cbn [effects].
  - rewrite !writes_app, writes_banner. simpl. by rewrite app_nil_r.
  - destruct (settled (trace (extract p doc))) as [[res|err]|]; cbn [effects];
      rewrite ?writes_app, writes_banner; simpl; by rewrite ?app_nil_r.
Qed.

(** Every file a scan writes is the XML or the JSON file of an element the
    predicate accepted. *)
Lemma scan_writes_paths (doc : list Sax.Token) (path content : string) :
  In (path, content) (writes (trace (extract p doc))) ->
  exists node,
    In (Sax.OpenTag node) (Sax.emitAll saxOptions doc)
    /\ shouldCapture p (Sax.name node) (Sax.attributes node) = Normal true
    /\ (path = xmlPathOf p (metadataOf node) \/ path = jsonPathOf p (metadataOf node)).
Proof.
  unfold extract.
  destruct (scan_saved p (Sax.emitAll saxOptions doc) initial) as (saved & _ & Hw & Hm);
    [by repeat split|].
  rewrite Hw. clear Hw. induction saved as [|[m buf] saved IH]; simpl; [done|].
  inversion Hm as [|? ? [(node & Hin & Hshould & Heq) _] Hrest]; subst.
  simpl in Heq. subst m.
  intros [[= <- _]|[[= <- _]|H]].
  - exists node. auto.
  - exists node. auto.
  - by apply IH.
Qed.

Lemma path_segments (out ty file : string) :
  pathJoin (pathJoin out ty) file = out +:+ "/" +:+ (ty +:+ "/" +:+ file).
Proof. unfold pathJoin. by rewrite !string_app_assoc. Qed.

(** No file of a component is written at the path of the index. *)
Lemma typePath_not_index (out ty file : string) :
  In ty knownTags -> pathJoin (pathJoin out ty) file <> pathJoin out "index.json".
Proof.
  intros Hty Heq. rewrite path_segments in Heq. unfold pathJoin in Heq.
  apply (inj (String.app _)), (inj (String.app _)) in Heq.
  unfold knownTags in Hty. simpl in Hty.
  repeat (destruct Hty as [Hty|Hty];
          [rewrite <- Hty in Heq; vm_compute in Heq; discriminate Heq|]).
  destruct Hty.
Qed.

Lemma scan_writes_not_index (doc : list Sax.Token) :
  Forall (fun w => fst w <> indexPath p) (writes (trace (extract p doc))).
Proof.
  apply Forall_forall. intros [path content] Hin%list_elem_of_In.
  apply scan_writes_paths in Hin as (node & _ & Hshould & Hpath).
  apply shouldCapture_known in Hshould. simpl.
  destruct Hpath as [-> | ->]; by apply typePath_not_index.
Qed.

(** C10. For a component of a run whose element has no [id] attribute, the
    XML and JSON files are written as [<type>/unnamed.xml] and
    [<type>/unnamed.json] under the output directory, so that the components
    of one type without an id share their two paths; the index entry of the
    component gives the path [<type>/undefined.xml]; and the run writes no
    file at that path. When the promise is resolved the index is written,
    and what is written is the JSON text of an object with the time, the
    number of components and the array of the entries of all components in
    order, in which the entry of this component, at its place, has no [id]
    and the path [<type>/undefined.xml]. *)
Theorem unnamed_component_paths (doc : list Sax.Token) (now : string)
    (c : Metadata) :
  In c (components (final (extract p doc))) ->
  md_id c = Js.Undefined ->
  let written := writes (effects (main xmlFilePath p doc now)) in
  let typeDir := pathJoin (outputDir p) (md_type c) in
  (exists buffer,
      In (pathJoin typeDir "unnamed.xml", reconstructXML buffer) written)
  /\ In (pathJoin typeDir "unnamed.json", Json.stringify (metadataJson c)) written
  /\ (forall c', md_id c' = Js.Undefined -> md_type c' = md_type c ->
                 xmlPathOf p c' = pathJoin typeDir "unnamed.xml"
                 /\ jsonPathOf p c' = pathJoin typeDir "unnamed.json")
  /\ indexEntry c
     = Json.JObject [("type", Json.JString (md_type c));
                     ("id", Json.JUndefined);
                     ("name", Json.ofValue (md_name c));
                     ("path", Json.JString (md_type c +:+ "/undefined.xml"))]
  /\ (forall content,
         ~ In (pathJoin (outputDir p) (md_type c +:+ "/undefined.xml"), content)
              written)
  /\ (resolved (extract p doc) = true ->
      exists before after : list Metadata,
        components (final (extract p doc)) = before ++ c :: after
        /\ In (indexPath p,
               Json.stringify
                 (Json.JObject
                    [("extractedAt", Json.JString now);
                     ("totalComponents",
                      Json.JNumber (length (before ++ c :: after)));
                     ("components",
                      Json.JArray
                        (map indexEntry before
                         ++ Json.JObject
                              [("type", Json.JString (md_type c));
                               ("id", Json.JUndefined);
                               ("name", Json.ofValue (md_name c));
                               ("path",
                                Json.JString (md_type c +:+ "/undefined.xml"))]
                            :: map indexEntry after))]))
              written).
Proof.
  intros Hc Hid written typeDir. subst written typeDir.
  rewrite main_writes.
  destruct (scan_saved p (Sax.emitAll saxOptions doc) initial)
    as (saved & Hcs & Hw & Hm); [by repeat split|].
  fold (extract p doc) in Hcs, Hw.
  assert (Hbase : baseName c = "unnamed") by (unfold baseName; by rewrite Hid).
  assert (Hknown : In (md_type c) knownTags).
  { rewrite Hcs in Hc. simpl in Hc. apply in_map_iff in Hc as ([m buf] & <- & Hin).
    rewrite Forall_forall in Hm. apply list_elem_of_In, Hm in Hin.
    destruct Hin as [(node & _ & Hshould & ->) _]. simpl.
    by apply shouldCapture_known in Hshould. }
  splits.
  - rewrite Hcs in Hc. simpl in Hc. apply in_map_iff in Hc as ([m buf] & <- & Hin).
    exists buf. apply in_or_app. left. rewrite Hw.
    apply in_concat. exists (componentWrites p (m, buf)).
    split; [by apply in_map|]. left. unfold xmlPathOf. simpl in *.
    by rewrite Hbase.
  - rewrite Hcs in Hc. simpl in Hc. apply in_map_iff in Hc as ([m buf] & <- & Hin).
    apply in_or_app. left. rewrite Hw.
    apply in_concat. exists (componentWrites p (m, buf)).
    split; [by apply in_map|]. right; left. unfold jsonPathOf. simpl in *.
    by rewrite Hbase.
  - intros c' Hid' Hty. unfold xmlPathOf, jsonPathOf, baseName.
    by rewrite Hid', Hty.
  - unfold indexEntry. by rewrite Hid.
  - intros content Hin. apply in_app_or in Hin as [Hin|Hin].
    + apply scan_writes_paths in Hin as (node & Hnode & Hshould & Hpath).
      assert (Hn := shouldCapture_known _ _ _ Hshould).
      unfold xmlPathOf, jsonPathOf in Hpath. rewrite !path_segments in Hpath.
      unfold pathJoin in Hpath.
      destruct Hpath as [Hpath|Hpath];
        apply (inj (String.app _)), (inj (String.app _)) in Hpath;
        apply segment_inj in Hpath as [_ Hpath];
        auto using knownTags_noSlash;
        destruct (baseName_xmlns doc node Hnode) as [Hb|Hb];
        simpl in Hb; rewrite Hb in Hpath; discriminate Hpath.
    + destruct (resolved (extract p doc)); [|done].
      destruct Hin as [[= Hpath _]|[]]. unfold indexPath, pathJoin in Hpath.
      apply (inj (String.app _)), (inj (String.app _)) in Hpath.
      unfold knownTags in Hknown. simpl in Hknown.
      repeat (destruct Hknown as [Hty|Hknown];
              [rewrite <- Hty in Hpath; vm_compute in Hpath; discriminate Hpath|]).
      destruct Hknown.
  - intros Hres. rewrite Hres.
    destruct (in_split _ _ Hc) as (before & after & Hsplit).
    exists before, after. split; [exact Hsplit|].
    apply in_or_app. right. left. rewrite Hsplit. unfold indexJson.
    rewrite map_app. cbn [map]. unfold indexEntry at 2. by rewrite Hid.
Qed.

End Artifacts.

(** ** Errors, truncation and the end of the stream *)

Section Signals.

Import ComponentExtractor Scan.

Variable xmlFilePath : string.
Variable p : Params.

Lemma emitAll_content (opts : Sax.Options) (doc : list Sax.Token) :
  forallb isContent doc = true ->
  forallb isContentEvent (Sax.emitAll opts doc) = true.
Proof.
  unfold Sax.emitAll. induction doc as [|t doc IH]; [done|].
  simpl. intros [Ht Hdoc]%andb_prop. rewrite forallb_app, (IH Hdoc), andb_true_r.
  destruct t as [n attrs|d|n|m|]; try done.
  simpl. by destruct (Sax.textopts opts d).
Qed.

Lemma emitAll_app (opts : Sax.Options) (a b : list Sax.Token) :
  Sax.emitAll opts (a ++ b) = Sax.emitAll opts a ++ Sax.emitAll opts b.
Proof. unfold Sax.emitAll. by rewrite map_app, concat_app. Qed.

Lemma handle_quiet (ev : Sax.Event) (s s' : State) (out : list Effect) :
  isContentEvent ev = true ->
  handle p ev s = Normal (s', out) ->
  forallb quiet out = true.
Proof.
  destruct ev as [node|text|n|e|]; try discriminate; intros _; simpl.
  - unfold onOpenTag.
    destruct (capturingContent s);
      [|destruct (shouldCapture p (Sax.name node) (Sax.attributes node))];
      simpl; try discriminate; by intros [= _ <-].
  - unfold onText. by destruct (_ && _); intros [= _ <-].
  - unfold onCloseTag. simpl. destruct (capturingContent s); [|by intros [= _ <-]].
    destruct (_ =? _); [|by intros [= _ <-]].
    destruct (componentMetadata s); [|discriminate]. by intros [= _ <-].
Qed.

(** While only tags and text arrive, the promise stays pending and nothing is
    written to the error stream. *)
Lemma feed_quiet (events : list Sax.Event) :
  forall s : State,
    forallb isContentEvent events = true ->
    forallb quiet (trace (feed p events s)) = true.
Proof.
  induction events as [|ev rest IH]; intros s; [done|].
  simpl. intros [Hev Hrest]%andb_prop.
  destruct (handle p ev s) as [[s' out]|e] eqn:He; [|done].
  cbn [trace]. rewrite forallb_app, (IH s' Hrest), andb_true_r.
  by eapply handle_quiet.
Qed.

Lemma settled_quiet (es rest : list Effect) :
  forallb quiet es = true -> settled (es ++ rest) = settled rest.
Proof.
  induction es as [|e es IH]; [done|].
  simpl. intros [He Hes]%andb_prop. destruct e; try discriminate; by apply IH.
Qed.



(** The scan of a stream that ends with one more token. *)
Lemma extract_snoc (doc : list Sax.Token) (t : Sax.Token) (ev : Sax.Event) :
  Sax.emit saxOptions t = [ev] ->
  uncaught (extract p doc) = None ->
  extract p (doc ++ [t])
  = match handle p ev (final (extract p doc)) with
    | Normal (s', out) =>
        {| final := s'; trace := trace (extract p doc) ++ out; uncaught := None |}
    | Throws e =>
        {| final := final (extract p doc); trace := trace (extract p doc);
           uncaught := Some e |}
    end.
Proof.
  intros Ht Hun. unfold extract in *. rewrite emitAll_app.
  replace (Sax.emitAll saxOptions [t]) with [ev]
    by (unfold Sax.emitAll; simpl; by rewrite Ht, app_nil_r).
  by apply feed_snoc.
Qed.

Lemma extract_saved (doc : list Sax.Token) :
  exists saved : list (Metadata * list Item),
    components (final (extract p doc)) = map fst saved
    /\ writes (trace (extract p doc)) = concat (map (componentWrites p) saved).
Proof.
  destruct (scan_saved p (Sax.emitAll saxOptions doc) initial)
    as (saved & Hcs & Hw & _); [by repeat split|].
  by exists saved.
Qed.

(** The scan of a stream in two parts. *)
Lemma extract_app (a b : list Sax.Token) :
  uncaught (extract p a) = None ->
  extract p (a ++ b)
  = {| final := final (feed p (Sax.emitAll saxOptions b) (final (extract p a)));
       trace := trace (extract p a)
                ++ trace (feed p (Sax.emitAll saxOptions b) (final (extract p a)));
       uncaught := uncaught (feed p (Sax.emitAll saxOptions b)
                               (final (extract p a))) |}.
Proof. intros Hun. unfold extract in *. rewrite emitAll_app, feed_app. by rewrite Hun. Qed.

Lemma extract_uncaught_prefix (a b : list Sax.Token) :
  uncaught (extract p (a ++ b)) = None -> uncaught (extract p a) = None.
Proof.
  unfold extract. rewrite emitAll_app, feed_app.
  destruct (uncaught (feed p (Sax.emitAll saxOptions a) initial)) eqn:Hu; [|done].
  by rewrite Hu.
Qed.

(** The scan from the error on. *)
Lemma feed_error (message : string) (rest : list Sax.Token) (s : State) :
  feed p (Sax.emitAll saxOptions (Sax.TError message :: rest)) s
  = {| final := final (feed p (Sax.emitAll saxOptions rest) s);
       trace := [ConsoleError ("SAX Parser Error: " +:+ message); Reject message]
                ++ trace (feed p (Sax.emitAll saxOptions rest) s);
       uncaught := uncaught (feed p (Sax.emitAll saxOptions rest) s) |}.
Proof. reflexivity. Qed.

(** C4 (amended). When the parser reports a well-formedness error after
    tags and text only, the [error] listener logs it and rejects the promise
    with it. The listeners go on receiving the events that the parser
    delivers after the error ([rest], whatever it holds), so a capture can
    still end, and write its files, after the error. When no listener
    throws, the [catch] callback then logs the error and the process exits
    with status 1. The files of the run are the XML and JSON files of the
    captures completed in the whole stream: first those completed before
    the error, which were written when each capture ended and stay, then
    what is written during the events after the error. No index is
    written. *)
Theorem malformed_document_rejects (doc : list Sax.Token) (message : string)
    (rest : list Sax.Token) (now : string) :
  forallb isContent doc = true ->
  uncaught (extract p (doc ++ Sax.TError message :: rest)) = None ->
  let full := doc ++ Sax.TError message :: rest in
  let after := feed p (Sax.emitAll saxOptions rest) (final (extract p doc)) in
  let out := main xmlFilePath p full now in
  settled (trace (extract p full)) = Some (inr message)
  /\ exitCode out = 1
  /\ effects out
     = banner xmlFilePath p ++ trace (extract p doc)
       ++ [ConsoleError ("SAX Parser Error: " +:+ message); Reject message]
       ++ trace after
       ++ [ConsoleError ("Error extracting components: " +:+ message)]
  /\ (exists before : list (Metadata * list Item),
        components (final (extract p doc)) = map fst before
        /\ writes (effects out)
           = concat (map (componentWrites p) before) ++ writes (trace after))
  /\ (exists saved : list (Metadata * list Item),
        Captured p (Sax.emitAll saxOptions full) saved
        /\ components (final (extract p full)) = map fst saved
        /\ writes (effects out) = concat (map (componentWrites p) saved))
  /\ Forall (fun w => fst w <> indexPath p) (writes (effects out)).
Proof.
  intros Hdoc Hun full after out.
  assert (Hun1 : uncaught (extract p doc) = None)
    by (by apply (extract_uncaught_prefix doc (Sax.TError message :: rest))).
  assert (Hex : extract p full
                = {| final := final after;
                     trace := trace (extract p doc)
                              ++ [ConsoleError ("SAX Parser Error: " +:+ message);
                                  Reject message]
                              ++ trace after;
                     uncaught := uncaught after |}).
  { subst full after. rewrite (extract_app _ _ Hun1). by rewrite feed_error. }
  assert (Hun2 : uncaught after = None).
  { fold full in Hun. rewrite Hex in Hun. exact Hun. }
  assert (Hq : forallb quiet (trace (extract p doc)) = true)
    by (apply feed_quiet; by apply emitAll_content).
  assert (Hset : settled (trace (extract p full)) = Some (inr message)).
  { rewrite Hex. cbn [trace]. by rewrite (settled_quiet _ _ Hq). }
  assert (Hout : out = {| effects := banner xmlFilePath p ++ trace (extract p full)
                            ++ [ConsoleError ("Error extracting components: "
                                              +:+ message)];
                          exitCode := 1 |}).
  { subst out. unfold main. subst full. by rewrite Hun, Hset. }
  assert (Hw : writes (effects out) = writes (trace (extract p full))).
  { rewrite Hout. cbn [effects]. rewrite !writes_app, writes_banner. simpl.
    by rewrite app_nil_r. }
  splits.
  - exact Hset.
  - by rewrite Hout.
  - rewrite Hout, Hex. cbn [effects trace]. by rewrite <- !app_assoc.
  - destruct (extract_saved doc) as (before & Hcs & Hwb). exists before.
    split; [done|]. rewrite Hw, Hex. cbn [trace].
    rewrite !writes_app, Hwb. simpl. done.
  - destruct (scan_captured p (Sax.emitAll saxOptions full) initial)
      as (saved & Hcap & Hcs & Hws); [by repeat split|].
    exists saved. splits; [done|exact Hcs|]. by rewrite Hw.
  - rewrite Hw. apply scan_writes_not_index.
Qed.



End Signals.

(** ** Running the script again *)

Section Rerun.

Import ComponentExtractor Scan.

Variable xmlFilePath : string.
Variable p : Params.

(** A file holds what was last written to it. *)
Lemma files_performAll (es : list Effect) :
  forall (w : World) (path : string),
    files (performAll w es) !! path
    = match lastWrite path (writes es) with
      | Some c => Some c
      | None => files w !! path
      end.
Proof.
  unfold performAll. induction es as [|e es IH]; intros w path; [done|].
  cbn [foldl]. rewrite IH.
  destruct e as [d|q c|l|l|r|err]; cbn [writes lastWrite perform files];
    try reflexivity.
  - by destruct (decide (d ∈ dirs w)).
  - destruct (lastWrite path (writes es)); [done|].
    destruct (String.eqb_spec q path) as [->|Hne].
    + by rewrite lookup_insert_eq.
    + by rewrite lookup_insert_ne.
Qed.

Lemma dirs_performAll (es : list Effect) :
  forall w : World, dirs (performAll w es) = dirs w ∪ mkdirs es.
Proof.
  unfold performAll. induction es as [|e es IH]; intros w.
  - simpl. set_solver.
  - cbn [foldl]. rewrite IH.
    destruct e as [d|q c|l|l|r|err]; cbn [mkdirs perform dirs]; try reflexivity.
    destruct (decide (d ∈ dirs w)); cbn [dirs]; set_solver.
Qed.

Lemma mkdirs_app (a b : list Effect) : mkdirs (a ++ b) = mkdirs a ∪ mkdirs b.
Proof.
  induction a as [|e a IH]; simpl; [set_solver|].
  destruct e; rewrite ?IH; set_solver.
Qed.

Lemma lastWrite_app (path : string) (a b : list (string * string)) :
  lastWrite path (a ++ b)
  = match lastWrite path b with
    | Some c => Some c
    | None => lastWrite path a
    end.
Proof.
  induction a as [|[q c] a IH]; simpl.
  - by destruct (lastWrite path b).
  - rewrite IH. by destruct (lastWrite path b).
Qed.

(** A run makes sure of the same directories whatever the clock reads. *)
Lemma main_mkdirs (doc : list Sax.Token) (now : string) :
  mkdirs (effects (main xmlFilePath p doc now))
  = mkdirs (banner xmlFilePath p) ∪ mkdirs (trace (extract p doc)).
Proof.
  unfold main. destruct (uncaught (extract p doc)) as [e|]; cbn [effects].
  - rewrite !mkdirs_app. simpl. set_solver.
  - destruct (settled (trace (extract p doc))) as [[res|err]|]; cbn [effects];
      rewrite ?mkdirs_app; simpl; set_solver.
Qed.

Lemma main_exitCode (doc : list Sax.Token) (now1 now2 : string) :
  exitCode (main xmlFilePath p doc now1) = exitCode (main xmlFilePath p doc now2).
Proof.
  unfold main. destruct (uncaught (extract p doc)) as [e|]; [done|].
  by destruct (settled (trace (extract p doc))) as [[res|err]|].
Qed.

(** C6 (amended). Running the script twice on the same document with the
    same component type and id leaves every file other than the index as the
    first run left it, the same directories and the same exit status: the
    files a run writes are those of the completed captures, which do not
    depend on the clock, followed by the index when the promise was resolved.
    The index written by a run carries the time of that run in [extractedAt]:
    after each run the index file is the index of the same components at
    that run's clock reading, so the two index files are equal when the two
    readings are. *)
Theorem rerun_same_files_new_timestamp (doc : list Sax.Token)
    (now1 now2 : string) (w : World) :
  let run1 := main xmlFilePath p doc now1 in
  let run2 := main xmlFilePath p doc now2 in
  let w1 := performAll w (effects run1) in
  let w2 := performAll w1 (effects run2) in
  let cs := components (final (extract p doc)) in
  (forall path, path <> indexPath p -> files w2 !! path = files w1 !! path)
  /\ (forall now,
         writes (effects (main xmlFilePath p doc now))
         = writes (trace (extract p doc))
           ++ (if resolved (extract p doc)
               then [(indexPath p, Json.stringify (indexJson now cs))]
               else []))
  /\ dirs w2 = dirs w1
  /\ exitCode run2 = exitCode run1
  /\ (resolved (extract p doc) = true ->
      files w1 !! indexPath p = Some (Json.stringify (indexJson now1 cs))
      /\ files w2 !! indexPath p = Some (Json.stringify (indexJson now2 cs)))
  /\ (resolved (extract p doc) = false -> files w2 = files w1)
  /\ (now1 = now2 -> files w2 = files w1).
Proof.
  intros run1 run2 w1 w2 cs. subst run1 run2 w1 w2 cs.
  assert (Hsame : forall now path (w0 : World),
             files (performAll w0 (effects (main xmlFilePath p doc now))) !! path
             = match (if resolved (extract p doc)
                      then lastWrite path
                             [(indexPath p,
                               Json.stringify
                                 (indexJson now (components (final (extract p doc)))))]
                      else None) with
               | Some c => Some c
               | None =>
                   match lastWrite path (writes (trace (extract p doc))) with
                   | Some c => Some c
                   | None => files w0 !! path
                   end
               end).
  { intros now path w0. rewrite files_performAll, main_writes, lastWrite_app.
    destruct (resolved (extract p doc)); cbn [lastWrite]; [|done].
    by destruct (String.eqb (indexPath p) path). }
  splits.
  - intros path Hne. rewrite !Hsame.
    destruct (resolved (extract p doc)); cbn [lastWrite];
      try (destruct (String.eqb_spec (indexPath p) path) as [Heq|_];
           [by destruct Hne|]);
      by destruct (lastWrite path (writes (trace (extract p doc)))).
  - intros now. apply main_writes.
  - rewrite !dirs_performAll, !main_mkdirs. set_solver.
  - apply main_exitCode.
  - intros Hres. rewrite !Hsame, Hres. cbn [lastWrite].
    by rewrite String.eqb_refl.
  - intros Hres. apply map_eq. intros path. rewrite !Hsame, Hres.
    by destruct (lastWrite path (writes (trace (extract p doc)))).
  - intros <-. apply map_eq. intros path. rewrite !Hsame.
    destruct (resolved (extract p doc)); cbn [lastWrite].
    + destruct (String.eqb (indexPath p) path); [done|].
      by destruct (lastWrite path (writes (trace (extract p doc)))).
    + by destruct (lastWrite path (writes (trace (extract p doc)))).
Qed.

End Rerun.

(** ** Serialization *)

Section Serialization.

Import ComponentExtractor Scan.

Lemma indent_inside (body : list Sax.Event) :
  forall (h h' : Z) (rest : list Item),
    1 <= h ->
    inside h body = Some h' ->
    1 <= h'
    /\ indentNonNegative h (buffered h body ++ rest) = indentNonNegative h' rest.
Proof.
  induction body as [|ev body IH]; intros h h' rest Hh Hin.
  - simpl in *. injection Hin as <-. done.
  - destruct ev as [node|text|n|e|]; simpl in Hin |- *.
    + destruct (IH (h + 1) h' rest ltac:(lia) Hin) as [Hh' ->].
      split; [done|]. by destruct (Z.leb_spec 0 h); [|lia].
    + destruct (IH h h' rest Hh Hin) as [Hh' Heq]. split; [done|].
      destruct (negb _); [|done]. simpl. rewrite Heq.
      by destruct (Z.leb_spec 0 h); [|lia].
    + destruct (Z.eqb_spec (h - 1) 0) as [|Hne]; [discriminate|].
      destruct (IH (h - 1) h' rest ltac:(lia) Hin) as [Hh' ->].
      split; [done|]. by destruct (Z.leb_spec 0 (h - 1)); [|lia].
    + by apply IH.
    + by apply IH.
Qed.

(** On the buffer of a completed capture [reconstructXML] never calls
    [repeat] with a negative count. *)
Lemma saved_buffer_indent (buffer : list Item) :
  captureShape buffer -> indentNonNegative 0 buffer = true.
Proof.
  intros (node & body & n & Hin & ->). simpl.
  change (0 + 1) with 1.
  destruct (indent_inside body 1 1 [ItemClose n 0] ltac:(lia) Hin) as [_ ->].
  reflexivity.
Qed.

Lemma reconstructFrom_app (items : list Item) :
  forall (a b : string) (level : Z),
    reconstructFrom (a +:+ b) level items = a +:+ reconstructFrom b level items.
Proof.
  induction items as [|item items IH]; intros a b level; [done|].
  destruct item as [n attrs d|v|n d]; simpl;
    rewrite <- IH; f_equal; by rewrite !string_app_assoc.
Qed.

(** Every XML file begins with the prologue. *)
Lemma reconstructXML_prologue (buffer : list Item) :
  reconstructXML buffer = prologue +:+ reconstructFrom EmptyString 0 buffer.
Proof.
  unfold reconstructXML. rewrite <- reconstructFrom_app. by f_equal.
Qed.

Lemma occurs_app (c : ascii) (a b : string) :
  occurs c (a +:+ b) = occurs c a || occurs c b.
Proof.
  induction a as [|x a IH]; [done|].
  rewrite string_app_cons. simpl. by rewrite IH, orb_assoc.
Qed.

Lemma replaceAll_removes (c : ascii) (r s : string) :
  occurs c r = false -> occurs c (Js.replaceAll c r s) = false.
Proof.
  intros Hr. induction s as [|d s IH]; [done|]. simpl.
  destruct (Ascii.eqb d c) eqn:Hd.
  - by rewrite occurs_app, Hr, IH.
  - simpl. by rewrite Hd, IH.
Qed.

Lemma replaceAll_keeps_out (c d : ascii) (r s : string) :
  occurs c r = false -> occurs c s = false ->
  occurs c (Js.replaceAll d r s) = false.
Proof.
  intros Hr. induction s as [|x s IH]; [done|]. simpl.
  intros [Hx Hs]%orb_false_elim. destruct (Ascii.eqb x d).
  - by rewrite occurs_app, Hr, IH.
  - simpl. by rewrite Hx, IH.
Qed.

(** [escapeXML] of a string leaves none of the characters [<], [>], the
    double quote and the apostrophe in it. *)
Lemma escapeXML_string (s : string) :
  exists t,
    escapeXML (Js.Str s) = Js.Str t
    /\ occurs "<" t = false /\ occurs ">" t = false
    /\ occurs "034" t = false /\ occurs "'" t = false.
Proof.
  eexists. split; [reflexivity|]. splits.
  - do 3 (apply replaceAll_keeps_out; [reflexivity|]).
    by apply replaceAll_removes.
  - do 2 (apply replaceAll_keeps_out; [reflexivity|]).
    by apply replaceAll_removes.
  - apply replaceAll_keeps_out; [reflexivity|]. by apply replaceAll_removes.
  - by apply replaceAll_removes.
Qed.

(** A value that is not a string is written as it stands: an attribute
    object becomes the text [[object Object]]. *)
Lemma escapeXML_attribute_object (a : Js.Attr) :
  Js.toString (escapeXML (Js.AttrObj a)) = "[object Object]".
Proof. reflexivity. Qed.

(** In namespace mode every attribute of every element is written with the
    value [[object Object]]. *)
Lemma attribute_values_xmlns (doc : list Sax.Token) (node : Sax.Tag) :
  In (Sax.OpenTag node) (Sax.emitAll saxOptions doc) ->
  Forall (fun kv => Js.toString (escapeXML (snd kv)) = "[object Object]")
         (Sax.attributes node).
Proof.
  intros H%emitAll_xmlnsObject. eapply Forall_impl; [exact H|].
  by intros [k v] [a ->].
Qed.

Example escapeXML_ex :
  escapeXML (Js.Str "a<b & 'c'") = Js.Str "a&lt;b &amp; &apos;c&apos;".
Proof. reflexivity. Qed.

Example trim_ex : Js.trim (" " +:+ Json.nl +:+ " a b " +:+ Json.nl) = "a b".
Proof. reflexivity. Qed.

Example toLowerCase_ex : Js.toLowerCase "CoachView" = "coachview".
Proof. reflexivity. Qed.

Example toLowerCase_kelvin_ex :
  Js.toLowerCase (String "226" (String "132" (String "170" "ASK"))) = "kask".
Proof. reflexivity. Qed.

Example quote_ex :
  Json.quote ("a" +:+ dq +:+ "b" +:+ Json.nl)
  = dq +:+ "a" +:+ String "092" dq +:+ "b\n" +:+ dq.
Proof. reflexivity. Qed.

Example stringify_empty_ex :
  Json.stringify (Json.JObject [("a", Json.JArray []); ("b", Json.JUndefined)])
  = "{" +:+ Json.nl +:+ "  " +:+ dq +:+ "a" +:+ dq +:+ ": []" +:+ Json.nl +:+ "}".
Proof. reflexivity. Qed.

(** A component type that names a member of [Object.prototype] makes the
    predicate throw at the first opening event. *)
Example shouldCapture_constructor_ex :
  shouldCapture (mkParams "out" "Constructor" None) "coachView" []
  = Throws "TypeError: typeMap[...]?.includes is not a function"
  /\ exitCode (main "doc.xml" (mkParams "out" "Constructor" None) docNested clock1) = 1.
Proof. by vm_compute. Qed.

End Serialization.

(** ** The scenarios *)

Section Scenarios.

Import ComponentExtractor Scan.

(** An opening event inside a capture is recorded in the buffer of that
    capture, whether or not the predicate accepts it: the predicate is not
    consulted, and flag, start depth, metadata and component list stay as
    they are. *)
Lemma open_inside_capture (p : Params) (s : State) (node : Sax.Tag) :
  capturingContent s = true ->
  exists s',
    handle p (Sax.OpenTag node) s = Normal (s', [])
    /\ capturingContent s' = true
    /\ captureDepth s' = captureDepth s
    /\ componentMetadata s' = componentMetadata s
    /\ components s' = components s
    /\ currentDepth s' = currentDepth s + 1
    /\ capturedContent s'
       = capturedContent s
         ++ [ItemOpen (Sax.name node) (Sax.attributes node)
               (currentDepth s - captureDepth s)].
Proof.
  intros Hcap. simpl. unfold onOpenTag. rewrite Hcap. simpl. rewrite Hcap.
  eexists. split; [reflexivity|]. by repeat split.
Qed.

(** C1. On [<svc><coachView id="A"><coachView id="B"/></coachView></svc>]
    with type [coachview] and no id the scan completes one capture, and the
    nested element is in its buffer, not a component of its own. The id of
    the component is the attribute object of [id="A"], not the string A; its
    files are named [[object Object].xml] and [[object Object].json]; and in
    the XML written both elements carry [id="[object Object]"]. *)
Theorem nested_coachview_scenario :
  let r := extract coachviews docNested in
  uncaught r = None
  /\ components (final r) = [metadataOf nodeA]
  /\ md_id (metadataOf nodeA) = Js.AttrObj (Sax.plain "id" "A")
  /\ md_id (metadataOf nodeA) <> Js.Str "A"
  /\ writes (trace r)
     = [ ("extracted/doc/coachView/[object Object].xml",
          prologue
          +:+ "<coachView" +:+ idObjectObject +:+ ">" +:+ Json.nl
          +:+ "  <coachView" +:+ idObjectObject +:+ ">" +:+ Json.nl
          +:+ "  </coachView>" +:+ Json.nl
          +:+ "</coachView>" +:+ Json.nl);
         ("extracted/doc/coachView/[object Object].json",
          Json.stringify (metadataJson (metadataOf nodeA))) ].
Proof. vm_compute. by repeat split. Qed.

(** In namespace mode the id filter rejects every element. *)
Lemma idFilter_rejects_xmlns (p : Params) (cid : string) (doc : list Sax.Token)
    (node : Sax.Tag) :
  componentId p = Some cid -> cid <> EmptyString ->
  In (Sax.OpenTag node) (Sax.emitAll saxOptions doc) ->
  shouldCapture p (Sax.name node) (Sax.attributes node) = Normal false.
Proof.
  intros Hcid Hne Hin. unfold shouldCapture, idFilterRejects. rewrite Hcid.
  destruct (String.eqb_spec cid EmptyString) as [->|_]; [done|]. simpl.
  destruct (get_xmlnsObject _ "id" (fun _ => eq_refl)
              (emitAll_xmlnsObject doc node Hin))
    as [->|[a ->]]; done.
Qed.

(** With an id filter, [extract] completes no capture and writes no file,
    whatever the document. *)
Lemma id_filter_extracts_nothing (p : Params) (cid : string)
    (doc : list Sax.Token) :
  componentId p = Some cid -> cid <> EmptyString ->
  components (final (extract p doc)) = []
  /\ writes (trace (extract p doc)) = [].
Proof.
  intros Hcid Hne. unfold extract.
  destruct (scan_saved p (Sax.emitAll saxOptions doc) initial)
    as (saved & Hcs & Hw & Hm); [by repeat split|].
  destruct saved as [|[m buf] saved]; [done|].
  inversion Hm as [|? ? [(node & Hin & Hshould & _) _] _]; subst.
  by rewrite (idFilter_rejects_xmlns p cid doc node Hcid Hne Hin) in Hshould.
Qed.

(** C8. On the nested document with type [coachview] and id B, the element
    with [id="B"] is not captured: the run ends with no component and no
    component file, and an index of zero components. The same listeners on
    a stream without namespace mode capture exactly that element. *)
Theorem id_filter_scenario :
  let r := extract coachviewB docNested in
  uncaught r = None
  /\ components (final r) = []
  /\ writes (trace r) = []
  /\ writes (effects (main "doc.xml" coachviewB docNested clock1))
     = [ (indexPath coachviewB, Json.stringify (indexJson clock1 [])) ]
  /\ map md_id (components (final (feed coachviewB
                                     (Sax.emitAll analyzerOptions docNested) initial)))
     = [Js.Str "B"].
Proof. vm_compute. by repeat split. Qed.

(** C3. The XML written for [<coachView id="A&amp;B">Tom &amp; Jerry</coachView>]
    begins with the prologue and has the text escaped, but the attribute
    value is replaced by [[object Object]]: the file is the same as the one
    written for the element with [id="Z"], although the two buffers differ,
    so no parser can give back the buffered events of both. *)
Theorem attribute_values_not_serialized :
  let xmlOf doc := map snd (take 1 (writes (trace (extract coachviews doc)))) in
  xmlOf docEscapeA
  = [ prologue
      +:+ "<coachView" +:+ idObjectObject +:+ ">" +:+ Json.nl
      +:+ "  Tom &amp; Jerry" +:+ Json.nl
      +:+ "</coachView>" +:+ Json.nl ]
  /\ xmlOf docEscapeA = xmlOf docEscapeZ
  /\ buffered 0 (Sax.emitAll saxOptions (take 3 docEscapeA))
     <> buffered 0 (Sax.emitAll saxOptions (take 3 docEscapeZ))
  /\ forall reparse : string -> list Item,
       ~ (map reparse (xmlOf docEscapeA)
          = [buffered 0 (Sax.emitAll saxOptions (take 3 docEscapeA))]
          /\ map reparse (xmlOf docEscapeZ)
             = [buffered 0 (Sax.emitAll saxOptions (take 3 docEscapeZ))]).
Proof.
  intros xmlOf.
  assert (Hsame : xmlOf docEscapeA = xmlOf docEscapeZ) by (by vm_compute).
  assert (Hdiff : buffered 0 (Sax.emitAll saxOptions (take 3 docEscapeA))
                  <> buffered 0 (Sax.emitAll saxOptions (take 3 docEscapeZ)))
    by (vm_compute; discriminate).
  split; [by vm_compute|]. split; [exact Hsame|]. split; [exact Hdiff|].
  intros reparse [HA HZ]. rewrite Hsame, HZ in HA. apply Hdiff. congruence.
Qed.

(** C4, counterexample. [<r><coachView id="A"/><b></r>] is not well-formed
    and the run fails with exit status 1, yet the XML and JSON files of the
    element captured before the error have been written. The listeners go
    on after the error: the end tags that follow it bring the depth back to
    0. In [<r><coachView id="A"><b></coachView></r>] the error comes inside
    the matched element, and its files are written after the promise was
    rejected. *)
Lemma malformed_after_match_leaves_files :
  let out := main "doc.xml" coachviews docMalformedAfterMatch clock1 in
  let inside := main "doc.xml" coachviews docMalformedInside clock1 in
  settled (trace (extract coachviews docMalformedAfterMatch))
  = Some (inr "Unexpected close tag")
  /\ exitCode out = 1
  /\ map fst (writes (effects out))
     = [ "extracted/doc/coachView/[object Object].xml";
         "extracted/doc/coachView/[object Object].json" ]
  /\ writes (effects out) <> []
  /\ currentDepth (final (extract coachviews (take 5 docMalformedAfterMatch))) = 2
  /\ currentDepth (final (extract coachviews docMalformedAfterMatch)) = 0
  /\ writes (trace (extract coachviews (take 4 docMalformedInside))) = []
  /\ exitCode inside = 1
  /\ map fst (writes (effects inside))
     = [ "extracted/doc/coachView/[object Object].xml";
         "extracted/doc/coachView/[object Object].json" ].
Proof. vm_compute. by repeat split. Qed.


(** C6, counterexample. Two runs on the same document at two readings of the
    clock leave two different index files. *)
Lemma rerun_changes_index :
  let w1 := performAll emptyWorld
              (effects (main "doc.xml" coachviews docNested clock1)) in
  let w2 := performAll w1
              (effects (main "doc.xml" coachviews docNested clock2)) in
  files w1 !! indexPath coachviews <> files w2 !! indexPath coachviews.
Proof. vm_compute. discriminate. Qed.

(** The theorem at [<coachView id="A"><coachView id="B"/></coachView>] met
    at depth 1. *)
Lemma depth_closure_witness :
  capturingContent (withDepth 1 initial) = false
  /\ shouldCapture coachviews (Sax.name nodeA) (Sax.attributes nodeA) = Normal true
  /\ wellNested innerB
  /\ (let r := feed coachviews
                 (Sax.OpenTag nodeA :: innerB ++ [Sax.CloseTag "coachView"])
                 (withDepth 1 initial) in
      capturingContent (final r) = false
      /\ capturedContent (final r) = []
      /\ currentDepth (final r) = 1
      /\ components (final r) = [metadataOf nodeA]).
Proof.
  split; [reflexivity|]. split; [reflexivity|]. split; [reflexivity|].
  destruct (depth_closure coachviews (withDepth 1 initial) nodeA innerB
              "coachView" eq_refl eq_refl eq_refl)
    as [_ (_ & _ & Hcs & Hcap & Hbuf & Hdepth)].
  split; [exact Hcap|]. split; [exact Hbuf|]. split; [exact Hdepth|exact Hcs].
Defined.

(** The theorem at [<a><b></a>]: the run fails and writes no file. *)
Lemma malformed_document_rejects_witness :
  forallb isContent (take 2 docMalformed) = true
  /\ uncaught (extract coachviews docMalformed) = None
  /\ settled (trace (extract coachviews docMalformed))
     = Some (inr "Unexpected close tag")
  /\ exitCode (main "doc.xml" coachviews docMalformed clock1) = 1
  /\ writes (effects (main "doc.xml" coachviews docMalformed clock1)) = [].
Proof.
  split; [reflexivity|]. split; [reflexivity|].
  destruct (malformed_document_rejects "doc.xml" coachviews (take 2 docMalformed)
              "Unexpected close tag" (drop 3 docMalformed) clock1
              eq_refl eq_refl)
    as (Hset & Hexit & _ & _ & (saved & _ & Hcs & Hw) & _).
  split; [exact Hset|]. split; [exact Hexit|].
  destruct saved as [|x saved]; [exact Hw|discriminate Hcs].
Defined.


(** The theorem at [<coachView id="A"><coachView id="B"/></coachView>]: after
    the end tag of the matched element the buffer is empty and the component
    is listed. *)
Lemma buffer_bounded_by_capture_witness :
  capturingContent
    (final (feed coachviews
              (Sax.OpenTag nodeA :: innerB ++ [Sax.CloseTag "coachView"])
              initial)) = false
  /\ capturedContent
       (final (feed coachviews
                 (Sax.OpenTag nodeA :: innerB ++ [Sax.CloseTag "coachView"])
                 initial)) = []
  /\ components
       (final (feed coachviews
                 (Sax.OpenTag nodeA :: innerB ++ [Sax.CloseTag "coachView"])
                 initial)) = [metadataOf nodeA].
Proof.
  destruct (buffer_bounded_by_capture coachviews
              (Sax.OpenTag nodeA :: innerB ++ [Sax.CloseTag "coachView"]))
    as [_ Hend].
  exact (Hend [] nodeA innerB "coachView" eq_refl eq_refl eq_refl eq_refl eq_refl).
Defined.

(** The theorem at two runs on the nested document: the XML file of the
    component is as the first run left it. *)
Lemma rerun_same_files_new_timestamp_witness :
  let w1 := performAll emptyWorld
              (effects (main "doc.xml" coachviews docNested clock1)) in
  let w2 := performAll w1
              (effects (main "doc.xml" coachviews docNested clock2)) in
  "extracted/doc/coachView/[object Object].xml" <> indexPath coachviews
  /\ files w2 !! "extracted/doc/coachView/[object Object].xml"
     = files w1 !! "extracted/doc/coachView/[object Object].xml"
  /\ dirs w2 = dirs w1.
Proof.
  intros w1 w2.
  assert (Hne : "extracted/doc/coachView/[object Object].xml" <> indexPath coachviews)
    by (vm_compute; discriminate).
  split; [exact Hne|].
  destruct (rerun_same_files_new_timestamp "doc.xml" coachviews docNested
              clock1 clock2 emptyWorld) as (Hfiles & _ & Hdirs & _).
  split; [exact (Hfiles _ Hne)|exact Hdirs].
Defined.

(** The theorem at the first of two elements without an id. *)
Lemma unnamed_component_paths_witness :
  In firstUnnamed (components (final (extract coachviews docNoId)))
  /\ md_id firstUnnamed = Js.Undefined
  /\ In ("extracted/doc/coachView/unnamed.json",
         Json.stringify (metadataJson firstUnnamed))
        (writes (effects (main "doc.xml" coachviews docNoId clock1)))
  /\ indexEntry firstUnnamed
     = Json.JObject [("type", Json.JString "coachView");
                     ("id", Json.JUndefined);
                     ("name", Json.ofValue (md_name firstUnnamed));
                     ("path", Json.JString "coachView/undefined.xml")]
  /\ forall content,
       ~ In ("extracted/doc/coachView/undefined.xml", content)
            (writes (effects (main "doc.xml" coachviews docNoId clock1))).
Proof.
  assert (Hin : In firstUnnamed (components (final (extract coachviews docNoId))))
    by (vm_compute; left; reflexivity).
  split; [exact Hin|]. split; [reflexivity|].
  destruct (unnamed_component_paths "doc.xml" coachviews docNoId clock1
              firstUnnamed Hin eq_refl)
    as (_ & Hjson & _ & Hentry & Hnone & _).
  split; [exact Hjson|]. split; [exact Hentry|exact Hnone].
Defined.

(** The buffer stays empty through a subtree that does not match and holds
    one entry once the matched element has opened. *)
Example sibling_not_buffered :
  map (fun k => length (capturedContent
                          (final (extract coachviews (take k docSibling)))))
      (seq 0 11)
  = [0; 0; 0; 0; 0; 0; 0; 1; 0; 0; 0]%nat.
Proof. by vm_compute. Qed.

(** Two components without an id: the files of the first are replaced by
    those of the second, and both index entries give [undefined.xml]. *)
Example unnamed_components_overwrite :
  let w := performAll emptyWorld
             (effects (main "doc.xml" coachviews docNoId clock1)) in
  length (components (final (extract coachviews docNoId))) = 2%nat
  /\ files w !! "extracted/doc/coachView/unnamed.json"
     = Some (Json.stringify
               (metadataJson
                  (metadataOf
                     (Sax.mkTag "coachView"
                        (Sax.attributesOf saxOptions []
                           [Sax.plain "name" "second"])))))
  /\ files w !! "extracted/doc/coachView/undefined.xml" = None
  /\ size (files w) = 3%nat.
Proof. vm_compute. by repeat split. Qed.

(** [trim] removes the white space of JavaScript, not only that of ASCII: a
    no-break space (U+00A0), an ideographic space (U+3000), a byte order
    mark (U+FEFF) and a line separator (U+2028) go, the bytes of a letter
    with an accent (U+00E0) and of the euro sign (U+20AC) stay. So character
    data made of no-break spaces is not recorded in a capture. *)
Example trim_unicode_white_space :
  let nbsp := Js.utf8 [194; 160]%N in
  Js.trim (nbsp +:+ " a" +:+ nbsp +:+ "b "
           +:+ Js.utf8 [227; 128; 128; 239; 187; 191; 10]%N)
  = "a" +:+ nbsp +:+ "b"
  /\ Js.trim (nbsp +:+ Js.utf8 [226; 128; 168]%N) = EmptyString
  /\ Js.trim (Js.utf8 [195; 160; 32]%N) = Js.utf8 [195; 160]%N
  /\ Js.trim (Js.utf8 [226; 130; 172; 32]%N) = Js.utf8 [226; 130; 172]%N
  /\ Js.collapseSpaces false ("a " +:+ nbsp +:+ " b" +:+ nbsp +:+ "c") = "a b c"
  /\ buffered 1 (Sax.emitAll saxOptions [Sax.TText (nbsp +:+ nbsp)]) = [].
Proof. vm_compute. by repeat split. Qed.

(** An attribute named [__proto__] in namespace mode: its object becomes the
    prototype of [node.attributes], so the node has no own property of that
    name, [node.attributes.name] is the inherited name of the attribute, and
    neither the metadata nor the XML written lists it. *)
Example proto_attribute_is_inherited :
  let node := Sax.mkTag "coachView"
                (Sax.attributesOf saxOptions []
                   [Sax.plain "__proto__" "x"; Sax.plain "k" "v"]) in
  Js.entries (Sax.attributes node) = [("k", Js.AttrObj (Sax.plain "k" "v"))]
  /\ Js.has (Sax.attributes node) "__proto__" = false
  /\ Js.get (Sax.attributes node) "name" = Js.Str "__proto__"
  /\ Js.get (Sax.attributes node) "id" = Js.Undefined
  /\ md_name (metadataOf node) = Js.Str "__proto__"
  /\ md_attributes (metadataOf node) = [("k", Js.AttrObj (Sax.plain "k" "v"))]
  /\ reconstructXML [ItemOpen "coachView" (Sax.attributes node) 0;
                     ItemClose "coachView" 0]
     = prologue
       +:+ "<coachView k=" +:+ String "034" "[object Object]" +:+ String "034" ">"
       +:+ Json.nl +:+ "</coachView>" +:+ Json.nl.
Proof. vm_compute. by repeat split. Qed.

End Scenarios.

(** * Further properties of the extractor *)

Section MoreScans.

Import ComponentExtractor Scan More.

Variable p : Params.

(** Character data that is empty once trimmed leaves no trace: a scan of the
    events without it is the same scan, from any state. *)
Theorem blank_text_ignored (events : list Sax.Event) :
  forall s : State,
    feed p (List.filter (fun ev => negb (isBlankText ev)) events) s
    = feed p events s.
Proof.
  induction events as [|ev rest IH]; intros s; [done|].
  cbn [List.filter]. destruct (isBlankText ev) eqn:Hblank; cbn [negb].
  - destruct ev as [node|text|n|e|]; try discriminate.
    unfold isBlankText in Hblank.
    cbn [feed handle]. unfold onText.
    replace (capturingContent s && Js.truthy (Js.Str (Js.trim text))) with false
      by (apply negb_true_iff in Hblank; rewrite Hblank; by destruct (capturingContent s)).
    rewrite IH. by destruct (feed p rest s).
  - cbn [feed]. destruct (handle p ev s) as [[s' out]|e]; [|done].
    by rewrite IH.
Qed.

Lemma handle_depth (ev : Sax.Event) (s s' : State) (out : list Effect) :
  handle p ev s = Normal (s', out) ->
  currentDepth s' = currentDepth s + depthChange ev.
Proof.
  destruct ev as [node|text|n|e|]; simpl.
  - unfold onOpenTag.
    destruct (capturingContent s) eqn:Hcap; simpl.
    + rewrite Hcap. intros [= <- _]. simpl. lia.
    + destruct (shouldCapture p (Sax.name node) (Sax.attributes node))
        as [[|]|err]; simpl; try discriminate.
      * intros [= <- _]. simpl. lia.
      * rewrite Hcap. intros [= <- _]. simpl. lia.
  - unfold onText. destruct (_ && _); intros [= <- _]; simpl; lia.
  - unfold onCloseTag. simpl. destruct (capturingContent s).
    + destruct (_ =? _).
      * destruct (componentMetadata s); [|discriminate].
        intros [= <- _]. simpl. lia.
      * intros [= <- _]. simpl. lia.
    + intros [= <- _]. simpl. lia.
  - intros [= <- _]. lia.
  - intros [= <- _]. lia.
Qed.

Lemma nesting_depth (events : list Sax.Event) :
  forall (stack stack' : list string) (s : State),
    nesting stack events = Some stack' ->
    uncaught (feed p events s) = None ->
    currentDepth (final (feed p events s))
    = currentDepth s + Z.of_nat (length stack') - Z.of_nat (length stack).
Proof.
  induction events as [|ev rest IH]; intros stack stack' s Hn Hun.
  - simpl in *. injection Hn as <-. lia.
  - cbn [feed] in Hun |- *.
    destruct (handle p ev s) as [[s' out]|e] eqn:He; [|discriminate].
    cbn [final uncaught] in Hun |- *.
    apply handle_depth in He.
    destruct ev as [node|text|n|e|]; simpl in Hn, He; try discriminate.
    + rewrite (IH _ _ s' Hn Hun), He. simpl length. lia.
    + rewrite (IH _ _ s' Hn Hun), He. lia.
    + destruct stack as [|top below]; [discriminate|].
      destruct (String.eqb top n); [|discriminate].
      rewrite (IH _ _ s' Hn Hun), He. simpl length. lia.
Qed.

Lemma nesting_app (a b : list Sax.Event) :
  forall stack : list string,
    nesting stack (a ++ b)
    = match nesting stack a with
      | Some mid => nesting mid b
      | None => None
      end.
Proof.
  induction a as [|ev a IH]; intros stack; [done|].
  destruct ev as [node|text|n|e|]; simpl; try done.
  destruct stack as [|top below]; [done|]. by destruct (String.eqb top n).
Qed.

(** Content that closes the element it lies in ends a capture begun at that
    element. *)
Lemma nesting_closes (body : list Sax.Event) :
  forall (stack stack' : list string) (h : Z),
    1 <= h ->
    nesting stack body = Some stack' ->
    Z.of_nat (length stack') - Z.of_nat (length stack) + h <= 0 ->
    inside h body = None.
Proof.
  induction body as [|ev body IH]; intros stack stack' h Hh Hn Hle.
  - simpl in Hn. injection Hn as <-. lia.
  - destruct ev as [node|text|n|e|]; simpl in Hn |- *; try discriminate.
    + apply (IH (Sax.name node :: stack) stack'); auto; simpl length; lia.
    + by apply (IH stack stack').
    + destruct stack as [|top below]; [discriminate|].
      destruct (String.eqb top n); [|discriminate].
      destruct (Z.eqb_spec (h - 1) 0); [done|].
      apply (IH below stack'); auto; simpl length in *; lia.
Qed.

Lemma nesting_content (events : list Sax.Event) :
  forall stack stack' : list string,
    nesting stack events = Some stack' ->
    forallb isContentEvent events = true.
Proof.
  induction events as [|ev rest IH]; intros stack stack' Hn; [done|].
  destruct ev as [node|text|n|e|]; simpl in Hn |- *; try discriminate.
  - by apply IH in Hn.
  - by apply IH in Hn.
  - destruct stack as [|top below]; [discriminate|].
    destruct (String.eqb top n); [|discriminate]. by apply IH in Hn.
Qed.

(** On well-formed content met by a fresh extractor, when no listener
    throws, every capture that begins also ends: after the last event no
    capture is running, the buffer is empty, the depth is back to 0, the
    promise is still pending and nothing was written to the error stream. *)
Theorem well_formed_scan_completes (events : list Sax.Event) :
  wellNested events ->
  uncaught (feed p events initial) = None ->
  let r := feed p events initial in
  capturingContent (final r) = false
  /\ capturedContent (final r) = []
  /\ componentMetadata (final r) = None
  /\ currentDepth (final r) = 0
  /\ forallb quiet (trace r) = true.
Proof.
  intros Hwf Hun r. subst r.
  assert (Hidle : idle initial) by (by repeat split).
  destruct (scan_buffer p events initial Hidle) as [H1 H2].
  assert (Hd := nesting_depth events [] [] initial Hwf Hun).
  assert (Hq := feed_quiet p events initial (nesting_content _ _ _ Hwf)).
  destruct (capturingContent (final (feed p events initial))) eqn:Hcap.
  - exfalso.
    destruct (H2 eq_refl) as (_ & pre & node & body & h & -> & _ & _ & _ & Hin & _).
    unfold wellNested in Hwf. rewrite nesting_app in Hwf.
    destruct (nesting [] pre) as [mid|] eqn:Hpre; [|discriminate].
    simpl in Hwf.
    rewrite (nesting_closes body (Sax.name node :: mid) [] 1) in Hin;
      [discriminate|lia|exact Hwf|simpl length; lia].
  - destruct (H1 eq_refl) as (_ & Hbuf & Hmd). splits; auto.
Qed.

(** A run writes, for each completed capture in the order of the captures,
    the XML file and then the JSON file of the component, and last the index
    of these components when the promise was resolved, and no other file.
    The captures are those of [Captured]: each belongs to an element of the
    document that was met outside a capture and accepted by the predicate,
    its metadata is that of this element, and the buffer written for it
    holds the entry of the element's start tag, the entries of the events
    that follow up to the end tag that brings the depth back, and the entry
    of that end tag, and nothing else. *)
Theorem run_writes_per_component (xmlFilePath : string) (doc : list Sax.Token)
    (now : string) :
  exists saved : list (Metadata * list Item),
    Captured p (Sax.emitAll saxOptions doc) saved
    /\ components (final (extract p doc)) = map fst saved
    /\ writes (effects (main xmlFilePath p doc now))
       = concat (map (componentWrites p) saved)
         ++ (if resolved (extract p doc)
             then [(indexPath p, Json.stringify (indexJson now (map fst saved)))]
             else []).
Proof.
  destruct (scan_captured p (Sax.emitAll saxOptions doc) initial)
    as (saved & Hcap & Hcs & Hw); [by repeat split|].
  exists saved. fold (extract p doc) in Hcs, Hw. simpl in Hcs.
  rewrite main_writes, Hw, Hcs. done.
Qed.

(** Whenever the [closetag] listener is called during a scan that began with
    a fresh extractor, either it writes nothing, or it ends a capture: it
    then calls [saveComponent] with the buffer of the state, to which it has
    just added the entry of the end tag, and on that buffer [reconstructXML]
    keeps [indentLevel] at 0 or above at every item, so that [repeat] is not
    given a negative count. *)
Theorem saved_buffer_keeps_indent (events : list Sax.Event) (n : string) :
  let s := final (feed p events initial) in
  let buffer :=
    capturedContent s ++ [ItemClose n (currentDepth s - 1 - captureDepth s)] in
  (exists s', handle p (Sax.CloseTag n) s = Normal (s', []))
  \/ (exists s' m,
         handle p (Sax.CloseTag n) s = Normal (s', saveComponent p m buffer)
         /\ componentMetadata s = Some m
         /\ indentNonNegative 0 buffer = true).
Proof.
  intros s buffer. subst buffer s.
  destruct (scan_buffer p events initial) as [H1 H2]; [by repeat split|].
  destruct (capturingContent (final (feed p events initial))) eqn:Hcap.
  - destruct (H2 eq_refl)
      as (_ & pre & node & body & h & _ & _ & _ & _ & Hin & Hfin).
    rewrite Hfin.
    destruct (indent_inside body 1 h [] ltac:(lia) Hin) as [Hh _].
    destruct (Z.eq_dec h 1) as [->|Hne].
    + right.
      rewrite (handle_close p
                 (recording (startCapture node (final (feed p pre initial))) 1
                    (buffered 0 (Sax.OpenTag node :: body)))
                 n (metadataOf node) eq_refl eq_refl eq_refl).
      do 2 eexists.
      cbn [capturedContent currentDepth captureDepth componentMetadata
           recording startCapture app].
      replace (currentDepth (final (feed p pre initial)) + 1 - 1
               - currentDepth (final (feed p pre initial))) with 0 by lia.
      split; [reflexivity|]. split; [reflexivity|].
      apply saved_buffer_indent. by exists node, body, n.
    + left.
      assert (Hstep : inside h [Sax.CloseTag n] = Some (h - 1)).
      { simpl. destruct (Z.eqb_spec (h - 1) 0); [lia|done]. }
      rewrite (handle_inside p (Sax.CloseTag n)
                 (recording (startCapture node (final (feed p pre initial))) h
                    (buffered 0 (Sax.OpenTag node :: body)))
                 h (h - 1) eq_refl eq_refl Hstep).
      by eexists.
  - left. simpl. unfold onCloseTag. simpl. rewrite Hcap. by eexists.
Qed.

(** Every path a run writes to is the index or, under the directory of one
    of the eight tag names, one of [unnamed.xml], [unnamed.json],
    [[object Object].xml] and [[object Object].json]: components of one type
    that carry an id share their two files, as those without an id do. *)
Theorem written_paths (xmlFilePath : string) (doc : list Sax.Token)
    (now : string) :
  Forall (fun w => allowedPath p (fst w))
         (writes (effects (main xmlFilePath p doc now))).
Proof.
  rewrite main_writes. apply Forall_app. split.
  - apply Forall_forall. intros [path content] Hin%list_elem_of_In.
    apply scan_writes_paths in Hin as (node & Hnode & Hshould & Hpath).
    right. exists (Sax.name node), (baseName (metadataOf node)).
    assert (Hty := shouldCapture_known _ _ _ Hshould).
    assert (Hbase := baseName_xmlns doc node Hnode).
    destruct Hpath as [-> | ->].
    + exists ".xml". splits; auto.
    + exists ".json". splits; auto.
  - destruct (resolved (extract p doc)); [|constructor].
    constructor; [by left|constructor].
Qed.

(** From a state without a capture, a listener throws only when the
    predicate does. *)
Lemma handle_idle_throws (ev : Sax.Event) (s : State) (e : string) :
  capturingContent s = false ->
  handle p ev s = Throws e ->
  exists node, ev = Sax.OpenTag node
               /\ shouldCapture p (Sax.name node) (Sax.attributes node) = Throws e.
Proof.
  intros Hcap. destruct ev as [node|text|n|err|]; simpl.
  - unfold onOpenTag. rewrite Hcap.
    destruct (shouldCapture p (Sax.name node) (Sax.attributes node))
      as [b|err] eqn:Hs; simpl; [discriminate|].
    intros [= <-]. by exists node.
  - unfold onText. by destruct (_ && _).
  - unfold onCloseTag. simpl. by rewrite Hcap.
  - done.
  - done.
Qed.

(** When the predicate accepts no element of the stream, the scan saves
    nothing. *)
Lemma scan_without_match (events : list Sax.Event) :
  (forall node, In (Sax.OpenTag node) events ->
                shouldCapture p (Sax.name node) (Sax.attributes node)
                <> Normal true) ->
  components (final (feed p events initial)) = []
  /\ writes (trace (feed p events initial)) = [].
Proof.
  intros Hnone.
  destruct (scan_saved p events initial) as (saved & Hcs & Hw & Hm);
    [by repeat split|].
  destruct saved as [|[m buf] saved]; [done|].
  inversion Hm as [|? ? [(node & Hin & Hshould & _) _] _]; subst.
  by destruct (Hnone node Hin).
Qed.

(** When the predicate throws on no element of the stream, no listener
    throws. *)
Lemma scan_without_throw (events : list Sax.Event) :
  forall s : State,
    idle s ->
    (forall node e, In (Sax.OpenTag node) events ->
                    shouldCapture p (Sax.name node) (Sax.attributes node)
                    <> Throws e) ->
    uncaught (feed p events s) = None.
Proof.
  revert events. apply (scan_ind p (fun events s =>
    (forall node e, In (Sax.OpenTag node) events ->
                    shouldCapture p (Sax.name node) (Sax.attributes node)
                    <> Throws e) ->
    uncaught (feed p events s) = None)).
  - done.
  - intros ev rest s e [Hcap _] He Hno. exfalso.
    destruct (handle_idle_throws ev s e Hcap He) as (node & -> & Hs).
    apply (Hno node e); [by left|done].
  - intros ev rest s s' _ He _ _ IH Hno. cbn [feed]. rewrite He.
    cbn [uncaught]. apply IH. intros node e Hin. apply Hno. by right.
  - intros node rest s h [Hcap _] Hshould Hin _.
    by rewrite (feed_open p s node rest h Hcap Hshould Hin).
  - intros node body n rest s [Hcap _] Hshould Hin IH Hno.
    rewrite (feed_capture p s node body n rest Hcap Hshould Hin).
    cbn [uncaught]. apply IH. intros node' e Hin'. apply Hno.
    right. apply in_or_app. right. by right.
Qed.

End MoreScans.

Section Selection.

Import ComponentExtractor Scan More.

(** The theorem at the nested document without its end signal. *)
Lemma well_formed_scan_completes_witness :
  wellNested (Sax.emitAll saxOptions (take 6 docNested))
  /\ uncaught (feed coachviews (Sax.emitAll saxOptions (take 6 docNested)) initial)
     = None
  /\ capturingContent
       (final (feed coachviews (Sax.emitAll saxOptions (take 6 docNested)) initial))
     = false
  /\ currentDepth
       (final (feed coachviews (Sax.emitAll saxOptions (take 6 docNested)) initial))
     = 0.
Proof.
  split; [reflexivity|]. split; [reflexivity|].
  destruct (well_formed_scan_completes coachviews
              (Sax.emitAll saxOptions (take 6 docNested)) eq_refl eq_refl)
    as (Hcap & _ & _ & Hdepth & _).
  split; [exact Hcap|exact Hdepth].
Defined.

Lemma emitAll_open (opts : Sax.Options) (doc : list Sax.Token) :
  existsb isOpenToken doc = true ->
  exists node, In (Sax.OpenTag node) (Sax.emitAll opts doc).
Proof.
  unfold Sax.emitAll. induction doc as [|t doc IH]; [discriminate|].
  simpl. intros [Ht|Hdoc]%orb_prop.
  - destruct t as [n attrs|d|n|m|]; try discriminate.
    eexists. apply in_or_app. left. by left.
  - destruct (IH Hdoc) as [node Hin]. exists node. apply in_or_app. by right.
Qed.

(** A component type that is neither [all] nor, in lower case, a key of the
    type map selects nothing: the scan runs to its end without a throw, no
    component is extracted and no component file is written, so that the
    only file of the run is an index of zero components. The type [ALL] in
    capitals is such a type. *)
Theorem unknown_type_extracts_nothing (p : Params) (xmlFilePath : string)
    (doc : list Sax.Token) (now : string) :
  String.eqb (componentType p) "all" = false ->
  typeMap (Js.toLowerCase (componentType p)) = Missing ->
  let r := extract p doc in
  uncaught r = None
  /\ components (final r) = []
  /\ writes (trace r) = []
  /\ writes (effects (main xmlFilePath p doc now))
     = if resolved r
       then [(indexPath p, Json.stringify (indexJson now []))]
       else [].
Proof.
  intros Hall Hmap r. subst r.
  assert (Hfalse : forall n a, shouldCapture p n a = Normal false).
  { intros n a. unfold shouldCapture. rewrite Hall, Hmap.
    by destruct (idFilterRejects p a). }
  assert (Hnone : components (final (extract p doc)) = []
                  /\ writes (trace (extract p doc)) = []).
  { apply scan_without_match. intros node _. by rewrite Hfalse. }
  destruct Hnone as [Hcs Hw]. splits; auto.
  - apply scan_without_throw; [by repeat split|].
    intros node e _. by rewrite Hfalse.
  - by rewrite main_writes, Hw, Hcs.
Qed.

Lemma unknown_type_extracts_nothing_witness :
  String.eqb (componentType upperAll) "all" = false
  /\ typeMap (Js.toLowerCase (componentType upperAll)) = Missing
  /\ components (final (extract upperAll docNested)) = []
  /\ writes (effects (main "doc.xml" upperAll docNested clock1))
     = [(indexPath upperAll, Json.stringify (indexJson clock1 []))].
Proof.
  split; [reflexivity|]. split; [reflexivity|].
  destruct (unknown_type_extracts_nothing upperAll "doc.xml" docNested clock1
              eq_refl eq_refl) as (_ & Hcs & _ & Hw).
  split; [exact Hcs|exact Hw].
Defined.

(** From a state without a capture, when the predicate throws on every
    element, the first opening event stops the scan and nothing was written
    before it. *)
Lemma feed_throws_at_open (p : Params) (e : string) (events : list Sax.Event) :
  (forall n a, shouldCapture p n a = Throws e) ->
  forall s : State,
    capturingContent s = false ->
    writes (trace (feed p events s)) = []
    /\ components (final (feed p events s)) = components s
    /\ ((exists node, In (Sax.OpenTag node) events) ->
        uncaught (feed p events s) = Some e).
Proof.
  intros Hthrow. induction events as [|ev rest IH]; intros s Hcap.
  - simpl. splits; auto. by intros [node []].
  - destruct ev as [node|text|n|err|]; cbn [feed handle].
    + unfold onOpenTag. rewrite Hcap, Hthrow. simpl. by splits.
    + unfold onText. rewrite Hcap. simpl.
      destruct (IH s Hcap) as (Hw & Hcs & Hun). splits; auto.
      intros [node [Hin|Hin]]; [discriminate|]. apply Hun. by exists node.
    + unfold onCloseTag. simpl. rewrite Hcap.
      destruct (IH (withDepth (currentDepth s - 1) s) Hcap) as (Hw & Hcs & Hun).
      splits; auto. intros [node [Hin|Hin]]; [discriminate|].
      apply Hun. by exists node.
    + unfold onError. destruct (IH s Hcap) as (Hw & Hcs & Hun). splits; auto.
      intros [node [Hin|Hin]]; [discriminate|]. apply Hun. by exists node.
    + unfold onEnd. destruct (IH s Hcap) as (Hw & Hcs & Hun). splits; auto.
      intros [node [Hin|Hin]]; [discriminate|]. apply Hun. by exists node.
Qed.

(** A component type that, in lower case, names a member of
    [Object.prototype] ([constructor], [__proto__]) makes the predicate throw
    when no id filter is given: on a document with an element the run stops
    at the first opening tag with an uncaught [TypeError], exits with
    status 1 and writes no file, not even an index. *)
Theorem prototype_type_throws (p : Params) (xmlFilePath : string)
    (doc : list Sax.Token) (now : string) :
  String.eqb (componentType p) "all" = false ->
  typeMap (Js.toLowerCase (componentType p)) = Inherited ->
  componentId p = None ->
  existsb isOpenToken doc = true ->
  let out := main xmlFilePath p doc now in
  uncaught (extract p doc)
  = Some "TypeError: typeMap[...]?.includes is not a function"
  /\ exitCode out = 1
  /\ writes (effects out) = []
  /\ components (final (extract p doc)) = [].
Proof.
  intros Hall Hmap Hid Hopen out. subst out.
  assert (Hthrow : forall n a,
             shouldCapture p n a
             = Throws "TypeError: typeMap[...]?.includes is not a function").
  { intros n a. unfold shouldCapture, idFilterRejects. by rewrite Hid, Hall, Hmap. }
  destruct (feed_throws_at_open p _ (Sax.emitAll saxOptions doc) Hthrow initial
              eq_refl) as (Hw & Hcs & Hun).
  specialize (Hun (emitAll_open saxOptions doc Hopen)).
  fold (extract p doc) in Hw, Hcs, Hun.
  splits; auto.
  - unfold main. by rewrite Hun.
  - unfold main. rewrite Hun. cbn [effects].
    by rewrite !writes_app, writes_banner, Hw.
Qed.

Lemma prototype_type_throws_witness :
  typeMap (Js.toLowerCase (componentType constructorType)) = Inherited
  /\ existsb isOpenToken docNested = true
  /\ exitCode (main "doc.xml" constructorType docNested clock1) = 1
  /\ writes (effects (main "doc.xml" constructorType docNested clock1)) = [].
Proof.
  split; [reflexivity|]. split; [reflexivity|].
  destruct (prototype_type_throws constructorType "doc.xml" docNested clock1
              eq_refl eq_refl eq_refl eq_refl) as (_ & Hexit & Hw & _).
  split; [exact Hexit|exact Hw].
Defined.

(** The lemma [id_filter_extracts_nothing] at the nested document and the
    id B. *)
Lemma id_filter_extracts_nothing_witness :
  componentId coachviewB = Some "B"
  /\ components (final (extract coachviewB docNested)) = []
  /\ writes (trace (extract coachviewB docNested)) = [].
Proof.
  split; [reflexivity|].
  apply (id_filter_extracts_nothing coachviewB "B" docNested eq_refl).
  discriminate.
Defined.

Lemma replaceAll_app (c : ascii) (r a b : string) :
  Js.replaceAll c r (a +:+ b) = Js.replaceAll c r a +:+ Js.replaceAll c r b.
Proof.
  induction a as [|x a IH]; [done|].
  rewrite string_app_cons. simpl. rewrite IH.
  destruct (Ascii.eqb x c); [by rewrite string_app_assoc|done].
Qed.

Lemma escapeText_app (a b : string) :
  escapeText (a +:+ b) = escapeText a +:+ escapeText b.
Proof. unfold escapeText. by rewrite !replaceAll_app. Qed.

(** What [escapeXML] makes of one character. *)
Lemma escapeText_char (c : ascii) :
  escapeText (String c EmptyString)
  = if Ascii.eqb c "&" then "&amp;"
    else if Ascii.eqb c "<" then "&lt;"
    else if Ascii.eqb c ">" then "&gt;"
    else if Ascii.eqb c "034" then "&quot;"
    else if Ascii.eqb c "'" then "&apos;"
    else String c EmptyString.
Proof.
  destruct (Ascii.eqb_spec c "&") as [->|H1]; [reflexivity|].
  destruct (Ascii.eqb_spec c "<") as [->|H2]; [reflexivity|].
  destruct (Ascii.eqb_spec c ">") as [->|H3]; [reflexivity|].
  destruct (Ascii.eqb_spec c "034") as [->|H4]; [reflexivity|].
  destruct (Ascii.eqb_spec c "'") as [->|H5]; [reflexivity|].
  apply Ascii.eqb_neq in H1, H2, H3, H4, H5.
  unfold escapeText. cbn [Js.replaceAll].
  rewrite H1. cbn [Js.replaceAll]. rewrite H2. cbn [Js.replaceAll].
  rewrite H3. cbn [Js.replaceAll]. rewrite H4. cbn [Js.replaceAll].
  by rewrite H5.
Qed.

Lemma unescape_char (c : ascii) (rest : string) :
  unescapeFrom 0 (escapeText (String c EmptyString) +:+ rest)
  = String c (unescapeFrom 0 rest).
Proof.
  rewrite escapeText_char.
  destruct (Ascii.eqb_spec c "&") as [->|H1]; [reflexivity|].
  destruct (Ascii.eqb_spec c "<") as [->|H2]; [reflexivity|].
  destruct (Ascii.eqb_spec c ">") as [->|H3]; [reflexivity|].
  destruct (Ascii.eqb_spec c "034") as [->|H4]; [reflexivity|].
  destruct (Ascii.eqb_spec c "'") as [->|H5]; [reflexivity|].
  rewrite string_app_cons, string_app_nil. cbn [unescapeFrom].
  assert (Hp : forall e, startsWith (String "&" e) (String c rest) = false).
  { intros e. unfold startsWith. cbn [BPMNScan.dropPrefix].
    by destruct (Ascii.eqb_spec "&" c) as [<-|_]. }
  by rewrite !Hp.
Qed.

(** [escapeXML] loses nothing of a string: reading the five entities in what
    it returns gives the string back, so two different strings are never
    written the same. *)
Theorem escapeXML_round_trip (s : string) :
  exists t, escapeXML (Js.Str s) = Js.Str t /\ unescapeXML t = s.
Proof.
  exists (escapeText s). split; [reflexivity|]. unfold unescapeXML.
  induction s as [|c s IH]; [done|].
  change (String c s) with (String c EmptyString +:+ s) at 1.
  by rewrite escapeText_app, unescape_char, IH.
Qed.

(** The main block does nothing to the file system unless it is given at
    least two arguments and the file exists: otherwise it only writes to the
    error stream and exits with status 1. When both hold it runs [main]
    with the third argument as the id filter, an empty or absent third
    argument meaning none. *)
Theorem script_guard (outputDirOf : string -> string)
    (fileExists : string -> bool) (content : string -> list Sax.Token)
    (now : string) (args : list string) :
  let out := Script.script outputDirOf fileExists content now args in
  (exists f ty rest,
      args = f :: ty :: rest /\ fileExists f = true
      /\ out = main f {| outputDir := outputDirOf f; componentType := ty;
                         componentId := Script.componentIdOf rest |}
                 (content f) now
      /\ (Script.componentIdOf rest = None
          <-> (rest = [] \/ exists more, rest = EmptyString :: more)))
  \/ (((length args < 2)%nat \/ exists f ty rest,
          args = f :: ty :: rest /\ fileExists f = false)
      /\ exitCode out = 1
      /\ writes (effects out) = []
      /\ mkdirs (effects out) = ∅
      /\ forallb isConsoleError (effects out) = true).
Proof.
  intros out. subst out. unfold Script.script.
  destruct args as [|f [|ty rest]].
  - right. splits; auto; left; simpl; lia.
  - right. splits; auto; left; simpl; lia.
  - destruct (fileExists f) eqn:Hex.
    + left. exists f, ty, rest. splits; auto. split.
      * destruct rest as [|cid more]; simpl; [auto|].
        destruct (String.eqb_spec cid EmptyString) as [->|Hne]; [eauto|done].
      * intros [->|[more ->]]; reflexivity.
    + right. splits; auto; right; by exists f, ty, rest.
Qed.

End Selection.

(** * Properties of the analyzer *)

Section Analysis.

Import ComponentExtractor BPMNAnalyzer BPMNScan More.

(** A property of the state that every listener keeps holds after a scan. *)
Lemma feed_preserves (I : State -> Prop) :
  (forall ev st st' out, I st -> handle ev st = Normal (st', out) -> I st') ->
  forall events st, I st -> I (final (feed events st)).
Proof.
  intros Hstep. induction events as [|ev rest IH]; intros st Hst; [done|].
  cbn [feed]. destruct (handle ev st) as [[st' out]|e] eqn:He; [|done].
  cbn [final]. apply IH. by eapply Hstep.
Qed.

(** [bump] changes nothing of the analyzer but [elementCounts]. *)
Lemma bump_analyzer (name : string) (st : State) :
  exists counts, analyzer (bump name st) = withCounts counts (analyzer st).
Proof.
  unfold bump. destruct (countTexts st !! name).
  - exists (elementCounts (analyzer st)). by destruct (analyzer st).
  - destruct (elementCounts (analyzer st) !! name); [by eexists|].
    destruct (inheritedText name); [|by eexists].
    exists (elementCounts (analyzer st)).
    destruct (String.eqb name "__proto__"); by destruct (analyzer st).
Qed.

(** The analyzer after an opening event that does not throw. *)
Lemma onOpenTag_normal (node : Sax.Tag) (st st' : State) :
  onOpenTag node st = Normal st' ->
  exists coach counts,
    isCoachView node = Normal coach
    /\ analyzer st'
       = bind (Sax.attributes node)
           (record node coach
              (withCounts counts (descend (Sax.name node) (analyzer st)))).
Proof.
  unfold onOpenTag.
  destruct (isCoachView node) as [coach|e]; simpl; [|discriminate].
  intros [= <-]. simpl.
  destruct (bump_analyzer (Sax.name node)
              (withAnalyzer (descend (Sax.name node) (analyzer st)) st))
    as [counts Hb].
  exists coach, counts. split; [done|]. by rewrite Hb.
Qed.

Lemma handle_open (node : Sax.Tag) (st st' : State) (out : list Signal) :
  handle (Sax.OpenTag node) st = Normal (st', out) ->
  onOpenTag node st = Normal st' /\ out = [].
Proof.
  simpl. destruct (onOpenTag node st) as [st1|e]; simpl; [|discriminate].
  by intros [= <- <-].
Qed.

Lemma depthInvariant_step (ev : Sax.Event) (st st' : State) (out : list Signal) :
  depthInvariant st -> handle ev st = Normal (st', out) -> depthInvariant st'.
Proof.
  unfold depthInvariant, entries. intros (Hd & Hm & He).
  destruct ev as [node|text|n|e|].
  - intros [Hopen _]%handle_open.
    destruct (onOpenTag_normal _ _ _ Hopen) as (coach & counts & _ & ->).
    simpl. splits; try lia.
    assert (Hold : forall e, nestingLevel e <= maxNestingDepth (analyzer st) ->
                             nestingLevel e
                             <= Z.max (maxNestingDepth (analyzer st))
                                      (nestingDepth (analyzer st) + 1))
      by (intros; lia).
    rewrite !Forall_app in He. destruct He as (H1 & H2 & H3 & H4).
    rewrite !Forall_app. splits.
    + destruct coach; rewrite ?Forall_app; splits;
        try (eapply Forall_impl; [exact H1|exact Hold]).
      repeat constructor. simpl. lia.
    + destruct (isHumanService _); rewrite ?Forall_app; splits;
        try (eapply Forall_impl; [exact H2|exact Hold]).
      repeat constructor. simpl. lia.
    + destruct (isProcess _); rewrite ?Forall_app; splits;
        try (eapply Forall_impl; [exact H3|exact Hold]).
      repeat constructor. simpl. lia.
    + destruct (isServiceTask _); rewrite ?Forall_app; splits;
        try (eapply Forall_impl; [exact H4|exact Hold]).
      repeat constructor. simpl. lia.
  - intros [= <- _]. done.
  - intros [= <- _]. simpl. splits; auto. lia.
  - intros [= <- _]. done.
  - intros [= <- _]. done.
Qed.

(** After the scan of any document, well-formed or not: the depth is at most
    the maximum recorded, the maximum is not negative, and no element was
    recorded at a level above it. *)
Theorem depth_never_above_maximum (doc : list Sax.Token) :
  let a := analyzer (final (analyze doc)) in
  nestingDepth a <= maxNestingDepth a
  /\ 0 <= maxNestingDepth a
  /\ Forall (fun e => nestingLevel e <= maxNestingDepth a) (entries a).
Proof.
  apply (feed_preserves depthInvariant depthInvariant_step
           (concat (map deliver doc)) initial).
  unfold depthInvariant. simpl. splits; try lia. constructor.
Qed.

(** The score of an analyzed document is never negative, and is at least
    five times the maximum depth. *)
Theorem score_of_scan_bounds (doc : list Sax.Token) :
  let a := analyzer (final (analyze doc)) in
  0 <= 5 * maxNestingDepth a
  /\ 5 * maxNestingDepth a <= calculateComplexityScore a.
Proof.
  intros a.
  assert (Hinv : depthInvariant (final (analyze doc))).
  { apply (feed_preserves depthInvariant depthInvariant_step).
    unfold depthInvariant. simpl. splits; try lia. constructor. }
  destruct Hinv as (_ & Hm & _). fold a in Hm.
  unfold calculateComplexityScore. lia.
Qed.

(** With string attributes the coach-view test does not throw. *)
Lemma isCoachView_strings (node : Sax.Tag) :
  Forall (fun kv => exists v, snd kv = Js.Str v) (Sax.attributes node) ->
  exists b, isCoachView node = Normal b.
Proof.
  intros Hs. unfold isCoachView.
  destruct (String.eqb (Sax.name node) "coachView"); [by eexists|].
  unfold typeIncludesCoach.
  assert (Hlook : forall k w, Js.lookup (Sax.attributes node) k = Some w ->
                              exists v, w = Js.Str v).
  { intros k w. induction Hs as [|[k' v'] o [v Hv] _ IH]; simpl; [done|].
    simpl in Hv. subst. destruct (String.eqb k' k); [|exact IH].
    intros [= <-]. by eexists. }
  assert (Hget : forall k, Js.get (Sax.attributes node) k = Js.Undefined
                           \/ exists v, Js.get (Sax.attributes node) k = Js.Str v).
  { intros k. unfold Js.get.
    destruct (Js.lookup (Sax.attributes node) k) as [w|] eqn:Hw.
    - right. by apply (Hlook k).
    - left. destruct (Js.lookup (Sax.attributes node) "__proto__") as [w|] eqn:Hp;
        [|done].
      by destruct (Hlook _ _ Hp) as [v ->]. }
  destruct (Hget "type") as [->|[v ->]]; by eexists.
Qed.

Lemma feed_strings (events : list Sax.Event) :
  stringAttributes events ->
  forall st, uncaught (feed events st) = None.
Proof.
  induction 1 as [|ev rest Hev _ IH]; intros st; [done|].
  cbn [feed].
  assert (Hn : exists st' out, handle ev st = Normal (st', out)).
  { destruct ev as [node|text|n|e|]; simpl; try by repeat eexists.
    unfold onOpenTag. destruct (isCoachView_strings node Hev) as [b ->].
    simpl. by repeat eexists. }
  destruct Hn as (st' & out & ->). cbn [uncaught]. apply IH.
Qed.

Lemma store_strings (o : Js.object) (k v : string) :
  Forall (fun kv => exists v, snd kv = Js.Str v) o ->
  Forall (fun kv => exists v, snd kv = Js.Str v) (Js.store o k (Js.Str v)).
Proof.
  induction o as [|[k' v'] o IH]; intros H; simpl.
  - constructor; [by eexists|constructor].
  - inversion H as [|? ? Hv Ho]; subst. destruct (String.eqb k' k).
    + constructor; [by eexists|done].
    + constructor; [done|by apply IH].
Qed.

Lemma attributesOf_strings (attrs : list Js.Attr) :
  forall acc,
    Forall (fun kv => exists v, snd kv = Js.Str v) acc ->
    Forall (fun kv => exists v, snd kv = Js.Str v)
           (Sax.attributesOf saxOptions acc attrs).
Proof.
  induction attrs as [|a attrs IH]; intros acc Hacc; [done|].
  simpl. destruct (Js.has acc (Js.attr_name a)); apply IH; [done|].
  unfold Js.set. destruct (Js.isProtoKey (Js.attr_name a)); [done|].
  by apply store_strings.
Qed.

Lemma deliver_strings (doc : list Sax.Token) :
  stringAttributes (concat (map deliver doc)).
Proof.
  unfold stringAttributes. induction doc as [|t doc IH]; simpl; [constructor|].
  apply Forall_app. split; [|exact IH].
  destruct t as [n attrs|d|n|m|]; simpl.
  - constructor; [|constructor]. simpl. apply attributesOf_strings. constructor.
  - destruct (Sax.textopts saxOptions d); repeat constructor.
  - repeat constructor.
  - repeat constructor.
  - repeat constructor.
Qed.

(** The lists grow by one entry for each opening event that passes their
    test. *)
Lemma feed_counts (events : list Sax.Event) :
  forall st,
    uncaught (feed events st) = None ->
    let a := analyzer st in
    let a' := analyzer (final (feed events st)) in
    length (coachViews a') = (length (coachViews a) + countOpen coachNode events)%nat
    /\ length (humanServices a')
       = (length (humanServices a)
          + countOpen (fun node => isHumanService (Sax.name node)) events)%nat
    /\ length (bpdProcesses a')
       = (length (bpdProcesses a)
          + countOpen (fun node => isProcess (Sax.name node)) events)%nat
    /\ length (serviceTasks a')
       = (length (serviceTasks a)
          + countOpen (fun node => isServiceTask (Sax.name node)) events)%nat.
Proof.
  induction events as [|ev rest IH]; intros st Hun.
  - simpl. splits; lia.
  - cbn [feed] in Hun |- *.
    destruct (handle ev st) as [[st' out]|e] eqn:He; [|discriminate].
    cbn [final uncaught] in Hun |- *.
    destruct (IH st' Hun) as (H1 & H2 & H3 & H4). cbn zeta in *.
    rewrite H1, H2, H3, H4. clear H1 H2 H3 H4.
    destruct ev as [node|text|n|e|].
    + apply handle_open in He as [Hopen _].
      destruct (onOpenTag_normal _ _ _ Hopen) as (coach & counts & Hcoach & ->).
      cbn [countOpen]. unfold coachNode. rewrite Hcoach. simpl.
      destruct coach, (isHumanService _), (isProcess _), (isServiceTask _);
        rewrite ?length_app; simpl; splits; lia.
    + injection He as <- _. simpl. splits; lia.
    + injection He as <- _. simpl. splits; lia.
    + injection He as <- _. simpl. splits; lia.
    + injection He as <- _. simpl. splits; lia.
Qed.

(** The analysis of a document never throws, and the four totals of its
    report are the numbers of start tags of the document that pass the
    tests of the four lists: named [humanService] or [service]; [process] or
    [bpdProcess]; [serviceTask] or [scriptTask]; and, for the coach views,
    named [coachView] or with a [type] attribute containing [coach]. *)
Theorem totals_count_elements (doc : list Sax.Token) :
  let events := concat (map deliver doc) in
  let s := summary (generateReport (final (analyze doc))) in
  uncaught (analyze doc) = None
  /\ totalCoachViews s = countOpen coachNode events
  /\ totalHumanServices s
     = countOpen (fun node => isHumanService (Sax.name node)) events
  /\ totalBPDProcesses s
     = countOpen (fun node => isProcess (Sax.name node)) events
  /\ totalServiceTasks s
     = countOpen (fun node => isServiceTask (Sax.name node)) events.
Proof.
  intros events s. subst s. unfold analyze. fold events.
  assert (Hun : uncaught (feed events initial) = None)
    by (apply feed_strings, deliver_strings).
  split; [exact Hun|].
  destruct (feed_counts events initial Hun) as (H1 & H2 & H3 & H4).
  simpl in *. by splits.
Qed.

(** The count of one tag name after a scan; the name is not that of a member
    of [Object.prototype]. *)
Lemma feed_element_count (name : string) (events : list Sax.Event) :
  inheritedText name = None ->
  forall st,
    countTexts st !! name = None ->
    elementCounts (analyzer st) !! name <> Some O ->
    uncaught (feed events st) = None ->
    countTexts (final (feed events st)) !! name = None
    /\ elementCounts (analyzer (final (feed events st))) !! name
       = match (default O (elementCounts (analyzer st) !! name)
                + countOpen (fun node => String.eqb (Sax.name node) name) events)%nat
         with
         | O => None
         | S k => Some (S k)
         end.
Proof.
  intros Hname. induction events as [|ev rest IH]; intros st Htext Hzero Hun.
  - simpl. split; [done|]. rewrite Nat.add_0_r.
    destruct (elementCounts (analyzer st) !! name) as [[|k]|]; done.
  - cbn [feed] in Hun |- *.
    destruct (handle ev st) as [[st' out]|e] eqn:He; [|discriminate].
    cbn [final uncaught] in Hun |- *.
    assert (Hstep : countTexts st' !! name = None
                    /\ elementCounts (analyzer st') !! name
                       = match ev with
                         | Sax.OpenTag node =>
                             if String.eqb (Sax.name node) name
                             then Some (S (default O (elementCounts (analyzer st) !! name)))
                             else elementCounts (analyzer st) !! name
                         | _ => elementCounts (analyzer st) !! name
                         end).
    { destruct ev as [node|text|n|e|]; try (injection He as <- _; done).
      apply handle_open in He as [Hopen _]. unfold onOpenTag in Hopen.
      destruct (isCoachView node) as [coach|e]; simpl in Hopen; [|discriminate].
      injection Hopen as <-. simpl.
      unfold bump. simpl.
      destruct (String.eqb_spec (Sax.name node) name) as [->|Hne].
      - rewrite Htext.
        destruct (elementCounts (analyzer st) !! name) as [k|] eqn:Hk; simpl.
        + by rewrite lookup_insert_eq.
        + rewrite Hname. simpl. by rewrite lookup_insert_eq.
      - destruct (countTexts st !! Sax.name node); simpl.
        { by rewrite lookup_insert_ne. }
        destruct (elementCounts (analyzer st) !! Sax.name node); simpl.
        { by rewrite lookup_insert_ne. }
        destruct (inheritedText (Sax.name node)); simpl.
        + destruct (String.eqb (Sax.name node) "__proto__"); simpl; [done|].
          by rewrite lookup_insert_ne.
        + by rewrite lookup_insert_ne. }
    destruct Hstep as [Htext' Hcount'].
    assert (Hzero' : elementCounts (analyzer st') !! name <> Some O).
    { rewrite Hcount'. destruct ev as [node|text|n|e|]; try done.
      by destruct (String.eqb (Sax.name node) name). }
    destruct (IH st' Htext' Hzero' Hun) as [-> ->]. split; [done|].
    rewrite Hcount'. destruct ev as [node|text|n|e|]; cbn [countOpen]; try done.
    destruct (String.eqb (Sax.name node) name); [|done]. simpl.
    by replace (default O (elementCounts (analyzer st) !! name)
                + S (countOpen (fun node0 => String.eqb (Sax.name node0) name) rest))%nat
      with (S (default O (elementCounts (analyzer st) !! name)
               + countOpen (fun node0 => String.eqb (Sax.name node0) name) rest))%nat
      by lia.
Qed.

(** For a tag name that is not the name of a member of [Object.prototype],
    the count reported for it in [elementTypeCounts] is the number of start
    tags of that name in the document, and the name has no entry when there
    is none. *)
Theorem element_count_is_occurrences (doc : list Sax.Token) (name : string) :
  inheritedText name = None ->
  let counts := elementTypeCounts (summary (generateReport (final (analyze doc)))) in
  snd counts !! name = None
  /\ fst counts !! name
     = match countOpen (fun node => String.eqb (Sax.name node) name)
                       (concat (map deliver doc)) with
       | O => None
       | S k => Some (S k)
       end.
Proof.
  intros Hname counts. subst counts. simpl.
  assert (Hun : uncaught (analyze doc) = None)
    by (apply feed_strings, deliver_strings).
  destruct (feed_element_count name (concat (map deliver doc)) Hname initial
              eq_refl ltac:(done) Hun) as [Ht Hc].
  split; [exact Ht|]. exact Hc.
Qed.

Lemma element_count_is_occurrences_witness :
  inheritedText "service" = None
  /\ (let counts :=
        elementTypeCounts (summary (generateReport (final (analyze docProcess)))) in
      snd counts !! "service" = None
      /\ fst counts !! "service"
         = match countOpen (fun node => String.eqb (Sax.name node) "service")
                           (concat (map deliver docProcess)) with
           | O => None
           | S k => Some (S k)
           end).
Proof.
  split; [reflexivity|].
  exact (element_count_is_occurrences docProcess "service" eq_refl).
Defined.

Lemma feed_inherited_count (name text : string) (events : list Sax.Event) :
  inheritedText name = Some text ->
  forall (st : State) (seen : nat),
    elementCounts (analyzer st) !! name = None ->
    countTexts st !! name
    = match seen with
      | O => None
      | S _ => Some (countText text seen)
      end ->
    (String.eqb name "__proto__" = true -> seen = O) ->
    uncaught (feed events st) = None ->
    elementCounts (analyzer (final (feed events st))) !! name = None
    /\ countTexts (final (feed events st)) !! name
       = if String.eqb name "__proto__"
         then countTexts st !! name
         else match (seen + countOpen (fun node => String.eqb (Sax.name node) name)
                                      events)%nat with
              | O => None
              | S k => Some (countText text (S k))
              end.
Proof.
  intros Hname.
  induction events as [|ev rest IH]; intros st seen Hnum Htext Hproto Hun.
  - simpl. split; [done|]. rewrite Nat.add_0_r, Htext.
    by destruct (String.eqb name "__proto__"), seen.
  - cbn [feed] in Hun |- *.
    destruct (handle ev st) as [[st' out]|e] eqn:He; [|discriminate].
    cbn [final uncaught] in Hun |- *.
    set (hit := match ev with
                | Sax.OpenTag node => String.eqb (Sax.name node) name
                | _ => false
                end).
    set (seen' := if hit && negb (String.eqb name "__proto__")
                  then S seen else seen).
    assert (Hstep : elementCounts (analyzer st') !! name = None
                    /\ countTexts st' !! name
                       = match seen' with
                         | O => None
                         | S _ => Some (countText text seen')
                         end).
    { subst seen' hit.
      destruct ev as [node|t|n|e|]; try (injection He as <- _; done).
      apply handle_open in He as [Hopen _]. unfold onOpenTag in Hopen.
      destruct (isCoachView node) as [coach|e]; simpl in Hopen; [|discriminate].
      injection Hopen as <-. simpl. unfold bump. simpl.
      destruct (String.eqb_spec (Sax.name node) name) as [->|Hne].
      - rewrite Hnum, Hname, Htext.
        destruct seen as [|j]; simpl.
        + destruct (String.eqb name "__proto__"); simpl; [done|].
          split; [done|]. by rewrite lookup_insert_eq.
        + split; [done|]. rewrite lookup_insert_eq.
          destruct (String.eqb name "__proto__") eqn:Hp; simpl; [|done].
          by specialize (Hproto eq_refl).
      - simpl.
        destruct (countTexts st !! Sax.name node); simpl.
        { by rewrite lookup_insert_ne. }
        destruct (elementCounts (analyzer st) !! Sax.name node); simpl.
        { by rewrite lookup_insert_ne. }
        destruct (inheritedText (Sax.name node)); simpl.
        + destruct (String.eqb (Sax.name node) "__proto__"); simpl; [done|].
          by rewrite lookup_insert_ne.
        + by rewrite lookup_insert_ne. }
    destruct Hstep as [Hnum' Htext'].
    assert (Hproto' : String.eqb name "__proto__" = true -> seen' = O).
    { intros Hp. subst seen'. rewrite Hp, andb_false_r. by apply Hproto. }
    destruct (IH st' seen' Hnum' Htext' Hproto' Hun) as [-> ->]. split; [done|].
    destruct (String.eqb name "__proto__") eqn:Hp.
    + subst seen'. rewrite andb_false_r in Htext'. by rewrite Htext', Htext.
    + subst seen' hit. rewrite andb_true_r.
      destruct ev as [node|t|n|e|]; cbn [countOpen]; try done.
      destruct (String.eqb (Sax.name node) name); [|done].
      by rewrite Nat.add_succ_r.
Qed.

(** A tag name that is the name of a member of [Object.prototype]
    ([constructor], [toString], ...) is never counted: [elementTypeCounts]
    holds no number for it, but the text of that member followed by one
    digit 1 for each start tag of that name. For [__proto__] it holds
    nothing at all. *)
Theorem prototype_name_is_not_counted (doc : list Sax.Token)
    (name text : string) :
  inheritedText name = Some text ->
  let counts := elementTypeCounts (summary (generateReport (final (analyze doc)))) in
  fst counts !! name = None
  /\ snd counts !! name
     = if String.eqb name "__proto__" then None
       else match countOpen (fun node => String.eqb (Sax.name node) name)
                            (concat (map deliver doc)) with
            | O => None
            | S k => Some (countText text (S k))
            end.
Proof.
  intros Hname counts. subst counts. simpl.
  assert (Hun : uncaught (analyze doc) = None)
    by (apply feed_strings, deliver_strings).
  exact (feed_inherited_count name text (concat (map deliver doc)) Hname
           initial O eq_refl eq_refl ltac:(done) Hun).
Qed.

Lemma prototype_name_is_not_counted_witness :
  inheritedText "constructor" = Some "function Object() { [native code] }"
  /\ (let counts :=
        elementTypeCounts (summary (generateReport (final (analyze docProcess)))) in
      fst counts !! "constructor" = None
      /\ snd counts !! "constructor"
         = if String.eqb "constructor" "__proto__" then None
           else match countOpen
                        (fun node => String.eqb (Sax.name node) "constructor")
                        (concat (map deliver docProcess)) with
                | O => None
                | S k => Some (countText "function Object() { [native code] }" (S k))
                end).
Proof.
  split; [reflexivity|].
  exact (prototype_name_is_not_counted docProcess "constructor"
           "function Object() { [native code] }" eq_refl).
Defined.

(* --------------------------------------------------------------------- *)

Lemma dropPrefix_take (pre : string) :
  forall (s r : string) (n : nat),
    dropPrefix pre s = Some r ->
    (String.length pre <= n)%nat ->
    dropPrefix pre (takeStr n s) = Some (takeStr (n - String.length pre) r).
Proof.
  induction pre as [|a pre IH]; intros s r n Hd Hn.
  - simpl in *. injection Hd as <-. by rewrite Nat.sub_0_r.
  - destruct s as [|b s]; [discriminate|]. simpl in Hd.
    destruct (Ascii.eqb a b) eqn:Hab; [|discriminate].
    destruct n as [|n]; [simpl in Hn; lia|]. simpl. rewrite Hab.
    apply IH; [done|]. simpl in Hn. lia.
Qed.

Lemma dropPrefix_self_take (n : nat) (s : string) :
  exists r, dropPrefix (takeStr n s) s = Some r.
Proof.
  revert s. induction n as [|n IH]; intros s; [by exists s|].
  destruct s as [|c s]; [by eexists|]. simpl. rewrite Ascii.eqb_refl. apply IH.
Qed.

Lemma contains_take (n : nat) (s : string) : contains (takeStr n s) s = true.
Proof.
  destruct (dropPrefix_self_take n s) as [r Hr].
  destruct s; simpl; by rewrite Hr.
Qed.

Lemma contains_cons (needle s : string) (c : ascii) :
  contains needle s = true -> contains needle (String c s) = true.
Proof. intros H. simpl. by destruct (dropPrefix needle (String c s)). Qed.

(** Every match is a piece of the string searched, and has the property the
    pattern gives a match that starts a string. *)
Lemma matchAllFrom_shape (re : string -> option nat) (shape : string -> Prop) :
  (forall s n, re s = Some (S n) -> shape (takeStr (S n) s)) ->
  forall s skip,
    Forall (fun b => contains b s = true /\ shape b) (matchAllFrom re skip s).
Proof.
  intros Hre. induction s as [|c r IH]; intros skip; [constructor|].
  assert (Hup : forall k, Forall (fun b => contains b (String c r) = true
                                           /\ shape b)
                                 (matchAllFrom re k r)).
  { intros k. eapply Forall_impl; [apply IH|].
    intros b [Hc Hs]. split; [by apply contains_cons|done]. }
  cbn [matchAllFrom]. destruct skip as [|k]; [|apply Hup].
  destruct (re (String c r)) as [[|n]|] eqn:Hm; try apply Hup.
  constructor; [|apply Hup]. split; [apply contains_take|by apply Hre].
Qed.

Lemma allChars_take (f : ascii -> bool) (s : string) :
  forall n, allChars f s = true -> allChars f (takeStr n s) = true.
Proof.
  induction s as [|c r IH]; intros [|n]; simpl; try done.
  intros [Hc Hr]%andb_prop. by rewrite Hc, IH.
Qed.

Lemma wordRun_chars (s : string) :
  allChars (fun c => isWordChar c || Ascii.eqb c ".") (takeStr (wordRun s) s)
  = true.
Proof.
  induction s as [|c r IH]; [done|]. simpl.
  destruct (isWordChar c) eqn:Hw; simpl.
  - by rewrite Hw, IH.
  - destruct (Ascii.eqb c ".") eqn:Hdot; simpl; [|done].
    destruct (startsWord r); simpl; [|done]. by rewrite Hw, Hdot, IH.
Qed.

Lemma takeStr_app (a : string) :
  forall (n : nat) (s r : string),
    dropPrefix a s = Some r ->
    takeStr (String.length a + n) s = a +:+ takeStr n r.
Proof.
  induction a as [|x a IH]; intros n s r Hd.
  - simpl in Hd. by injection Hd as <-.
  - destruct s as [|y s]; [discriminate|]. simpl in Hd.
    destruct (Ascii.eqb_spec x y) as [<-|]; [|discriminate].
    simpl. rewrite string_app_cons. f_equal. by apply IH.
Qed.

Lemma allChars_app (f : ascii -> bool) (a b : string) :
  allChars f (a +:+ b) = allChars f a && allChars f b.
Proof.
  induction a as [|x a IH]; [done|].
  rewrite string_app_cons. simpl. by rewrite IH, andb_assoc.
Qed.

Lemma dropPrefix_length (pre : string) :
  forall s r : string,
    dropPrefix pre s = Some r ->
    String.length s = (String.length pre + String.length r)%nat.
Proof.
  induction pre as [|a pre IH]; intros s r Hd.
  - simpl in Hd. by injection Hd as <-.
  - destruct s as [|b s]; [discriminate|]. simpl in Hd.
    destruct (Ascii.eqb a b); [|discriminate]. simpl. by rewrite (IH s r Hd).
Qed.

Lemma dropPrefix_take_inv (pre : string) :
  forall (s x : string) (k : nat),
    dropPrefix pre (takeStr k s) = Some x ->
    exists r, dropPrefix pre s = Some r
              /\ x = takeStr (k - String.length pre) r.
Proof.
  induction pre as [|a pre IH]; intros s x k Hd.
  - simpl in Hd. injection Hd as <-. exists s. by rewrite Nat.sub_0_r.
  - destruct k as [|k]; [by destruct s|].
    destruct s as [|b s]; [discriminate|]. simpl in Hd |- *.
    destruct (Ascii.eqb a b); [|discriminate]. by apply IH.
Qed.

Lemma wordRun_le (s : string) : (wordRun s <= String.length s)%nat.
Proof.
  induction s as [|c r IH]; [done|]. simpl.
  destruct (isWordChar c); [lia|].
  destruct (Ascii.eqb c "." && startsWord r); lia.
Qed.

Lemma takeStr_length (s : string) :
  forall n, (n <= String.length s)%nat -> String.length (takeStr n s) = n.
Proof.
  induction s as [|c r IH]; intros [|n] Hn; simpl in *; try done; try lia.
  rewrite IH; lia.
Qed.

Lemma startsWord_run (s : string) :
  startsWord s = true -> exists k, wordRun s = S k.
Proof.
  destruct s as [|c r]; [done|]. simpl. intros ->. by eexists.
Qed.

Lemma startsWord_take (s : string) (k : nat) :
  startsWord s = true -> startsWord (takeStr (S k) s) = true.
Proof. by destruct s. Qed.

Lemma startsWord_take_inv (s : string) (k : nat) :
  startsWord (takeStr k s) = true -> startsWord s = true.
Proof. by destruct k, s. Qed.

(** The run of a string cut at the end of its run is the whole of it. *)
Lemma wordRun_take (s : string) : wordRun (takeStr (wordRun s) s) = wordRun s.
Proof.
  induction s as [|c r IH]; [done|]. cbn [wordRun].
  destruct (isWordChar c) eqn:Hw.
  - cbn [takeStr wordRun]. by rewrite Hw, IH.
  - destruct (Ascii.eqb c ".") eqn:Hdot; cbn [andb]; [|done].
    destruct (startsWord r) eqn:Hs; [|done].
    cbn [takeStr wordRun]. rewrite Hw, Hdot. cbn [andb].
    destruct (startsWord_run r Hs) as [k Hk].
    rewrite Hk, (startsWord_take r k Hs), <- Hk. by rewrite IH.
Qed.

Lemma twScope_bound (scope s : string) (n : nat) :
  twScope scope s = Some n -> (n <= 3 + String.length s)%nat /\ (3 <= n)%nat.
Proof.
  unfold twScope.
  destruct (dropPrefix scope s) as [r|] eqn:Hs; [|discriminate].
  destruct (dropPrefix "." r) as [r'|] eqn:Hr; [|discriminate].
  destruct (startsWord r'); [|discriminate]. intros [= <-].
  apply dropPrefix_length in Hs, Hr. cbn [String.length] in Hr.
  pose proof (wordRun_le r'). lia.
Qed.

Lemma twScope_take (scope s : string) (n : nat) :
  twScope scope s = Some n -> twScope scope (takeStr (n - 3) s) = Some n.
Proof.
  unfold twScope.
  destruct (dropPrefix scope s) as [r|] eqn:Hs; [|discriminate].
  destruct (dropPrefix "." r) as [r'|] eqn:Hr; [|discriminate].
  destruct (startsWord r') eqn:Hw; [|discriminate]. intros Hn.
  assert (Hk : (n - 3 = String.length scope + (1 + wordRun r'))%nat)
    by (injection Hn; lia).
  rewrite Hk.
  assert (H1 : (String.length scope
                <= String.length scope + (1 + wordRun r'))%nat) by lia.
  rewrite (dropPrefix_take scope s r _ Hs H1).
  replace (String.length scope + (1 + wordRun r') - String.length scope)%nat
    with (1 + wordRun r')%nat by lia.
  assert (H2 : (String.length "." <= 1 + wordRun r')%nat)
    by (cbn [String.length]; lia).
  rewrite (dropPrefix_take "." r r' _ Hr H2).
  replace (1 + wordRun r' - String.length ".")%nat with (wordRun r')
    by (cbn [String.length]; lia).
  destruct (startsWord_run r' Hw) as [k Hrun].
  rewrite Hrun, (startsWord_take r' k Hw), <- Hrun, wordRun_take.
  exact Hn.
Qed.

Lemma twScope_take_none (scope s : string) (k : nat) :
  twScope scope s = None -> twScope scope (takeStr k s) = None.
Proof.
  unfold twScope. intros Hnone.
  destruct (dropPrefix scope (takeStr k s)) as [x|] eqn:Hx; [|done].
  apply dropPrefix_take_inv in Hx as (r & Hs & ->). rewrite Hs in Hnone.
  destruct (dropPrefix "." (takeStr _ r)) as [y|] eqn:Hy; [|done].
  apply dropPrefix_take_inv in Hy as (r' & Hr & ->). rewrite Hr in Hnone.
  destruct (startsWord (takeStr _ r')) eqn:Hw; [|done].
  apply startsWord_take_inv in Hw. by rewrite Hw in Hnone.
Qed.

Lemma twScope_shape (scope s : string) (n : nat) :
  allChars (fun c => isWordChar c || Ascii.eqb c ".") scope = true ->
  twScope scope s = Some n ->
  allChars (fun c => isWordChar c || Ascii.eqb c ".") (takeStr (n - 3) s) = true.
Proof.
  intros Hscope. unfold twScope.
  destruct (dropPrefix scope s) as [r|] eqn:Hs; [|discriminate].
  destruct (dropPrefix "." r) as [r'|] eqn:Hr; [|discriminate].
  destruct (startsWord r'); [|discriminate]. intros Hn.
  replace (n - 3)%nat with (String.length scope + (1 + wordRun r'))%nat
    by (injection Hn; lia).
  rewrite (takeStr_app scope _ s r Hs), allChars_app, Hscope.
  change (1 + wordRun r')%nat with (String.length "." + wordRun r')%nat.
  rewrite (takeStr_app "." _ r r' Hr), allChars_app. simpl.
  apply wordRun_chars.
Qed.

Lemma dropPrefix_app (a b : string) :
  forall s, dropPrefix (a +:+ b) s
            = match dropPrefix a s with
              | Some r => dropPrefix b r
              | None => None
              end.
Proof.
  induction a as [|x a IH]; intros s; [done|].
  rewrite string_app_cons. destruct s as [|y s]; [done|]. simpl.
  destruct (Ascii.eqb x y); [apply IH|done].
Qed.

Lemma twScope_starts (scope s : string) (n : nat) :
  twScope scope s = Some n ->
  startsWith ("tw." +:+ (scope +:+ ".")) ("tw." +:+ s) = true.
Proof.
  unfold twScope, startsWith. rewrite dropPrefix_app.
  change (dropPrefix "tw." ("tw." +:+ s)) with (Some s). cbv beta iota.
  rewrite dropPrefix_app.
  destruct (dropPrefix scope s) as [r|]; [|discriminate].
  by destruct (dropPrefix "." r).
Qed.

(** A match of the dotted pattern, cut out of the string, is matched by the
    pattern from its first character to its last, begins with [tw.] and one
    of the three scopes, and holds word characters and dots only. *)
Lemma twMatch_shape (s : string) (n : nat) :
  twMatch s = Some n ->
  dottedShape (takeStr n s) = true
  /\ twMatch (takeStr n s) = Some (String.length (takeStr n s)).
Proof.
  unfold twMatch. destruct (dropPrefix "tw." s) as [r|] eqn:Hs; [|discriminate].
  intros Hm.
  assert (Hn : (3 <= n)%nat /\ (n <= 3 + String.length r)%nat
               /\ allChars (fun c => isWordChar c || Ascii.eqb c ".")
                           (takeStr (n - 3) r) = true
               /\ match twScope "local" (takeStr (n - 3) r) with
                  | Some k => Some k
                  | None =>
                      match twScope "system" (takeStr (n - 3) r) with
                      | Some k => Some k
                      | None => twScope "env" (takeStr (n - 3) r)
                      end
                  end = Some n
               /\ startsWith "tw.local." ("tw." +:+ takeStr (n - 3) r)
                  || startsWith "tw.system." ("tw." +:+ takeStr (n - 3) r)
                  || startsWith "tw.env." ("tw." +:+ takeStr (n - 3) r) = true).
  { destruct (twScope "local" r) as [k|] eqn:H1.
    - injection Hm as ->. destruct (twScope_bound _ _ _ H1).
      pose proof (twScope_take _ _ _ H1) as Ht.
      splits; try lia; [by apply (twScope_shape "local" r)|by rewrite Ht|].
      pose proof (twScope_starts "local" _ _ Ht) as Hst.
      change ("tw." +:+ ("local" +:+ ".")) with "tw.local." in Hst.
      by rewrite Hst.
    - destruct (twScope "system" r) as [k|] eqn:H2.
      + injection Hm as ->. destruct (twScope_bound _ _ _ H2).
        pose proof (twScope_take _ _ _ H2) as Ht.
        splits; try lia; [by apply (twScope_shape "system" r)| |].
        * by rewrite (twScope_take_none _ _ _ H1), Ht.
        * pose proof (twScope_starts "system" _ _ Ht) as Hst.
          change ("tw." +:+ ("system" +:+ ".")) with "tw.system." in Hst.
          rewrite Hst. by rewrite orb_true_r.
      + destruct (twScope_bound _ _ _ Hm).
        pose proof (twScope_take _ _ _ Hm) as Ht.
        splits; try lia; [by apply (twScope_shape "env" r)| |].
        * by rewrite (twScope_take_none _ _ _ H1), (twScope_take_none _ _ _ H2).
        * pose proof (twScope_starts "env" _ _ Ht) as Hst.
          change ("tw." +:+ ("env" +:+ ".")) with "tw.env." in Hst.
          rewrite Hst. by rewrite orb_true_r. }
  destruct Hn as (Hlen & Hup & Hchars & Hagain & Hscope).
  assert (Hcut : takeStr n s = "tw." +:+ takeStr (n - 3) r).
  { replace (takeStr n s) with (takeStr (String.length "tw." + (n - 3)) s)
      by (f_equal; cbn [String.length]; lia).
    by apply takeStr_app. }
  assert (Hdrop : dropPrefix "tw." (takeStr n s) = Some (takeStr (n - 3) r))
    by (apply dropPrefix_take; [done|cbn [String.length]; lia]).
  split.
  - unfold dottedShape. rewrite Hcut, Hscope, allChars_app. by rewrite Hchars.
  - rewrite Hdrop, Hagain. f_equal. symmetry. apply takeStr_length.
    apply dropPrefix_length in Hs. cbn [String.length] in Hs. lia.
Qed.

Lemma beforeBrace_take (s : string) :
  forall k, beforeBrace s = Some k ->
            beforeBrace (takeStr (k + 1) s) = Some k
            /\ (k + 1 <= String.length s)%nat.
Proof.
  induction s as [|c r IH]; intros k; [discriminate|]. cbn [beforeBrace].
  destruct (Ascii.eqb c "}") eqn:Hc.
  - intros [= <-]. cbn [Nat.add takeStr beforeBrace]. rewrite Hc.
    split; [done|]. simpl. lia.
  - destruct (beforeBrace r) as [j|]; [|discriminate]. intros [= <-].
    destruct (IH j eq_refl) as [Hj Hlen].
    cbn [Nat.add takeStr beforeBrace]. rewrite Hc, Hj.
    split; [done|]. simpl. lia.
Qed.

(** A match of the expression pattern, cut out of the string, is matched by
    the pattern from its first character to its last: it opens with [#{] and
    its only closing brace is its last character. *)
Lemma exprMatch_shape (s : string) (n : nat) :
  exprMatch s = Some n ->
  expressionShape (takeStr n s) = true
  /\ exprMatch (takeStr n s) = Some (String.length (takeStr n s)).
Proof.
  unfold exprMatch. destruct (dropPrefix "#{" s) as [r|] eqn:Hs; [|discriminate].
  destruct (beforeBrace r) as [[|k]|] eqn:Hb; try discriminate. intros Hm.
  destruct (beforeBrace_take r (S k) Hb) as [Hcut Hlen].
  assert (Hn : (n - 2 = S k + 1)%nat /\ (2 <= n)%nat) by (injection Hm; lia).
  destruct Hn as [Hn H2].
  assert (Hdrop : dropPrefix "#{" (takeStr n s) = Some (takeStr (n - 2) r))
    by (apply dropPrefix_take; [done|cbn [String.length]; lia]).
  unfold expressionShape. rewrite Hdrop, Hn, Hcut. split; [done|].
  rewrite Hm. f_equal. symmetry. apply takeStr_length.
  apply dropPrefix_length in Hs. cbn [String.length] in Hs. lia.
Qed.

(** Every binding found in an attribute value is a piece of that value and
    is itself matched, from its first character to its last, by the pattern
    that found it. One found by the dotted pattern begins with [tw.] and
    consists of word characters and dots; one found by the expression
    pattern begins with [#{]. *)
Theorem bindings_are_pieces (value : string) :
  Forall (fun b => contains b value = true
                   /\ dottedShape b = true
                   /\ twMatch b = Some (String.length b))
         (matchAll twMatch value)
  /\ Forall (fun b => contains b value = true
                      /\ expressionShape b = true
                      /\ exprMatch b = Some (String.length b))
            (matchAll exprMatch value).
Proof.
  split.
  - apply (matchAllFrom_shape twMatch
             (fun b => dottedShape b = true
                       /\ twMatch b = Some (String.length b))).
    intros s n. apply twMatch_shape.
  - apply (matchAllFrom_shape exprMatch
             (fun b => expressionShape b = true
                       /\ exprMatch b = Some (String.length b))).
    intros s n. apply exprMatch_shape.
Qed.

Lemma attributeBindings_values (attributes : Js.object) :
  attributeBindings attributes
  = concat (map bindingsOf
              (omap (fun kv => match snd kv with
                               | Js.Str v => Some v
                               | _ => None
                               end) attributes)).
Proof.
  induction attributes as [|[k v] rest IH]; [done|].
  destruct v as [|s|a]; simpl; by rewrite ?IH.
Qed.

Lemma feed_bindings (events : list Sax.Event) :
  forall st,
    uncaught (feed events st) = None ->
    dataBindings (analyzer (final (feed events st)))
    = dataBindings (analyzer st)
      ∪ list_to_set (concat (map bindingsOf (attributeValues events))).
Proof.
  induction events as [|ev rest IH]; intros st Hun.
  - simpl. set_solver.
  - cbn [feed] in Hun |- *.
    destruct (handle ev st) as [[st' out]|e] eqn:He; [|discriminate].
    cbn [final uncaught] in Hun |- *. rewrite (IH st' Hun).
    destruct ev as [node|text|n|e|].
    + apply handle_open in He as [Hopen _].
      destruct (onOpenTag_normal _ _ _ Hopen) as (coach & counts & _ & ->).
      cbn [attributeValues]. simpl dataBindings.
      rewrite map_app, concat_app, list_to_set_app_L, attributeBindings_values.
      set_solver.
    + by injection He as <- _.
    + by injection He as <- _.
    + by injection He as <- _.
    + by injection He as <- _.
Qed.

(** The set of data bindings of a report is the set of the matches of the
    two patterns in the attribute values of the start tags of the document;
    [uniqueDataBindings] is its size. *)
Theorem bindings_of_document (doc : list Sax.Token) :
  let report := generateReport (final (analyze doc)) in
  reportDataBindings report
  = list_to_set (concat (map bindingsOf
                           (attributeValues (concat (map deliver doc)))))
  /\ uniqueDataBindings (summary report) = size (reportDataBindings report).
Proof.
  intros report. subst report.
  cbn [generateReport reportDataBindings summary uniqueDataBindings].
  split; [|done].
  assert (Hun : uncaught (analyze doc) = None)
    by (apply feed_strings, deliver_strings).
  unfold analyze in *. rewrite (feed_bindings _ initial Hun).
  change (dataBindings (analyzer initial)) with (∅ : gset string).
  set_solver.
Qed.

(* --------------------------------------------------------------------- *)

Lemma lowerAll_app (a b : string) :
  lowerAll (a +:+ b) = lowerAll a +:+ lowerAll b.
Proof.
  induction a as [|c a IH]; [done|].
  rewrite string_app_cons. simpl. by rewrite IH, string_app_cons.
Qed.

Lemma lowerAll_length (s : string) :
  String.length (lowerAll s) = String.length s.
Proof. induction s as [|c s IH]; simpl; [done|by rewrite IH]. Qed.

Lemma string_app_length (a b : string) :
  String.length (a +:+ b) = (String.length a + String.length b)%nat.
Proof.
  induction a as [|c a IH]; [done|].
  rewrite string_app_cons. simpl. by rewrite IH.
Qed.

(** An extension is not found before the end of the path. *)
Lemma isExtension_longer (c : ascii) (stem ext : string) :
  isExtension ext = true -> isExtension (String c (stem +:+ ext)) = false.
Proof.
  unfold isExtension. intros Hext.
  apply orb_false_iff.
  apply orb_true_iff in Hext as [Hext|Hext]; apply String.eqb_eq in Hext;
    split; apply String.eqb_neq; intros Heq.
  - apply (f_equal String.length) in Heq. simpl in Heq.
    rewrite lowerAll_length, string_app_length, <- (lowerAll_length ext), Hext in Heq.
    simpl in Heq. lia.
  - destruct stem as [|d stem].
    + rewrite string_app_nil in Heq. simpl in Heq. rewrite Hext in Heq.
      discriminate.
    + apply (f_equal String.length) in Heq.
      cbn [lowerAll String.length] in Heq.
      rewrite lowerAll_length, string_app_length, <- (lowerAll_length ext), Hext in Heq.
      simpl in Heq. lia.
  - apply (f_equal String.length) in Heq. simpl in Heq.
    rewrite lowerAll_length, string_app_length, <- (lowerAll_length ext), Hext in Heq.
    simpl in Heq. lia.
  - apply (f_equal String.length) in Heq. simpl in Heq.
    rewrite lowerAll_length, string_app_length, <- (lowerAll_length ext), Hext in Heq.
    simpl in Heq. lia.
Qed.

Lemma replaceExtension_cases (path : string) :
  (exists stem ext,
      path = stem +:+ ext /\ isExtension ext = true
      /\ forall suffix, replaceExtension suffix path = stem +:+ suffix)
  \/ ((forall suffix, replaceExtension suffix path = path)
      /\ forall stem ext, path = stem +:+ ext -> isExtension ext = false).
Proof.
  induction path as [|c r IH].
  - right. split; [done|]. intros [|d stem] ext Heq.
    + rewrite string_app_nil in Heq. by subst ext.
    + rewrite string_app_cons in Heq. discriminate.
  - destruct (isExtension (String c r)) eqn:Hext.
    + left. exists EmptyString, (String c r). splits; [done|done|].
      intros suffix. cbn [replaceExtension]. by rewrite Hext.
    + destruct IH as [(stem & ext & -> & Hx & Hr)|[Hr Hno]].
      * left. exists (String c stem), ext. splits; [done|done|].
        intros suffix. cbn [replaceExtension]. rewrite Hext, Hr.
        by rewrite string_app_cons.
      * right. split.
        { intros suffix. cbn [replaceExtension]. by rewrite Hext, Hr. }
        intros [|d stem] ext Heq.
        { rewrite string_app_nil in Heq. by subst ext. }
        rewrite string_app_cons in Heq. injection Heq as _ Heq.
        by apply (Hno stem).
Qed.

(** The two report files of the main block. When the path given ends in
    [.xml] or [.bpmn], in any letter case, the reports are written beside the
    input under the names [<stem>-analysis.json] and [<stem>-analysis.md].
    For any other path both output paths are the input path itself: the JSON
    report is written over the input file, and the Markdown report over
    that. *)
Theorem report_paths (xmlFilePath : string) :
  (exists stem ext,
      xmlFilePath = stem +:+ ext /\ isExtension ext = true
      /\ jsonReportPath xmlFilePath = stem +:+ "-analysis.json"
      /\ markdownReportPath xmlFilePath = stem +:+ "-analysis.md")
  \/ (jsonReportPath xmlFilePath = xmlFilePath
      /\ markdownReportPath xmlFilePath = xmlFilePath
      /\ forall stem ext, xmlFilePath = stem +:+ ext -> isExtension ext = false).
Proof.
  unfold jsonReportPath, markdownReportPath.
  destruct (replaceExtension_cases xmlFilePath)
    as [(stem & ext & Hp & Hx & Hr)|[Hr Hno]].
  - left. exists stem, ext. by rewrite !Hr.
  - right. by rewrite !Hr.
Qed.

(** A path with the extension has its extension replaced, whatever the stem
    holds. *)
Theorem report_path_of_extension (stem ext suffix : string) :
  isExtension ext = true ->
  replaceExtension suffix (stem +:+ ext) = stem +:+ suffix.
Proof.
  intros Hext. induction stem as [|c stem IH].
  - rewrite !string_app_nil. destruct ext as [|c ext]; [done|].
    cbn [replaceExtension]. by rewrite Hext.
  - rewrite !string_app_cons. cbn [replaceExtension].
    by rewrite (isExtension_longer c stem ext Hext), IH.
Qed.

Lemma report_path_of_extension_witness :
  isExtension ".BPMN" = true
  /\ replaceExtension "-analysis.json" ("flows/order.xml" +:+ ".BPMN")
     = "flows/order.xml" +:+ "-analysis.json".
Proof.
  split; [reflexivity|].
  exact (report_path_of_extension "flows/order.xml" ".BPMN" "-analysis.json" eq_refl).
Defined.

(* --------------------------------------------------------------------- *)

Lemma pathInvariant_step (ev : Sax.Event) (st st' : State)
      (out : list Signal) (stack stack' : list string) :
  Scan.nesting stack [ev] = Some stack' ->
  pathInvariant stack st -> handle ev st = Normal (st', out) ->
  pathInvariant stack' st'.
Proof.
  unfold pathInvariant, entries. intros Hn (Hp & Hd & He).
  destruct ev as [node|text|n|e|]; simpl in Hn; try discriminate.
  - injection Hn as <-.
    intros [Hopen _]%handle_open.
    destruct (onOpenTag_normal _ _ _ Hopen) as (coach & counts & _ & ->).
    cbn -[Z.of_nat]. splits.
    + by rewrite Hp.
    + rewrite Hd. cbn [length]. lia.
    + assert (Hnew : forall extra,
                 levelIsPathLength
                   (entryOf node extra
                      (withCounts counts (descend (Sax.name node) (analyzer st))))).
      { intros extra. unfold levelIsPathLength. cbn -[Z.of_nat].
        rewrite Hp, Hd, length_app, length_rev. cbn [length]. lia. }
      rewrite !Forall_app in He. destruct He as (H1 & H2 & H3 & H4).
      rewrite !Forall_app. splits.
      * destruct coach; rewrite ?Forall_app; splits; try done.
        constructor; [apply Hnew|constructor].
      * destruct (isHumanService _); rewrite ?Forall_app; splits; try done.
        constructor; [apply Hnew|constructor].
      * destruct (isProcess _); rewrite ?Forall_app; splits; try done.
        constructor; [apply Hnew|constructor].
      * destruct (isServiceTask _); rewrite ?Forall_app; splits; try done.
        constructor; [apply Hnew|constructor].
  - injection Hn as <-. by intros [= <- _].
  - destruct stack as [|top below]; [discriminate|].
    destruct (String.eqb top n); [|discriminate]. injection Hn as <-.
    intros [= <- _]. cbn -[Z.of_nat]. splits; [| |done].
    + rewrite Hp. cbn [rev]. apply removelast_last.
    + rewrite Hd. cbn [length]. lia.
Qed.

Lemma nesting_cons (ev : Sax.Event) (rest : list Sax.Event)
      (stack stack' : list string) :
  Scan.nesting stack (ev :: rest) = Some stack' ->
  exists mid, Scan.nesting stack [ev] = Some mid
              /\ Scan.nesting mid rest = Some stack'.
Proof.
  destruct ev as [node|text|n|e|]; simpl; try discriminate; eauto.
  destruct stack as [|top below]; [discriminate|].
  destruct (String.eqb top n); [eauto|discriminate].
Qed.

Lemma feed_path (events : list Sax.Event) :
  forall (stack stack' : list string) (st : State),
    Scan.nesting stack events = Some stack' ->
    pathInvariant stack st ->
    uncaught (feed events st) = None ->
    pathInvariant stack' (final (feed events st)).
Proof.
  induction events as [|ev rest IH]; intros stack stack' st Hn Hinv Hun.
  - simpl in Hn. by injection Hn as <-.
  - apply nesting_cons in Hn as (mid & Hev & Hrest).
    cbn [feed] in Hun |- *.
    destruct (handle ev st) as [[st' out]|e] eqn:He; [|discriminate].
    cbn [final uncaught] in Hun |- *.
    apply (IH mid stack' st' Hrest); [|done].
    by apply (pathInvariant_step ev st st' out stack mid).
Qed.

(** While the start and end tags delivered so far are properly nested, the
    analyzer's [currentPath] is the list of the elements that are open,
    outermost first, [nestingDepth] is their number, and every entry recorded
    has a [nestingLevel] that is the length of its [path], which is at least
    1. *)
Theorem path_is_open_elements (doc : list Sax.Token) (stack : list string) :
  Scan.nesting [] (concat (map deliver doc)) = Some stack ->
  let a := analyzer (final (analyze doc)) in
  currentPath a = rev stack
  /\ nestingDepth a = Z.of_nat (length stack)
  /\ Forall levelIsPathLength (entries a).
Proof.
  intros Hn a. subst a.
  assert (Hun : uncaught (analyze doc) = None)
    by (apply feed_strings, deliver_strings).
  apply (feed_path (concat (map deliver doc)) [] stack initial Hn);
    [|exact Hun].
  unfold pathInvariant. simpl. by splits.
Qed.

Lemma path_is_open_elements_witness :
  Scan.nesting [] (concat (map deliver (firstn 5 docProcess)))
  = Some ["process"]
  /\ (let a := analyzer (final (analyze (firstn 5 docProcess))) in
      currentPath a = rev ["process"]
      /\ nestingDepth a = Z.of_nat (length ["process"])
      /\ Forall levelIsPathLength (entries a)).
Proof.
  split; [reflexivity|].
  exact (path_is_open_elements (firstn 5 docProcess) ["process"] eq_refl).
Defined.

(* --------------------------------------------------------------------- *)

Lemma analyze_no_throw (doc : list Sax.Token) :
  uncaught (analyze doc) = None.
Proof. apply feed_strings, deliver_strings. Qed.

Lemma deliver_content (doc : list Sax.Token) :
  forallb Scan.isContent doc = true ->
  forallb Scan.isContentEvent (concat (map deliver doc)) = true.
Proof.
  induction doc as [|t doc IH]; [done|].
  simpl. intros [Ht Hdoc]%andb_prop. rewrite forallb_app, (IH Hdoc), andb_true_r.
  destruct t as [n attrs|d|n|m|]; try done.
  simpl. by destruct (Sax.textopts saxOptions d).
Qed.

Lemma feed_content_end (events : list Sax.Event) :
  forallb Scan.isContentEvent events = true ->
  forall st,
    uncaught (feed (events ++ [Sax.End]) st) = None ->
    signals (feed (events ++ [Sax.End]) st)
    = [Resolved (generateReport (final (feed (events ++ [Sax.End]) st)))].
Proof.
  induction events as [|ev rest IH]; intros Hc st Hun; [done|].
  simpl in Hc. apply andb_prop in Hc as [Hev Hrest].
  cbn [app feed] in Hun |- *.
  destruct (handle ev st) as [[st' out]|e] eqn:He; [|discriminate].
  cbn [final signals uncaught] in Hun |- *.
  rewrite (IH Hrest st' Hun).
  destruct ev as [node|text|n|e|]; try discriminate.
  - by apply handle_open in He as [_ ->].
  - by injection He as _ <-.
  - by injection He as _ <-.
Qed.

(** For a document without a well-formedness error, whose end is signalled
    after its last token, the listeners of [analyze] give one signal only:
    they resolve the promise with the report of the analyzer as the scan
    leaves it. Nothing is printed and nothing is rejected. *)
Theorem resolved_report_is_final (body : list Sax.Token) :
  forallb Scan.isContent body = true ->
  let r := analyze (body ++ [Sax.TEnd]) in
  uncaught r = None
  /\ signals r = [Resolved (generateReport (final r))].
Proof.
  intros Hbody r. subst r. split; [apply analyze_no_throw|].
  pose proof (analyze_no_throw (body ++ [Sax.TEnd])) as Hun.
  unfold analyze in *. rewrite map_app, concat_app in *.
  change (concat (map deliver [Sax.TEnd])) with [Sax.End] in *.
  by apply feed_content_end; [apply deliver_content|].
Qed.

Lemma resolved_report_is_final_witness :
  forallb Scan.isContent (firstn 8 docProcess) = true
  /\ uncaught (analyze (firstn 8 docProcess ++ [Sax.TEnd])) = None
  /\ signals (analyze (firstn 8 docProcess ++ [Sax.TEnd]))
     = [Resolved (generateReport
                    (final (analyze (firstn 8 docProcess ++ [Sax.TEnd]))))].
Proof.
  split; [reflexivity|].
  exact (resolved_report_is_final (firstn 8 docProcess) eq_refl).
Defined.

End Analysis.

(** * Properties of the main block of the analyzer *)

Section AnalysisScript.

Import ComponentExtractor Scan BPMNAnalyzer BPMNScan BPMNScript More.

Variable stringify : Report -> string.
Variable markdown : Report -> string -> string.
Variable fileExists : string -> bool.
Variable content : string -> list Sax.Token.

Lemma writes_printed (ss : list Signal) : writes (printed ss) = [].
Proof. induction ss as [|[line|report|e] ss IH]; simpl; done. Qed.

Lemma mkdirs_printed (ss : list Signal) : mkdirs (printed ss) = ∅.
Proof. induction ss as [|[line|report|e] ss IH]; simpl; done. Qed.

Lemma replaceExtension_none (suffix path : string) :
  endsInExtension path = false -> replaceExtension suffix path = path.
Proof.
  induction path as [|c r IH]; [done|].
  cbn [endsInExtension replaceExtension].
  intros [Hx Hr]%orb_false_iff. rewrite Hx. by rewrite (IH Hr).
Qed.

(** The main block writes either nothing, or exactly the two reports, the
    JSON report first. It writes them only when a file was named, exists and
    its analysis resolved, and the exit status is then 0. It never creates a
    directory. *)
Theorem analysis_script_writes (args : list string) :
  let out := script stringify markdown fileExists content args in
  mkdirs (effects out) = ∅
  /\ (writes (effects out) = []
      \/ exists f rest report,
           args = f :: rest /\ fileExists f = true
           /\ settled (signals (analyze (content f))) = Some (inl report)
           /\ exitCode out = 0
           /\ writes (effects out)
              = [ (jsonReportPath f, stringify report);
                  (markdownReportPath f, markdown report f) ]).
Proof.
  intros out. subst out. unfold script.
  destruct args as [|f rest]; [by split; [|left]|].
  destruct (fileExists f) eqn:Hf; [|by split; [|left]].
  cbv zeta. destruct (uncaught (analyze (content f))) as [e|].
  { cbn [effects exitCode].
    rewrite !mkdirs_app, !writes_app, mkdirs_printed, writes_printed.
    split; [set_solver|by left]. }
  destruct (settled (signals (analyze (content f)))) as [[report|e]|] eqn:Hs;
    cbn [effects exitCode];
    rewrite ?mkdirs_app, ?writes_app, mkdirs_printed, writes_printed.
  - split; [set_solver|]. right. by exists f, rest, report.
  - split; [set_solver|by left].
  - split; [set_solver|by left].
Qed.

(** When the path given does not end in [.xml] or [.bpmn], a successful run
    writes both reports to that path: the source file is replaced by the
    JSON report and then by the Markdown report, which is what it holds in
    the end. *)
Theorem analysis_overwrites_source (f : string) (rest : list string)
    (report : Report) :
  fileExists f = true ->
  settled (signals (analyze (content f))) = Some (inl report) ->
  endsInExtension f = false ->
  let out := script stringify markdown fileExists content (f :: rest) in
  exitCode out = 0
  /\ writes (effects out) = [(f, stringify report); (f, markdown report f)]
  /\ lastWrite f (writes (effects out)) = Some (markdown report f).
Proof.
  intros Hf Hs Hx out. subst out. cbn [script]. rewrite Hf.
  rewrite (analyze_no_throw (content f)), Hs.
  cbn [exitCode effects]. split; [done|].
  rewrite !writes_app, writes_printed.
  unfold onResolved, jsonReportPath, markdownReportPath.
  rewrite !(replaceExtension_none _ f Hx). simpl.
  split; [done|]. by rewrite String.eqb_refl.
Qed.

End AnalysisScript.

Lemma analysis_overwrites_source_witness :
  BPMNScript.endsInExtension "flow" = false
  /\ ComponentExtractor.exitCode
       (BPMNScript.script (fun _ => "json") (fun _ _ => "md") (fun _ => true)
          (fun _ => [Sax.TOpen "process" []; Sax.TClose "process"; Sax.TEnd])
          ["flow"]) = 0
  /\ ComponentExtractor.writes
       (ComponentExtractor.effects
          (BPMNScript.script (fun _ => "json") (fun _ _ => "md") (fun _ => true)
             (fun _ => [Sax.TOpen "process" []; Sax.TClose "process"; Sax.TEnd])
             ["flow"]))
     = [("flow", "json"); ("flow", "md")]
  /\ Scan.lastWrite "flow"
       (ComponentExtractor.writes
          (ComponentExtractor.effects
             (BPMNScript.script (fun _ => "json") (fun _ _ => "md")
                (fun _ => true)
                (fun _ => [Sax.TOpen "process" []; Sax.TClose "process";
                           Sax.TEnd])
                ["flow"])))
     = Some "md".
Proof.
  split; [reflexivity|].
  exact (analysis_overwrites_source (fun _ => "json") (fun _ _ => "md")
           (fun _ => true)
           (fun _ => [Sax.TOpen "process" []; Sax.TClose "process"; Sax.TEnd])
           "flow" []
           (BPMNScan.generateReport
              (BPMNScan.final
                 (BPMNScan.analyze
                    [Sax.TOpen "process" []; Sax.TClose "process"; Sax.TEnd])))
           eq_refl eq_refl eq_refl).
Defined.
